(** * Shop Expense Manager: a shallow embedding of [main.py]

    The program is a single Streamlit script.  The embedding follows the
    script section by section: the utility functions first (hashing of the
    PIN, the arithmetic helpers, the record store), then the script body
    (PIN gate, form, expense rows, warning banner, save and PDF handlers,
    listing of the saved records, edit workflow).

    Conventions.
    - A Python [str] is a Rocq [string], one [ascii] per code point; the
      embedding therefore covers the strings whose code points are below
      256.  Python orders strings by code point, which is [String.compare].
    - A Python [int] is a [Z], a Python [float] is a primitive binary64
      [float].
    - The file system is a finite map from paths to file contents.
    - [datetime.now()] is a clock reading handed to the function that
      asks for it. *)

From Stdlib Require Import ZArith NArith String Ascii List Floats Lia.
From Stdlib Require Import Sorting.Sorted DecimalString DecimalZ.
From stdpp Require Import base option list gmap strings sorting.

Local Open Scope string_scope.

(** ** Strings *)

Module Str.

(** Lexicographic comparison by code point, the order of Python's [str]. *)
Definition lt (a b : string) : Prop := String.compare a b = Lt.

Lemma ascii_compare_refl c : Ascii.compare c c = Eq.
Proof. unfold Ascii.compare. apply N.compare_refl. Qed.

Lemma compare_refl s : String.compare s s = Eq.
Proof. induction s as [|c s IH]; simpl; [done|]. by rewrite ascii_compare_refl. Qed.

(** The two equations of [String.append], which [simpl] does not unfold. *)
Lemma app_nil (s : string) : "" ++ s = s.
Proof. reflexivity. Qed.

Lemma app_cons c (a b : string) : String c a ++ b = String c (a ++ b).
Proof. reflexivity. Qed.

Lemma compare_app_l p a b :
  String.compare (p ++ a) (p ++ b) = String.compare a b.
Proof.
  induction p as [|c p IH]; rewrite ?app_nil, ?app_cons; simpl; [done|].
  by rewrite ascii_compare_refl.
Qed.

Lemma compare_cons c a b :
  String.compare (String c a) (String c b) = String.compare a b.
Proof. simpl. by rewrite ascii_compare_refl. Qed.

Lemma lt_not_le a b : lt a b → ¬ String.le b a.
Proof.
  unfold lt, String.le, String.leb. intros H.
  rewrite String.compare_antisym, H. simpl. auto.
Qed.

Lemma lt_neq a b : lt a b → a ≠ b.
Proof. unfold lt. intros H ->. rewrite compare_refl in H. discriminate. Qed.

Lemma app_assoc (a b c : string) : (a ++ b) ++ c = a ++ (b ++ c).
Proof. induction a as [|x a IH]; rewrite ?app_nil, ?app_cons; congruence. Qed.

Lemma length_app (a b : string) :
  String.length (a ++ b) = (String.length a + String.length b)%nat.
Proof.
  induction a as [|x a IH]; rewrite ?app_nil, ?app_cons; simpl; congruence.
Qed.

(** Two concatenations with heads of the same length agree piecewise. *)
Lemma app_inj_length (a b c d : string) :
  String.length a = String.length c → a ++ b = c ++ d → a = c ∧ b = d.
Proof.
  revert c. induction a as [|x a IH]; intros [|y c] Hl H;
    rewrite ?app_nil, ?app_cons in H; simpl in *; try discriminate.
  - done.
  - injection H as -> H. destruct (IH c) as [-> ->]; [lia|done|done].
Qed.

(** The same, counting from the end. *)
Lemma app_inj_length_r (a b c d : string) :
  String.length b = String.length d → a ++ b = c ++ d → a = c ∧ b = d.
Proof.
  intros Hl H.
  assert (Hlen : String.length a = String.length c).
  { apply (f_equal String.length) in H. rewrite !length_app in H. lia. }
  by apply app_inj_length.
Qed.

(** [s.endswith(suffix)] *)
Definition endswith (s suffix : string) : bool :=
  let n := String.length s in
  let k := String.length suffix in
  (k <=? n)%nat && String.eqb (String.substring (n - k) k s) suffix.

(** [s.startswith(p)] *)
Definition startswith (s p : string) : bool := String.prefix p s.

(** [c in s] for a single character. *)
Fixpoint contains_char (c : ascii) (s : string) : bool :=
  match s with
  | EmptyString => false
  | String x s' => Ascii.eqb x c || contains_char c s'
  end.

(** The text up to the first occurrence of [sep] and the text after
    it, when [sep] occurs. *)
Fixpoint cut (n : nat) (sep s : string) : option (string * string) :=
  match n with
  | O => None
  | S n' =>
      if String.prefix sep s
      then Some (EmptyString,
                 String.substring (String.length sep)
                   (String.length s - String.length sep) s)
      else match s with
           | EmptyString => None
           | String c s' =>
               match cut n' sep s' with
               | Some (a, b) => Some (String c a, b)
               | None => None
               end
           end
  end.

(** [s.split(sep)] for a separator that is not empty. *)
Fixpoint split_fuel (n : nat) (sep s : string) : list string :=
  match n with
  | O => [s]
  | S n' =>
      match cut (S (String.length s)) sep s with
      | Some (a, b) => a :: split_fuel n' sep b
      | None => [s]
      end
  end.

Definition split (sep s : string) : list string :=
  split_fuel (String.length s) sep s.

End Str.

(** ** Decimal numerals *)

(** The character of the last decimal digit of [n]. *)
Definition digit (n : Z) : ascii := ascii_of_N (Z.to_N (48 + n mod 10)).

(** [%02d], [%04d] and [%06d] on the values a clock reading can take. *)
Definition pad2 (n : Z) : string :=
  String (digit (n / 10)) (String (digit n) "").

Definition pad4 (n : Z) : string := pad2 (n / 100) ++ pad2 (n mod 100).

Definition pad6 (n : Z) : string := pad2 (n / 10000) ++ pad4 (n mod 10000).

(** [str(n)] of an [int]. *)
Definition str_of_int (z : Z) : string :=
  NilZero.string_of_int (Z.to_int z).

(** ** The clock *)

(** A reading of [datetime.now()]. *)
Record datetime := {
  dt_year : Z; dt_month : Z; dt_day : Z;
  dt_hour : Z; dt_minute : Z; dt_second : Z;
  dt_microsecond : Z
}.

(** The ranges of the fields of a [datetime] whose year has four digits. *)
Definition valid_datetime (t : datetime) : Prop :=
  (1000 ≤ dt_year t < 10000 ∧ 1 ≤ dt_month t ≤ 12 ∧ 1 ≤ dt_day t ≤ 31 ∧
   0 ≤ dt_hour t < 24 ∧ 0 ≤ dt_minute t < 60 ∧ 0 ≤ dt_second t < 60 ∧
   0 ≤ dt_microsecond t < 1000000)%Z.

(** [t.strftime("%Y%m%d_%H%M%S")] *)
Definition strftime_stamp (t : datetime) : string :=
  pad4 (dt_year t) ++ pad2 (dt_month t) ++ pad2 (dt_day t) ++ "_" ++
  pad2 (dt_hour t) ++ pad2 (dt_minute t) ++ pad2 (dt_second t).

(** [t.isoformat()]: the microseconds are printed only when they are not 0. *)
Definition isoformat (t : datetime) : string :=
  pad4 (dt_year t) ++ "-" ++ pad2 (dt_month t) ++ "-" ++ pad2 (dt_day t) ++
  "T" ++ pad2 (dt_hour t) ++ ":" ++ pad2 (dt_minute t) ++ ":" ++
  pad2 (dt_second t) ++
  (if (dt_microsecond t =? 0)%Z then "" else "." ++ pad6 (dt_microsecond t)).

Definition thenc (c d : comparison) : comparison :=
  match c with Eq => d | _ => c end.

(** Chronological comparison of two readings, to the second. *)
Definition dt_compare (a b : datetime) : comparison :=
  thenc (dt_year a ?= dt_year b)%Z
  (thenc (dt_month a ?= dt_month b)%Z
  (thenc (dt_day a ?= dt_day b)%Z
  (thenc (dt_hour a ?= dt_hour b)%Z
  (thenc (dt_minute a ?= dt_minute b)%Z
         (dt_second a ?= dt_second b)%Z)))).

(** [a] was read in an earlier second than [b]. *)
Definition earlier (a b : datetime) : Prop := dt_compare a b = Lt.

(** [a] and [b] were read in the same second. *)
Definition same_second (a b : datetime) : Prop := dt_compare a b = Eq.

(** *** The stamp orders as the clock does *)

Lemma N_of_digit n : (0 ≤ n < 10)%Z → N_of_ascii (digit n) = Z.to_N (48 + n).
Proof.
  intros H. unfold digit. rewrite Z.mod_small by lia.
  rewrite N_ascii_embedding; [done|]. lia.
Qed.

Lemma compare_digit a b :
  (0 ≤ a < 10)%Z → (0 ≤ b < 10)%Z →
  Ascii.compare (digit a) (digit b) = (a ?= b)%Z.
Proof.
  intros Ha Hb. unfold Ascii.compare. rewrite !N_of_digit by done.
  rewrite Z2N.inj_compare by lia. apply Z.add_compare_mono_l.
Qed.

Lemma digit_mod n : digit n = digit (n mod 10).
Proof. unfold digit. by rewrite Z.mod_mod by lia. Qed.

Lemma compare_digit_cons a b s t :
  (0 ≤ a < 10)%Z → (0 ≤ b < 10)%Z →
  String.compare (String (digit a) s) (String (digit b) t) =
  thenc (a ?= b)%Z (String.compare s t).
Proof.
  intros Ha Hb. simpl. rewrite compare_digit by done.
  by destruct (a ?= b)%Z.
Qed.

Lemma thenc_div_mod a b k c :
  (0 < k)%Z →
  thenc (a / k ?= b / k)%Z (thenc (a mod k ?= b mod k)%Z c) =
  thenc (a ?= b)%Z c.
Proof.
  intros Hk.
  pose proof (Z.div_mod a k ltac:(lia)) as Ea.
  pose proof (Z.div_mod b k ltac:(lia)) as Eb.
  pose proof (Z.mod_pos_bound a k Hk) as Ba.
  pose proof (Z.mod_pos_bound b k Hk) as Bb.
  revert Ea Eb Ba Bb.
  generalize (a mod k)%Z (b mod k)%Z (a / k)%Z (b / k)%Z.
  intros ra rb qa qb Ea Eb Ba Bb.
  destruct (Z.compare_spec qa qb) as [E|L|G]; simpl.
  - subst qb.
    destruct (Z.compare_spec ra rb), (Z.compare_spec a b); simpl; try done; lia.
  - assert (k * qa + k ≤ k * qb)%Z by nia.
    destruct (Z.compare_spec a b); simpl; try done; lia.
  - assert (k * qb + k ≤ k * qa)%Z by nia.
    destruct (Z.compare_spec a b); simpl; try done; lia.
Qed.

Lemma compare_pad2 a b s t :
  (0 ≤ a < 100)%Z → (0 ≤ b < 100)%Z →
  String.compare (pad2 a ++ s) (pad2 b ++ t) =
  thenc (a ?= b)%Z (String.compare s t).
Proof.
  intros Ha Hb. unfold pad2. rewrite !Str.app_cons, !Str.app_nil.
  rewrite (digit_mod a), (digit_mod b).
  rewrite !compare_digit_cons;
    try (apply Z.mod_pos_bound; lia);
    try (split; [apply Z.div_pos|apply Z.div_lt_upper_bound]; lia).
  apply thenc_div_mod. lia.
Qed.

Lemma compare_pad4 a b s t :
  (0 ≤ a < 10000)%Z → (0 ≤ b < 10000)%Z →
  String.compare (pad4 a ++ s) (pad4 b ++ t) =
  thenc (a ?= b)%Z (String.compare s t).
Proof.
  intros Ha Hb. unfold pad4. rewrite !Str.app_assoc.
  rewrite !compare_pad2;
    try (apply Z.mod_pos_bound; lia);
    try (split; [apply Z.div_pos|apply Z.div_lt_upper_bound]; lia).
  apply thenc_div_mod. lia.
Qed.

Lemma length_pad2 n : String.length (pad2 n) = 2%nat.
Proof. reflexivity. Qed.

Lemma length_pad4 n : String.length (pad4 n) = 4%nat.
Proof. reflexivity. Qed.

Lemma length_strftime_stamp t : String.length (strftime_stamp t) = 15%nat.
Proof. reflexivity. Qed.

(** The stamps of two valid readings compare as the readings do. *)
Lemma compare_strftime_stamp a b s t :
  valid_datetime a → valid_datetime b →
  String.compare (strftime_stamp a ++ s) (strftime_stamp b ++ t) =
  thenc (dt_compare a b) (String.compare s t).
Proof.
  intros Va Vb. unfold valid_datetime in *. unfold strftime_stamp, dt_compare.
  rewrite !Str.app_assoc.
  rewrite compare_pad4 by lia. rewrite !compare_pad2 by lia.
  rewrite (Str.compare_app_l "_"). rewrite !compare_pad2 by lia.
  repeat match goal with |- context [(?x ?= ?y)%Z] =>
    destruct (x ?= y)%Z; simpl; try done end.
Qed.

(** ** Python values and built-ins *)

(** The exceptions the program can meet.  [OutsideModel] is not one of
    Python's: it marks an input that leaves the domain of the embedding
    (a character above code point 255 named by an escape in a JSON
    text). *)
Inductive exn :=
| KeyError (key : string)
| NameError (name : string)
| FileNotFoundError (path : string)
| JSONDecodeError
| TypeError
| ValueError
| OverflowError
| AttributeError
| IndexError
| RecursionError
| OutsideModel.

(** The result of an expression that may raise. *)
Inductive result (A : Type) :=
| Ok (a : A)
| Err (e : exn).
Arguments Ok {A} a.
Arguments Err {A} e.

#[global] Instance result_ret : MRet result := @Ok.
#[global] Instance result_bind : MBind result := λ A B k r,
  match r with Ok a => k a | Err e => Err e end.
#[global] Instance result_fmap : FMap result := λ A B g r,
  match r with Ok a => Ok (g a) | Err e => Err e end.

(** The values that occur in the program's records: what [json.load]
    can return.  A [dict] keeps its keys in insertion order. *)
#[warnings="-register-all"]
Inductive pyval :=
| PNone
| PBool (b : bool)
| PInt (z : Z)
| PFloat (f : float)
| PStr (s : string)
| PList (l : list pyval)
| PDict (d : list (string * pyval)).

Abbreviation dict := (list (string * pyval)).

(** [d.get(k)], as an option. *)
Fixpoint dict_lookup (k : string) (d : dict) : option pyval :=
  match d with
  | [] => None
  | (k', v) :: d' => if String.eqb k' k then Some v else dict_lookup k d'
  end.

(** [d[k] = v]: an existing key keeps its place, a new one goes last. *)
Fixpoint dict_set (k : string) (v : pyval) (d : dict) : dict :=
  match d with
  | [] => [(k, v)]
  | (k', v') :: d' =>
      if String.eqb k' k then (k, v) :: d' else (k', v') :: dict_set k v d'
  end.

(** [x.get(k, default)] *)
Definition py_get (x : pyval) (k : string) (dflt : pyval) : result pyval :=
  match x with
  | PDict d => Ok (default dflt (dict_lookup k d))
  | _ => Err AttributeError
  end.

(** [x[k]] for a string [k]. *)
Definition py_getitem (x : pyval) (k : string) : result pyval :=
  match x with
  | PDict d =>
      match dict_lookup k d with Some v => Ok v | None => Err (KeyError k) end
  | _ => Err TypeError
  end.

(** [bool(x)] *)
Definition truthy (x : pyval) : bool :=
  match x with
  | PNone => false
  | PBool b => b
  | PInt z => negb (z =? 0)%Z
  | PFloat f => negb (PrimFloat.eqb f 0)
  | PStr s => negb (String.eqb s "")
  | PList l => match l with [] => false | _ => true end
  | PDict d => match d with [] => false | _ => true end
  end.

(** [x or y] *)
Definition py_or (x y : pyval) : pyval := if truthy x then x else y.

(** *** Numbers *)

(** [float(n)] of an [int]: the nearest double, ties to even; a magnitude
    beyond the doubles is an [OverflowError]. *)
Definition float_of_int (z : Z) : result float :=
  match binary_normalize prec emax z 0 false with
  | S754_infinity _ => Err OverflowError
  | x => Ok (SF2Prim x)
  end.

(** [int(x)] of a [float]: truncation toward zero. *)
Definition int_of_float (f : float) : result Z :=
  match Prim2SF f with
  | S754_zero _ => Ok 0%Z
  | S754_finite s m e =>
      let v := if (0 <=? e)%Z then (Z.pos m * 2 ^ e)%Z
               else (Z.pos m / 2 ^ (- e))%Z in
      Ok (if s then (- v)%Z else v)
  | S754_infinity _ => Err OverflowError
  | S754_nan => Err ValueError
  end.

(** [round(x)] of a [float]: the nearest [int], ties to even. *)
Definition round_float (f : float) : result Z :=
  match Prim2SF f with
  | S754_zero _ => Ok 0%Z
  | S754_finite s m e =>
      let v :=
        if (0 <=? e)%Z then (Z.pos m * 2 ^ e)%Z
        else
          let d := (2 ^ (- e))%Z in
          let q := (Z.pos m / d)%Z in
          match (2 * (Z.pos m mod d) ?= d)%Z with
          | Lt => q
          | Gt => (q + 1)%Z
          | Eq => if Z.even q then q else (q + 1)%Z
          end in
      Ok (if s then (- v)%Z else v)
  | S754_infinity _ => Err OverflowError
  | S754_nan => Err ValueError
  end.

(** A double that is neither infinite nor a NaN. *)
Definition finite (f : float) : bool :=
  match Prim2SF f with
  | S754_zero _ | S754_finite _ _ _ => true
  | _ => false
  end.

(** ** SHA-256

    [hashlib.sha256(data).hexdigest()], after FIPS 180-4, on a list of
    bytes.  Words are 32-bit integers in [Z], reduced after each sum. *)

Module SHA256.
Local Open Scope Z_scope.

Definition w32 (x : Z) : Z := x mod 2 ^ 32.

Definition rotr (n x : Z) : Z :=
  Z.lor (Z.shiftr x n) (w32 (Z.shiftl x (32 - n))).

Definition ch (x y z : Z) : Z :=
  Z.lxor (Z.land x y) (Z.land (w32 (Z.lnot x)) z).

Definition maj (x y z : Z) : Z :=
  Z.lxor (Z.lxor (Z.land x y) (Z.land x z)) (Z.land y z).

Definition bsig0 (x : Z) : Z :=
  Z.lxor (Z.lxor (rotr 2 x) (rotr 13 x)) (rotr 22 x).

Definition bsig1 (x : Z) : Z :=
  Z.lxor (Z.lxor (rotr 6 x) (rotr 11 x)) (rotr 25 x).

Definition ssig0 (x : Z) : Z :=
  Z.lxor (Z.lxor (rotr 7 x) (rotr 18 x)) (Z.shiftr x 3).

Definition ssig1 (x : Z) : Z :=
  Z.lxor (Z.lxor (rotr 17 x) (rotr 19 x)) (Z.shiftr x 10).

Definition K : list Z := [
  1116352408; 1899447441; 3049323471; 3921009573; 961987163; 1508970993;
  2453635748; 2870763221; 3624381080; 310598401; 607225278; 1426881987;
  1925078388; 2162078206; 2614888103; 3248222580; 3835390401; 4022224774;
  264347078; 604807628; 770255983; 1249150122; 1555081692; 1996064986;
  2554220882; 2821834349; 2952996808; 3210313671; 3336571891; 3584528711;
  113926993; 338241895; 666307205; 773529912; 1294757372; 1396182291;
  1695183700; 1986661051; 2177026350; 2456956037; 2730485921; 2820302411;
  3259730800; 3345764771; 3516065817; 3600352804; 4094571909; 275423344;
  430227734; 506948616; 659060556; 883997877; 958139571; 1322822218;
  1537002063; 1747873779; 1955562222; 2024104815; 2227730452; 2361852424;
  2428436474; 2756734187; 3204031479; 3329325298 ].

Definition H0 : list Z := [
  1779033703; 3144134277; 1013904242; 2773480762; 1359893119; 2600822924;
  528734635; 1541459225 ].

(** The message, the byte [0x80], zero bytes up to 56 modulo 64, and
    the length of the message in bits as eight big-endian bytes. *)
Definition pad (msg : list Z) : list Z :=
  let n := Z.of_nat (length msg) in
  let zeros := Z.to_nat ((55 - n) mod 64) in
  let bits := 8 * n in
  msg ++ [128] ++ repeat 0 zeros ++
  map (λ i, Z.shiftr bits (8 * i) mod 256) [7; 6; 5; 4; 3; 2; 1; 0].

(** Big-endian words of a list of bytes. *)
Fixpoint words (bs : list Z) : list Z :=
  match bs with
  | a :: b :: c :: d :: bs' =>
      (((a * 256 + b) * 256 + c) * 256 + d) :: words bs'
  | _ => []
  end.

(** The message schedule: [rev_w] holds the words so far, latest first. *)
Fixpoint schedule (n : nat) (rev_w : list Z) : list Z :=
  match n with
  | O => rev rev_w
  | S n' =>
      let w t := nth t rev_w 0 in
      schedule n' (w32 (ssig1 (w 1%nat) + w 6%nat + ssig0 (w 14%nat) + w 15%nat) :: rev_w)
  end.

Definition state : Type := Z * Z * Z * Z * Z * Z * Z * Z.

Definition round (s : state) (kw : Z * Z) : state :=
  let '(a, b, c, d, e, f, g, h) := s in
  let t1 := h + bsig1 e + ch e f g + fst kw + snd kw in
  let t2 := bsig0 a + maj a b c in
  (w32 (t1 + t2), a, b, c, w32 (d + t1), e, f, g).

Definition compress (s : state) (block : list Z) : state :=
  let w := schedule 48 (rev (words block)) in
  let '(a, b, c, d, e, f, g, h) := s in
  let '(a', b', c', d', e', f', g', h') :=
    fold_left round (combine K w) s in
  (w32 (a + a'), w32 (b + b'), w32 (c + c'), w32 (d + d'),
   w32 (e + e'), w32 (f + f'), w32 (g + g'), w32 (h + h')).

(** The blocks of 64 bytes of a padded message. *)
Fixpoint blocks (n : nat) (bs : list Z) : list (list Z) :=
  match n with
  | O => []
  | S n' => take 64 bs :: blocks n' (drop 64 bs)
  end.

Definition init : state :=
  match H0 with
  | [a; b; c; d; e; f; g; h] => (a, b, c, d, e, f, g, h)
  | _ => (0, 0, 0, 0, 0, 0, 0, 0)
  end.

Definition digest_words (msg : list Z) : list Z :=
  let p := pad msg in
  let '(a, b, c, d, e, f, g, h) :=
    fold_left compress (blocks (length p / 64) p) init in
  [a; b; c; d; e; f; g; h].

Definition hex_digit (n : Z) : ascii :=
  if n mod 16 <? 10 then ascii_of_N (Z.to_N (48 + n mod 16))
  else ascii_of_N (Z.to_N (87 + n mod 16)).

(** Eight lower-case hexadecimal digits of a word. *)
Definition hex_word (w : Z) : string :=
  fold_right (λ i s, String (hex_digit (Z.shiftr w (4 * i))) s) ""
    [7; 6; 5; 4; 3; 2; 1; 0].

Definition hexdigest (msg : list Z) : string :=
  fold_right (λ w s, hex_word w ++ s)%string "" (digest_words msg).
End SHA256.

(** [text.encode("utf-8")] on code points below 256. *)
Definition utf8_encode (s : string) : list Z :=
  flat_map (λ c : ascii,
    let n := Z.of_N (N_of_ascii c) in
    if (n <? 128)%Z then [n]
    else [Z.lor 192 (Z.shiftr n 6); Z.lor 128 (Z.land n 63)])
    (list_ascii_of_string s).

(** [sha256(text)] *)
Definition sha256 (text : string) : string :=
  SHA256.hexdigest (utf8_encode text).

Example sha256_empty :
  sha256 "" = "e3b0c44298fc1c149afbf4c8996fb92427ae41e4649b934ca495991b7852b855".
Proof. vm_compute. reflexivity. Qed.

Example sha256_abc :
  sha256 "abc" = "ba7816bf8f01cfea414140de5dae2223b00361a396177a9cb410ff61f20015ad".
Proof. vm_compute. reflexivity. Qed.

Example sha256_1234 :
  sha256 "1234" = "03ac674216f3e15c761ee1a5e255f067953623c8b388b4459e13f978d7c846f4".
Proof. vm_compute. reflexivity. Qed.

Example sha256_two_blocks :
  sha256 (String.concat "" (repeat "a" 100)) =
  "2816597888e4a0d3a36b82b83316ab32680eb8f00f8cd3b904d681246d285a0e".
Proof. vm_compute. reflexivity. Qed.

Example sha256_superscripts :
  sha256 (String (ascii_of_nat 178) (String (ascii_of_nat 178)
         (String (ascii_of_nat 178) (String (ascii_of_nat 178) "")))) =
  "2b5dde4d1553c82a48145044cba8727c2c169ab702b47e21b662f960b44f35c7".
Proof. vm_compute. reflexivity. Qed.

(** *** Strings *)

Definition code (c : ascii) : N := N_of_ascii c.

(** The characters on which [str.isdigit] holds, among the code points
    below 256: the decimal digits and the superscripts two, three, one. *)
Definition isdigit_char (c : ascii) : bool :=
  ((48 <=? code c) && (code c <=? 57) ||
   (code c =? 178) || (code c =? 179) || (code c =? 185))%N.

(** The characters on which [str.isspace] holds, below 256. *)
Definition isspace_char (c : ascii) : bool :=
  ((9 <=? code c) && (code c <=? 13) || (28 <=? code c) && (code c <=? 32) ||
   (code c =? 133) || (code c =? 160))%N.

Fixpoint forall_chars (p : ascii → bool) (s : string) : bool :=
  match s with
  | EmptyString => true
  | String c s' => p c && forall_chars p s'
  end.

(** [s.isdigit()]: every character is a digit and there is at least one. *)
Definition isdigit (s : string) : bool :=
  negb (String.eqb s "") && forall_chars isdigit_char s.

(** [len(s)] *)
Definition len (s : string) : Z := Z.of_nat (String.length s).

Fixpoint lstrip (s : string) : string :=
  match s with
  | EmptyString => EmptyString
  | String c s' => if isspace_char c then lstrip s' else s
  end.

Fixpoint rstrip (s : string) : string :=
  match s with
  | EmptyString => EmptyString
  | String c s' =>
      match rstrip s' with
      | EmptyString => if isspace_char c then EmptyString else String c EmptyString
      | r => String c r
      end
  end.

(** [s.strip()] *)
Definition strip (s : string) : string := rstrip (lstrip s).

(** *** Conversions between text and numbers

    [repr] of a [float], [float] of a [str] and [int] of a [str] are
    CPython's; the embedding takes them as an interface.  [None] stands
    for the [ValueError] of a text that is not a numeral. *)
Class TextConv := {
  float_repr : float → string;
  float_of_str : string → option float;
  int_of_str : string → option Z
}.

Section Builtins.
Context `{TextConv}.

(** [float(x)] *)
Definition py_float (x : pyval) : result float :=
  match x with
  | PFloat f => Ok f
  | PInt z => float_of_int z
  | PBool b => Ok (if b then 1 else 0)%float
  | PStr s =>
      match float_of_str s with Some f => Ok f | None => Err ValueError end
  | _ => Err TypeError
  end.

(** [int(x)] *)
Definition py_int (x : pyval) : result Z :=
  match x with
  | PInt z => Ok z
  | PFloat f => int_of_float f
  | PBool b => Ok (if b then 1 else 0)%Z
  | PStr s =>
      match int_of_str s with Some z => Ok z | None => Err ValueError end
  | _ => Err TypeError
  end.

(** [round(x)], without a number of digits. *)
Definition py_round (x : pyval) : result Z :=
  match x with
  | PInt z => Ok z
  | PFloat f => round_float f
  | PBool b => Ok (if b then 1 else 0)%Z
  | _ => Err TypeError
  end.
End Builtins.

(** ** JSON text

    [json.dumps(obj, ensure_ascii=False, indent=2)] and [json.loads(s)]
    of the standard library, on the values of [pyval]. *)

Module Json.

Definition dquote : ascii := Eval cbv in ascii_of_nat 34.
Definition newline : ascii := Eval cbv in ascii_of_nat 10.

Definition hex_digit (n : N) : ascii :=
  if (n <? 10)%N then ascii_of_N (48 + n) else ascii_of_N (87 + n).

(** The replacement of one character inside a string literal: the
    quote, the backslash and the control characters are escaped, every
    other character stands for itself. *)
Definition escape_char (c : ascii) : string :=
  if Ascii.eqb c dquote then String "\" (String dquote "")
  else if Ascii.eqb c "\" then "\\"
  else if Ascii.eqb c "008" then "\b"
  else if Ascii.eqb c "012" then "\f"
  else if Ascii.eqb c "010" then "\n"
  else if Ascii.eqb c "013" then "\r"
  else if Ascii.eqb c "009" then "\t"
  else if (code c <? 32)%N then
    String "\" (String "u" (String "0" (String "0"
      (String (hex_digit (code c / 16)) (String (hex_digit (code c mod 16)) "")))))
  else String c "".

Fixpoint escape (s : string) : string :=
  match s with
  | EmptyString => EmptyString
  | String c s' => escape_char c ++ escape s'
  end.

(** [encode_basestring] *)
Definition encode_basestring (s : string) : string :=
  String dquote (escape s ++ String dquote "").

(** A line break and the indentation of a nesting level. *)
Definition newline_indent (level : nat) : string :=
  String newline (String.concat "" (repeat " " (2 * level))).

Section Codec.
Context `{TextConv}.

(** [floatstr] *)
Definition floatstr (f : float) : string :=
  match Prim2SF f with
  | S754_nan => "NaN"
  | S754_infinity false => "Infinity"
  | S754_infinity true => "-Infinity"
  | _ => float_repr f
  end.

(** The text of a value at a nesting level: the items of a list and
    the members of a dictionary go one to a line, indented, joined by
    commas. *)
Fixpoint encode (level : nat) (v : pyval) : string :=
  match v with
  | PNone => "null"
  | PBool true => "true"
  | PBool false => "false"
  | PInt z => str_of_int z
  | PFloat f => floatstr f
  | PStr s => encode_basestring s
  | PList [] => "[]"
  | PList l =>
      "[" ++ newline_indent (S level) ++
      String.concat ("," ++ newline_indent (S level))
        (map (encode (S level)) l) ++
      newline_indent level ++ "]"
  | PDict [] => "{}"
  | PDict d =>
      "{" ++ newline_indent (S level) ++
      String.concat ("," ++ newline_indent (S level))
        (map (λ kv, encode_basestring (fst kv) ++ ": " ++
                    encode (S level) (snd kv)) d) ++
      newline_indent level ++ "}"
  end.

(** [json.dumps(obj, ensure_ascii=False, indent=2)] *)
Definition dumps (v : pyval) : string := encode 0 v.

(** *** Decoding *)

Definition is_ws (c : ascii) : bool :=
  Ascii.eqb c " " || Ascii.eqb c "009" || Ascii.eqb c "010" || Ascii.eqb c "013".

Fixpoint skip_ws (s : string) : string :=
  match s with
  | EmptyString => EmptyString
  | String c s' => if is_ws c then skip_ws s' else s
  end.

Definition hex_value (c : ascii) : option N :=
  let n := code c in
  if ((48 <=? n) && (n <=? 57))%N then Some (n - 48)%N
  else if ((97 <=? n) && (n <=? 102))%N then Some (n - 87)%N
  else if ((65 <=? n) && (n <=? 70))%N then Some (n - 55)%N
  else None.

Definition hex4 (a b c d : ascii) : option N :=
  x ← hex_value a; y ← hex_value b; z ← hex_value c; w ← hex_value d;
  Some (((x * 16 + y) * 16 + z) * 16 + w)%N.

(** The character a one-letter escape stands for. *)
Definition unescape (e : ascii) : option ascii :=
  if Ascii.eqb e dquote then Some dquote
  else if Ascii.eqb e "\" then Some "\"%char
  else if Ascii.eqb e "/" then Some "/"%char
  else if Ascii.eqb e "b" then Some "008"%char
  else if Ascii.eqb e "f" then Some "012"%char
  else if Ascii.eqb e "n" then Some "010"%char
  else if Ascii.eqb e "r" then Some "013"%char
  else if Ascii.eqb e "t" then Some "009"%char
  else None.

Definition cons_char (c : ascii) (r : result (string * string))
  : result (string * string) :=
  match r with
  | Ok (str, rest) => Ok (String c str, rest)
  | Err e => Err e
  end.

(** [scanstring], in strict mode, from the character after the
    opening quote: the string and the text after the closing quote.
    An escape [\uXXXX] above [ÿ] names a character outside the
    strings of the embedding. *)
Fixpoint scanstring (s : string) : result (string * string) :=
  match s with
  | EmptyString => Err JSONDecodeError
  | String c s1 =>
      if Ascii.eqb c dquote then Ok (EmptyString, s1)
      else if Ascii.eqb c "\" then
        match s1 with
        | EmptyString => Err JSONDecodeError
        | String e s2 =>
            if Ascii.eqb e "u" then
              match s2 with
              | String h1 (String h2 (String h3 (String h4 s3))) =>
                  match hex4 h1 h2 h3 h4 with
                  | Some n =>
                      if (n <? 256)%N
                      then cons_char (ascii_of_N n) (scanstring s3)
                      else Err OutsideModel
                  | None => Err JSONDecodeError
                  end
              | _ => Err JSONDecodeError
              end
            else
              match unescape e with
              | Some ch => cons_char ch (scanstring s2)
              | None => Err JSONDecodeError
              end
        end
      else if (code c <? 32)%N then Err JSONDecodeError
      else cons_char c (scanstring s1)
  end.

Definition is_digit (c : ascii) : bool :=
  ((48 <=? code c) && (code c <=? 57))%N.

(** The longest prefix of digits, and the rest. *)
Fixpoint span_digits (s : string) : string * string :=
  match s with
  | EmptyString => (EmptyString, EmptyString)
  | String c s' =>
      if is_digit c
      then let '(ds, rest) := span_digits s' in (String c ds, rest)
      else (EmptyString, s)
  end.

(** The integer part of a number: an optional minus sign, then either
    [0] alone or a digit from 1 to 9 followed by digits. *)
Definition lex_integer (s : string) : option (string * string) :=
  let '(sign, s1) :=
    match s with
    | String "-" s' => ("-", s')
    | _ => ("", s)
    end in
  match s1 with
  | String "0" s2 => Some (sign ++ "0", s2)
  | String c _ =>
      if is_digit c
      then let '(ds, rest) := span_digits s1 in Some (sign ++ ds, rest)
      else None
  | EmptyString => None
  end.

(** The fraction, when there is one: a point and at least one digit. *)
Definition lex_frac (s : string) : string * string :=
  match s with
  | String "." s1 =>
      match span_digits s1 with
      | (EmptyString, _) => ("", s)
      | (ds, rest) => (String "." ds, rest)
      end
  | _ => ("", s)
  end.

(** The exponent, when there is one: [e] or [E], an optional sign and
    at least one digit. *)
Definition lex_exp (s : string) : string * string :=
  match s with
  | String e s1 =>
      if Ascii.eqb e "e" || Ascii.eqb e "E" then
        let '(sign, s2) :=
          match s1 with
          | String "+" s' => ("+", s')
          | String "-" s' => ("-", s')
          | _ => ("", s1)
          end in
        match span_digits s2 with
        | (EmptyString, _) => ("", s)
        | (ds, rest) => (String e (sign ++ ds), rest)
        end
      else ("", s)
  | EmptyString => ("", s)
  end.

(** [int(text)] of the integer part of a number. *)
Definition int_of_integer (text : string) : Z :=
  match NilZero.int_of_string text with
  | Some d => Z.of_int d
  | None => 0%Z
  end.

(** The match of [NUMBER_RE] at the head of the text, as a value. *)
Definition scan_number (s : string) : option (result pyval * string) :=
  match lex_integer s with
  | None => None
  | Some (integer, s1) =>
      let '(frac, s2) := lex_frac s1 in
      let '(exp, s3) := lex_exp s2 in
      if String.eqb frac "" && String.eqb exp ""
      then Some (Ok (PInt (int_of_integer integer)), s3)
      else Some (match float_of_str (integer ++ frac ++ exp) with
                 | Some f => Ok (PFloat f)
                 | None => Err ValueError
                 end, s3)
  end.

(** [s.startswith(word)], and the text after the word. *)
Fixpoint eat (word s : string) : option string :=
  match word, s with
  | EmptyString, _ => Some s
  | String a word', String b s' =>
      if Ascii.eqb a b then eat word' s' else None
  | _, EmptyString => None
  end.

(** [dict(pairs)]: a repeated key keeps its first place and its last
    value. *)
Definition dict_of_pairs (pairs : list (string * pyval)) : dict :=
  fold_left (λ d kv, dict_set (fst kv) (snd kv) d) pairs [].

(** [scan_once]: the value at the head of the text and the text after
    it.  Every call consumes text, so the length of the text bounds
    the calls; [fuel] counts them. *)
Fixpoint scan_once (fuel : nat) (s : string) {struct fuel}
  : result (pyval * string) :=
  match fuel with
  | O => Err RecursionError
  | S fuel' =>
      match s with
      | EmptyString => Err JSONDecodeError
      | String c s1 =>
          if Ascii.eqb c dquote then
            '(str, rest) ← scanstring s1; Ok (PStr str, rest)
          else if Ascii.eqb c "{" then
            match skip_ws s1 with
            | String "}" rest => Ok (PDict [], rest)
            | s2 =>
                '(pairs, rest) ← object_members fuel' s2;
                Ok (PDict (dict_of_pairs pairs), rest)
            end
          else if Ascii.eqb c "[" then
            match skip_ws s1 with
            | String "]" rest => Ok (PList [], rest)
            | s2 =>
                '(items, rest) ← array_items fuel' s2;
                Ok (PList items, rest)
            end
          else
            match eat "null" s, eat "true" s, eat "false" s with
            | Some rest, _, _ => Ok (PNone, rest)
            | _, Some rest, _ => Ok (PBool true, rest)
            | _, _, Some rest => Ok (PBool false, rest)
            | _, _, _ =>
                match scan_number s with
                | Some (r, rest) => v ← r; Ok (v, rest)
                | None =>
                    match eat "NaN" s, eat "Infinity" s, eat "-Infinity" s with
                    | Some rest, _, _ => Ok (PFloat nan, rest)
                    | _, Some rest, _ => Ok (PFloat infinity, rest)
                    | _, _, Some rest => Ok (PFloat neg_infinity, rest)
                    | _, _, _ => Err JSONDecodeError
                    end
                end
            end
      end
  end

(** The items of an array from its first value to the closing
    bracket. *)
with array_items (fuel : nat) (s : string) {struct fuel}
  : result (list pyval * string) :=
  match fuel with
  | O => Err RecursionError
  | S fuel' =>
      '(v, s1) ← scan_once fuel' s;
      match skip_ws s1 with
      | String "]" rest => Ok ([v], rest)
      | String "," s2 =>
          '(vs, rest) ← array_items fuel' (skip_ws s2);
          Ok (v :: vs, rest)
      | _ => Err JSONDecodeError
      end
  end

(** The members of an object from the quote of its first key to the
    closing brace. *)
with object_members (fuel : nat) (s : string) {struct fuel}
  : result (list (string * pyval) * string) :=
  match fuel with
  | O => Err RecursionError
  | S fuel' =>
      match eat (String dquote "") s with
      | None => Err JSONDecodeError
      | Some s1 =>
          '(k, s2) ← scanstring s1;
          match skip_ws s2 with
          | String ":" s3 =>
              '(v, s4) ← scan_once fuel' (skip_ws s3);
              match skip_ws s4 with
              | String "}" rest => Ok ([(k, v)], rest)
              | String "," s5 =>
                  '(kvs, rest) ← object_members fuel' (skip_ws s5);
                  Ok ((k, v) :: kvs, rest)
              | _ => Err JSONDecodeError
              end
          | _ => Err JSONDecodeError
          end
      end
  end.

(** [json.loads(s)]: one value, white space around it, nothing else. *)
Definition loads (s : string) : result pyval :=
  '(v, rest) ← scan_once (S (String.length s)) (skip_ws s);
  match skip_ws rest with
  | EmptyString => Ok v
  | _ => Err JSONDecodeError
  end.
End Codec.
End Json.

(** ** Configuration and the file system *)

Definition RECORDS_DIR : string := "records".
Definition PIN_FILE : string := ".pin_hash".

(** [os.path.join(a, b)] *)
Definition path_join (a b : string) : string :=
  if Str.startswith b "/" then b
  else if String.eqb a "" || Str.endswith a "/" then a ++ b
  else a ++ "/" ++ b.

(** The name of a file directly inside a directory, from its path. *)
Definition entry_of (dir path : string) : option string :=
  let prefix := dir ++ "/" in
  let n := String.length prefix in
  let name := String.substring n (String.length path - n) path in
  if Str.startswith path prefix && negb (String.eqb name "") &&
     negb (Str.contains_char "/" name)
  then Some name else None.

(** [os.listdir(dir)], in the order the system gives. *)
Definition listdir (dir : string) (files : gmap string string) : list string :=
  omap (entry_of dir) (elements (dom files)).

(** [os.path.exists(path)] for the path of a file. *)
Definition path_exists (path : string) (files : gmap string string) : bool :=
  bool_decide (is_Some (files !! path)).

(** [list.sort(reverse=True)] on strings: descending code-point order. *)
Definition sort_reverse (l : list string) : list string :=
  merge_sort (λ a b, String.le b a) l.

(** ** The utility functions of the program *)

(** [set_pin] *)
Definition set_pin (pin : string) (files : gmap string string)
  : gmap string string :=
  <[PIN_FILE := sha256 pin]> files.

(** [check_pin] *)
Definition check_pin (pin : string) (files : gmap string string) : bool :=
  match files !! PIN_FILE with
  | None => false
  | Some content => String.eqb (strip content) (sha256 pin)
  end.

Definition isleap (year : Z) : bool :=
  ((year mod 4 =? 0) && (negb (year mod 100 =? 0) || (year mod 400 =? 0)))%Z.

(** [days_in_month]: [calendar.monthrange(year, month)[1]]; a month
    outside 1..12 is the library's [IllegalMonthError], which is a
    [ValueError]. *)
Definition days_in_month (year month : Z) : result Z :=
  if ((1 <=? month) && (month <=? 12))%Z then
    Ok (if (month =? 2)%Z then (if isleap year then 29 else 28)
        else if ((month =? 4) || (month =? 6) || (month =? 9) || (month =? 11))%Z
             then 30 else 31)%Z
  else Err ValueError.

(** [sum] over floats, from the left.  (From Python 3.12 on [sum]
    compensates the rounding errors; the two agree when the partial sums
    are exact.) *)
Definition float_sum (l : list float) : float :=
  fold_left PrimFloat.add l 0%float.

Section Utilities.
Context `{TextConv}.

(** [compute_total_sales]: [sum(int(x or 0) for x in daily)] *)
Fixpoint total_sales_from (acc : Z) (daily : list pyval) : result Z :=
  match daily with
  | [] => Ok acc
  | x :: daily' =>
      n ← py_int (py_or x (PInt 0)); total_sales_from (acc + n)%Z daily'
  end.

Definition compute_total_sales (daily : list pyval) : result Z :=
  total_sales_from 0 daily.

(** [compute_profit]: [total_sales * (pct / 100.0)] *)
Definition compute_profit (total_sales : Z) (pct : float) : result float :=
  t ← float_of_int total_sales; Ok (t * (pct / 100))%float.

(** [compute_total_expenses]:
    [sum(float(e.get("amount", 0) or 0) for e in expenses)].
    The sum of no expense is the [int] 0 in Python, which every use in
    the program treats as the [float] 0.0 given here. *)
Fixpoint total_expenses_from (acc : float) (expenses : list pyval)
  : result float :=
  match expenses with
  | [] => Ok acc
  | e :: expenses' =>
      a ← py_get e "amount" (PInt 0);
      x ← py_float (py_or a (PInt 0));
      total_expenses_from (acc + x)%float expenses'
  end.

Definition compute_total_expenses (expenses : list pyval) : result float :=
  total_expenses_from 0%float expenses.

(** [fmt_pk]: the integer [int(round(num))] that the format prints; the
    currency symbol and the grouping of the digits are presentation. *)
Definition fmt_pk (num : pyval) : result Z := py_round num.

(** *** Records *)

(** The record that the save and PDF handlers build. *)
Record record := {
  created_at : string;
  month : Z;
  month_name : string;
  year : Z;
  shop_name : string;
  tagline : string;
  profit_pct : float;
  total_sales : Z;
  profit_amount : float;
  total_expenses : float;
  remaining_profit : float;
  daily_sales : list Z;
  expenses : list pyval
}.

(** The dictionary of a record, its keys in the order of the source. *)
Definition record_dict (r : record) : pyval :=
  PDict [("created_at", PStr (created_at r));
         ("month", PInt (month r));
         ("month_name", PStr (month_name r));
         ("year", PInt (year r));
         ("shop_name", PStr (shop_name r));
         ("tagline", PStr (tagline r));
         ("profit_pct", PFloat (profit_pct r));
         ("total_sales", PInt (total_sales r));
         ("profit_amount", PFloat (profit_amount r));
         ("total_expenses", PFloat (total_expenses r));
         ("remaining_profit", PFloat (remaining_profit r));
         ("daily_sales", PList (map PInt (daily_sales r)));
         ("expenses", PList (expenses r))].

(** The file name [save_record_json] gives a record saved at [t]. *)
Definition record_filename (mname : string) (y : Z) (t : datetime) : string :=
  "record_" ++ mname ++ "_" ++ str_of_int y ++ "_" ++
  strftime_stamp t ++ ".json".

(** [save_record_json], with the reading [t] of the clock: the path
    written and the files after the write. *)
Definition save_record_json (t : datetime) (r : record)
    (files : gmap string string) : string * gmap string string :=
  let filename := record_filename (month_name r) (year r) t in
  let path := path_join RECORDS_DIR filename in
  (path, <[path := Json.dumps (record_dict r)]> files).

(** [list_saved_records] *)
Definition list_saved_records (files : gmap string string) : list string :=
  sort_reverse (filter (λ f, Str.endswith f ".json") (listdir RECORDS_DIR files)).

(** [load_record] *)
Definition load_record (path : string) (files : gmap string string)
  : result pyval :=
  match files !! path with
  | None => Err (FileNotFoundError path)
  | Some content => Json.loads content
  end.
End Utilities.

(** ** The script

    Streamlit runs the script from top to bottom at every interaction.
    A run reads the widgets ([inputs]), the files and the session state,
    and ends normally, with an uncaught exception, at [st.stop()] or at
    [st.rerun()]. *)

(** The buttons of the page; at most one is pressed in a run. *)
Inductive button :=
| BSetPin
| BUnlock
| BSetMonthYear
| BRemove (idx : nat)
| BAddExpense
| BCalc
| BSave
| BPdf
| BPdfFor (fname : string)
| BLoad (fname : string)
| BEditRemove (idx : nat)
| BEditAdd
| BSaveChanges.

#[global] Instance button_eq_dec : EqDecision button.
Proof. solve_decision. Defined.

(** What the widgets return in a run, and the readings of the clock. *)
Record inputs := {
  clicked : option button;
  clock : nat → datetime;
  in_set_pin : string;
  in_pin_attempt : string;
  in_shop_name : string;
  in_tagline : string;
  in_month_name : string;
  in_year : Z;
  in_day : Z → Z;
  in_profit_pct : float;
  in_ex_name : nat → string;
  in_ex_amt : nat → Z;
  in_edit_shop : string;
  in_edit_tagline : string;
  in_edit_profit_pct : float;
  in_edit_days : Z;
  in_edit_day : nat → Z;
  in_edit_ex_name : nat → string;
  in_edit_ex_amt : nat → Z
}.

(** A row of the expenses of the form: [{"name": ..., "amount": ...}]. *)
Record expense := { ex_name : string; ex_amount : Z }.

Definition expense_dict (e : expense) : pyval :=
  PDict [("name", PStr (ex_name e)); ("amount", PInt (ex_amount e))].

(** The values kept by [Calculate Summary]. *)
Record summary := {
  sm_total_sales : Z;
  sm_profit_pct : float;
  sm_profit_amount : float;
  sm_total_expenses : float;
  sm_remaining_profit : float
}.

(** [st.session_state]: the keys the script uses; [None] is an absent
    key. *)
Record session := {
  unlocked : option bool;
  ss_expenses : option (list expense);
  last_summary : option summary;
  editing_file : option string;
  editing_data : option pyval;
  edit_expenses : option pyval
}.

Definition new_session : session :=
  {| unlocked := None; ss_expenses := None; last_summary := None;
     editing_file := None; editing_data := None; edit_expenses := None |}.

(** What a run shows, as far as the claims go: the banners. *)
Inductive message :=
| Warning_set_pin
| Error_pin_format
| Success_pin_saved
| Success_unlocked
| Error_incorrect_pin
| Info_enter_pin
| Info_add_expenses
| Error_expenses_exceed (total_expenses profit_amount remaining_profit : Z)
| Success_summary
| Success_record_saved (path : string)
| Success_pdf_saved (path : string)
| Info_no_records
| Success_record_updated (path : string).

(** The state a run works on. *)
Record world := {
  files : gmap string string;
  state : session;
  shown : list message;
  ticks : nat
}.

(** How a piece of the script ends. *)
Inductive flow (A : Type) :=
| Done (a : A)
| Raised (e : exn)
| Stopped
| Rerun.
Arguments Done {A} a.
Arguments Raised {A} e.
Arguments Stopped {A}.
Arguments Rerun {A}.

Definition script (A : Type) : Type := world → flow A * world.

#[global] Instance script_ret : MRet script := λ A a w, (Done a, w).
#[global] Instance script_bind : MBind script := λ A B k m w,
  match m w with
  | (Done a, w') => k a w'
  | (Raised e, w') => (Raised e, w')
  | (Stopped, w') => (Stopped, w')
  | (Rerun, w') => (Rerun, w')
  end.

(** An expression that may raise. *)
Definition eval {A} (r : result A) : script A := λ w,
  match r with Ok a => (Done a, w) | Err e => (Raised e, w) end.

Definition raise {A} (e : exn) : script A := λ w, (Raised e, w).
Definition st_stop {A} : script A := λ w, (Stopped, w).
Definition st_rerun {A} : script A := λ w, (Rerun, w).

Definition show (m : message) : script unit := λ w,
  (Done (), {| files := files w; state := state w;
               shown := shown w ++ [m]; ticks := ticks w |}).

Definition get_files : script (gmap string string) := λ w, (Done (files w), w).
Definition put_files (f : gmap string string) : script unit := λ w,
  (Done (), {| files := f; state := state w; shown := shown w; ticks := ticks w |}).

Definition get_state : script session := λ w, (Done (state w), w).
Definition put_state (s : session) : script unit := λ w,
  (Done (), {| files := files w; state := s; shown := shown w; ticks := ticks w |}).

(** The names the module binds: imports, constants, functions, and the
    targets of the assignments, loops and [with] statements of the
    script. *)
Definition module_names : list string :=
  ["st"; "datetime"; "calendar"; "os"; "json"; "hashlib"; "io";
   "List"; "Dict"; "Any"; "pd"; "plt"; "A4"; "landscape";
   "SimpleDocTemplate"; "Table"; "TableStyle"; "Paragraph"; "Spacer";
   "RLImage"; "colors"; "getSampleStyleSheet"; "Image";
   "RECORDS_DIR"; "PIN_FILE"; "LOGO_FILENAME_DEFAULT"; "CURRENCY_SYMBOL";
   "sha256"; "set_pin"; "check_pin"; "days_in_month";
   "compute_total_sales"; "compute_profit"; "compute_total_expenses";
   "fmt_pk"; "save_record_json"; "list_saved_records"; "load_record";
   "generate_pdf_bytes";
   "pin"; "pin_attempt"; "shop_name"; "tagline"; "c1"; "c2";
   "month_name"; "year"; "submitted"; "month_number"; "num_days";
   "daily_sales"; "cols"; "day"; "v"; "total_sales"; "profit_pct";
   "profit_amount"; "add_row"; "remove_row"; "idx"; "ex"; "r1"; "r2";
   "r3"; "amt"; "total_expenses"; "labels"; "sizes"; "fig"; "ax";
   "remaining_profit"; "col1"; "col2"; "record"; "path"; "json_path";
   "logo_path"; "pdf_bytes"; "ts"; "pdf_name"; "pdf_path"; "f"; "s";
   "files"; "fname"; "p"; "rec"; "title"; "btn_label"; "fpdf"; "ed";
   "new_shop"; "new_tagline"; "new_profit_pct"; "dlist"; "edit_days";
   "edited_daily"; "i"; "edit_expenses"; "e1"; "e2"; "e3"; "t_sales";
   "p_amt"; "t_exp"; "rem"; "edit_path"].

(** The evaluation of a global name that is no built-in: a name the
    module never binds is a [NameError].  The names the module does bind
    are Rocq binders in the embedding and are not looked up here. *)
Definition load_name (name : string) : script pyval :=
  if bool_decide (name ∈ module_names) then mret PNone else raise (NameError name).

(** [list(calendar.month_name)], in the default locale. *)
Definition calendar_month_name : list string :=
  [""; "January"; "February"; "March"; "April"; "May"; "June"; "July";
   "August"; "September"; "October"; "November"; "December"].

(** [l.index(x)] *)
Fixpoint list_index (x : string) (l : list string) : result Z :=
  match l with
  | [] => Err ValueError
  | y :: l' => if String.eqb y x then Ok 0%Z
               else (λ i, (i + 1)%Z) <$> list_index x l'
  end.

(** *** Session state updates *)

Definition set_unlocked (b : bool) (s : session) : session :=
  {| unlocked := Some b; ss_expenses := ss_expenses s;
     last_summary := last_summary s; editing_file := editing_file s;
     editing_data := editing_data s; edit_expenses := edit_expenses s |}.

Definition set_expenses (l : list expense) (s : session) : session :=
  {| unlocked := unlocked s; ss_expenses := Some l;
     last_summary := last_summary s; editing_file := editing_file s;
     editing_data := editing_data s; edit_expenses := edit_expenses s |}.

Definition set_last_summary (x : summary) (s : session) : session :=
  {| unlocked := unlocked s; ss_expenses := ss_expenses s;
     last_summary := Some x; editing_file := editing_file s;
     editing_data := editing_data s; edit_expenses := edit_expenses s |}.

Definition set_editing (file : option string) (data : option pyval)
    (s : session) : session :=
  {| unlocked := unlocked s; ss_expenses := ss_expenses s;
     last_summary := last_summary s; editing_file := file;
     editing_data := data; edit_expenses := edit_expenses s |}.

Definition set_edit_expenses (x : option pyval) (s : session) : session :=
  {| unlocked := unlocked s; ss_expenses := ss_expenses s;
     last_summary := last_summary s; editing_file := editing_file s;
     editing_data := editing_data s; edit_expenses := x |}.

Definition modify_state (g : session → session) : script unit :=
  s ← get_state; put_state (g s).

(** *** The report *)

(** The flowables [generate_pdf_bytes] hands to ReportLab. *)
Inductive element :=
| Title (shop month_name year : pyval)
| Spacer
| Logo (path : string)
| Summary (total_sales : Z) (profit_pct : pyval)
          (profit_amount total_expenses remaining_profit : Z)
| Heading (text : string)
| DailyTable (rows : list Z)
| ExpenseTable (rows : list (pyval * Z))
| Tagline (text : pyval).

(** [for x in v]: the items an iteration over a value yields. *)
Definition py_iter (v : pyval) : result (list pyval) :=
  match v with
  | PList l => Ok l
  | PStr s => Ok (map (λ c, PStr (String c "")) (list_ascii_of_string s))
  | PDict d => Ok (map (λ kv, PStr (fst kv)) d)
  | _ => Err TypeError
  end.

(** [len(v)] *)
Definition py_len (v : pyval) : result Z :=
  match v with
  | PList l => Ok (Z.of_nat (length l))
  | PStr s => Ok (len s)
  | PDict d => Ok (Z.of_nat (length d))
  | _ => Err TypeError
  end.

Fixpoint mapM {A B} (g : A → result B) (l : list A) : result (list B) :=
  match l with
  | [] => Ok []
  | x :: l' => y ← g x; ys ← mapM g l'; Ok (y :: ys)
  end.

Section Script.
Context `{TextConv}.

(** [doc.build(elements)] and [buffer.getvalue()]: the bytes ReportLab
    renders, or the exception it raises. *)
Variable build_pdf : list element → result string.

(** The widgets and the clock of the run. *)
Variable inp : inputs.

Definition pressed (b : button) : bool := bool_decide (clicked inp = Some b).

(** [datetime.now()] *)
Definition now : script datetime := λ w,
  (Done (clock inp (ticks w)),
   {| files := files w; state := state w; shown := shown w;
      ticks := S (ticks w) |}).

(** [generate_pdf_bytes] *)
Definition generate_pdf_bytes (rec : pyval) (daily : pyval)
    (logo_path : option string) (fs : gmap string string) : result string :=
  shop ← py_get rec "shop_name" (PStr "AR Shop");
  mname ← py_getitem rec "month_name";
  y ← py_getitem rec "year";
  let header := [Title shop mname y; Spacer] in
  let logo :=
    match logo_path with
    | Some p => if negb (String.eqb p "") && path_exists p fs
                then [Logo p; Spacer] else []
    | None => []
    end in
  ts ← py_getitem rec "total_sales"; ts' ← fmt_pk ts;
  pct ← py_getitem rec "profit_pct";
  pa ← py_getitem rec "profit_amount"; pa' ← fmt_pk pa;
  te ← py_getitem rec "total_expenses"; te' ← fmt_pk te;
  rp ← py_getitem rec "remaining_profit"; rp' ← fmt_pk rp;
  let summ := [Summary ts' pct pa' te' rp'; Spacer] in
  days ← py_iter daily;
  rows ← mapM py_int days;
  let sales := [Heading "Daily Sales"; DailyTable rows; Spacer] in
  exs ← py_getitem rec "expenses";
  exl ← py_iter exs;
  erows ← mapM (λ e, n ← py_get e "name" (PStr "");
                     a ← py_get e "amount" (PInt 0);
                     x ← py_float a;
                     r ← round_float x;
                     Ok (n, r)) exl;
  let expenses := [Heading "Expenses"; ExpenseTable erows; Spacer] in
  tg ← py_get rec "tagline" PNone;
  let footer := if truthy tg then [Spacer; Tagline tg] else [] in
  build_pdf (header ++ logo ++ summ ++ sales ++ expenses ++ footer).

(** *** The PIN gate (PIN setup/login) *)

Definition gate : script unit :=
  fs ← get_files;
  if negb (path_exists PIN_FILE fs) then
    show Warning_set_pin;;
    let pin := in_set_pin inp in
    if pressed BSetPin then
      if negb (isdigit pin && (len pin =? 4)%Z) then show Error_pin_format
      else
        put_files (set_pin pin fs);;
        show Success_pin_saved;;
        st_stop
    else st_stop
  else
    let pin_attempt := in_pin_attempt inp in
    (if pressed BUnlock then
       if check_pin pin_attempt fs then
         show Success_unlocked;; modify_state (set_unlocked true)
       else
         show Error_incorrect_pin;; modify_state (set_unlocked false)
     else mret ());;
    s ← get_state;
    if negb (default false (unlocked s)) then show Info_enter_pin;; st_stop
    else mret ().

(** *** Month, year, daily sales and profit *)

Record form_values := {
  fv_shop_name : string;
  fv_tagline : string;
  fv_month_name : string;
  fv_year : Z;
  fv_month_number : Z;
  fv_daily_sales : list Z;
  fv_total_sales : Z;
  fv_profit_pct : float;
  fv_profit_amount : float
}.

Definition form : script form_values :=
  let shop_name := in_shop_name inp in
  let tagline := in_tagline inp in
  let month_name := in_month_name inp in
  let year := in_year inp in
  month_number ← eval (list_index month_name calendar_month_name);
  num_days ← eval (days_in_month year month_number);
  let daily_sales := map (in_day inp) (seqZ 1 num_days) in
  total_sales ← eval (compute_total_sales (map PInt daily_sales));
  _ ← eval (fmt_pk (PInt total_sales));
  let profit_pct := in_profit_pct inp in
  profit_amount ← eval (compute_profit total_sales profit_pct);
  _ ← eval (fmt_pk (PFloat profit_amount));
  mret {| fv_shop_name := shop_name; fv_tagline := tagline;
          fv_month_name := month_name; fv_year := year;
          fv_month_number := month_number; fv_daily_sales := daily_sales;
          fv_total_sales := total_sales; fv_profit_pct := profit_pct;
          fv_profit_amount := profit_amount |}.

(** *** The expense rows *)

(** [st.session_state.expenses] *)
Definition get_expenses : script (list expense) :=
  s ← get_state;
  match ss_expenses s with
  | Some l => mret l
  | None => raise AttributeError
  end.

(** [add_row] *)
Definition add_row : script unit :=
  l ← get_expenses;
  modify_state (set_expenses (l ++ [{| ex_name := ""; ex_amount := 0 |}])).

(** [remove_row] *)
Definition remove_row (i : nat) : script unit :=
  l ← get_expenses;
  if (1 <? length l)%nat then
    if (i <? length l)%nat then modify_state (set_expenses (delete i l))
    else raise IndexError
  else mret ().

(** The body of the loop over the rows, for the rows from [idx] on:
    the widgets of a row overwrite its name and amount, then its
    Remove button is looked at. *)
Fixpoint expense_loop (n idx : nat) : script unit :=
  match n with
  | O => mret ()
  | S n' =>
      l ← get_expenses;
      modify_state (set_expenses
        (<[idx := {| ex_name := in_ex_name inp idx;
                     ex_amount := in_ex_amt inp idx |}]> l));;
      (if pressed (BRemove idx) then remove_row idx;; st_rerun else mret ());;
      expense_loop n' (S idx)
  end.

Definition expense_rows : script (list expense) :=
  s ← get_state;
  (match ss_expenses s with
   | None => put_state (set_expenses [{| ex_name := "Rent"; ex_amount := 0 |}] s)
   | Some _ => mret ()
   end);;
  l ← get_expenses;
  expense_loop (length l) 0;;
  (if pressed BAddExpense then add_row;; st_rerun else mret ());;
  get_expenses.

(** *** The pie chart and the warning banner *)

(** The pie chart is drawn when there are expenses; the drawing itself
    is not part of the embedding. *)
Definition pie_chart (total_expenses : float) : script unit :=
  if (0 <? total_expenses)%float then mret () else show Info_add_expenses.

(** The banner: [if total_expenses > profit_amount: st.error(...)].
    The message formats the three amounts with [fmt_pk]. *)
Definition warning_banner (total_expenses profit_amount : float)
  : script float :=
  let remaining_profit := (profit_amount - total_expenses)%float in
  (if (profit_amount <? total_expenses)%float then
     a ← eval (fmt_pk (PFloat total_expenses));
     b ← eval (fmt_pk (PFloat profit_amount));
     c ← eval (fmt_pk (PFloat remaining_profit));
     show (Error_expenses_exceed a b c)
   else mret ());;
  mret remaining_profit.

(** *** Calculate, save, export *)

Definition calc_handler (fv : form_values)
    (total_expenses remaining_profit : float) : script unit :=
  if pressed BCalc then
    modify_state (set_last_summary
      {| sm_total_sales := fv_total_sales fv;
         sm_profit_pct := fv_profit_pct fv;
         sm_profit_amount := fv_profit_amount fv;
         sm_total_expenses := total_expenses;
         sm_remaining_profit := remaining_profit |});;
    show Success_summary
  else mret ().

(** The dictionary both handlers build. *)
Definition build_record (fv : form_values) (rows : list expense)
    (total_expenses remaining_profit : float) : script record :=
  t ← now;
  mret {| created_at := isoformat t;
          month := fv_month_number fv;
          month_name := fv_month_name fv;
          year := fv_year fv;
          shop_name := fv_shop_name fv;
          tagline := fv_tagline fv;
          profit_pct := fv_profit_pct fv;
          total_sales := fv_total_sales fv;
          profit_amount := fv_profit_amount fv;
          total_expenses := total_expenses;
          remaining_profit := remaining_profit;
          daily_sales := fv_daily_sales fv;
          expenses := map expense_dict rows |}.

(** The call of [save_record_json] in a run. *)
Definition save_record (r : record) : script string :=
  t ← now;
  fs ← get_files;
  let '(path, fs') := save_record_json t r fs in
  put_files fs';;
  mret path.

(** The handler of "Save Record (JSON)". *)
Definition save_handler (fv : form_values) (rows : list expense)
    (total_expenses remaining_profit : float) : script unit :=
  if pressed BSave then
    r ← build_record fv rows total_expenses remaining_profit;
    path ← save_record r;
    show (Success_record_saved path)
  else mret ().

(** The path a logo value denotes. *)
Definition logo_path_of (v : pyval) : option string :=
  match v with PStr p => Some p | _ => None end.

(** The writing of the PDF that both PDF handlers end with. *)
Definition write_pdf (pdf_path pdf_bytes : string) : script unit :=
  fs ← get_files;
  put_files (<[pdf_path := pdf_bytes]> fs);;
  show (Success_pdf_saved pdf_path).

(** The handler of "Generate PDF (Save & Download)". *)
Definition pdf_handler (fv : form_values) (rows : list expense)
    (total_expenses remaining_profit : float) : script unit :=
  if pressed BPdf then
    r ← build_record fv rows total_expenses remaining_profit;
    json_path ← save_record r;
    logo_to_use ← load_name "logo_to_use";
    let logo_path := if truthy logo_to_use then logo_to_use else PNone in
    fs ← get_files;
    pdf_bytes ← eval (generate_pdf_bytes (record_dict r)
                        (PList (map PInt (fv_daily_sales fv)))
                        (logo_path_of logo_path) fs);
    t ← now;
    let pdf_name := "AR_Report_" ++ fv_month_name fv ++ "_" ++
                    str_of_int (fv_year fv) ++ "_" ++ strftime_stamp t ++ ".pdf" in
    write_pdf (path_join RECORDS_DIR pdf_name) pdf_bytes
  else mret ().

(** "Last Calculation" *)
Definition show_last_summary : script unit :=
  s ← get_state;
  match last_summary s with
  | Some x =>
      _ ← eval (fmt_pk (PInt (sm_total_sales x)));
      _ ← eval (fmt_pk (PFloat (sm_profit_amount x)));
      _ ← eval (fmt_pk (PFloat (sm_total_expenses x)));
      _ ← eval (fmt_pk (PFloat (sm_remaining_profit x)));
      mret ()
  | None => mret ()
  end.

(** *** The saved records *)

(** The body of the loop over the saved records, for one file. *)
Definition listing_item (fname : string) : script unit :=
  let p := path_join RECORDS_DIR fname in
  fs ← get_files;
  rec ← eval (load_record p fs);
  _ ← eval (py_getitem rec "month_name");
  _ ← eval (py_getitem rec "year");
  rp ← eval (py_getitem rec "remaining_profit");
  _ ← eval (fmt_pk rp);
  _ ← eval (py_getitem rec "created_at");
  _ ← eval (py_get rec "shop_name" (PStr ""));
  ts ← eval (py_getitem rec "total_sales");
  _ ← eval (fmt_pk ts);
  _ ← eval (py_getitem rec "profit_pct");
  te ← eval (py_getitem rec "total_expenses");
  _ ← eval (fmt_pk te);
  (if pressed (BPdfFor fname) then
     daily ← eval (py_getitem rec "daily_sales");
     logo_to_use ← load_name "logo_to_use";
     pdf_bytes ← eval (generate_pdf_bytes rec daily (logo_path_of logo_to_use) fs);
     let pdf_name := String.concat ".pdf" (Str.split ".json" fname) in
     write_pdf (path_join RECORDS_DIR pdf_name) pdf_bytes
   else mret ());;
  (if pressed (BLoad fname) then
     modify_state (set_editing (Some p) (Some rec));;
     st_rerun
   else mret ()).

Fixpoint for_each {A} (body : A → script unit) (l : list A) : script unit :=
  match l with
  | [] => mret ()
  | x :: l' => body x;; for_each body l'
  end.

Definition listing : script unit :=
  fs ← get_files;
  let files := list_saved_records fs in
  match files with
  | [] => show Info_no_records
  | _ => for_each listing_item files
  end.

(** *** The edit of a loaded record *)

(** [x[k] = v] *)
Definition py_setitem (x : pyval) (k : string) (v : pyval) : result pyval :=
  match x with
  | PDict d => Ok (PDict (dict_set k v d))
  | _ => Err TypeError
  end.

(** [x[i]] for an [int] index that is not negative. *)
Definition py_index (x : pyval) (i : nat) : result pyval :=
  match x with
  | PList l => match l !! i with Some v => Ok v | None => Err IndexError end
  | PStr s => match String.get i s with
              | Some c => Ok (PStr (String c ""))
              | None => Err IndexError
              end
  | PDict _ => Err (KeyError (str_of_int (Z.of_nat i)))
  | _ => Err TypeError
  end.

(** [x.copy()] *)
Definition py_copy (x : pyval) : result pyval :=
  match x with
  | PList _ | PDict _ => Ok x
  | _ => Err AttributeError
  end.

(** [while len(dlist) < edit_days: dlist.append(0)] *)
Definition pad_days (dlist : pyval) (edit_days : Z) : result pyval :=
  n ← py_len dlist;
  if (n <? edit_days)%Z then
    match dlist with
    | PList l => Ok (PList (l ++ replicate (Z.to_nat (edit_days - n)) (PInt 0)))
    | _ => Err AttributeError
    end
  else Ok dlist.

(** [st.session_state["edit_expenses"]] *)
Definition get_edit_expenses : script pyval :=
  s ← get_state;
  match edit_expenses s with
  | Some x => mret x
  | None => raise (KeyError "edit_expenses")
  end.

(** [st.session_state["edit_expenses"][idx][k] = v] *)
Definition set_edit_row (idx : nat) (k : string) (v : pyval) : script unit :=
  x ← get_edit_expenses;
  match x with
  | PList l =>
      row ← eval (py_index x idx);
      row' ← eval (py_setitem row k v);
      modify_state (set_edit_expenses (Some (PList (<[idx := row']> l))))
  | _ => raise TypeError
  end.

(** [st.session_state["edit_expenses"].pop(idx)] *)
Definition pop_edit_row (idx : nat) : script unit :=
  x ← get_edit_expenses;
  match x with
  | PList l =>
      if (idx <? length l)%nat
      then modify_state (set_edit_expenses (Some (PList (delete idx l))))
      else raise IndexError
  | PDict _ => raise (KeyError (str_of_int (Z.of_nat idx)))
  | _ => raise AttributeError
  end.

(** [st.session_state["edit_expenses"].append(row)] *)
Definition append_edit_row (row : pyval) : script unit :=
  x ← get_edit_expenses;
  match x with
  | PList l => modify_state (set_edit_expenses (Some (PList (l ++ [row]))))
  | _ => raise AttributeError
  end.

(** The loop over the rows of the edited expenses, from row [idx] on.
    The rows are shared with [ed["expenses"]] until the save rebinds
    that key; nothing reads them there in between, and the embedding
    keeps the one copy of the session. *)
Fixpoint edit_loop (n idx : nat) : script unit :=
  match n with
  | O => mret ()
  | S n' =>
      x ← get_edit_expenses;
      items ← eval (py_iter x);
      match items !! idx with
      | None => mret ()
      | Some ex =>
          _ ← eval (py_get ex "name" (PStr ""));
          set_edit_row idx "name" (PStr (in_edit_ex_name inp idx));;
          x' ← get_edit_expenses;
          ex' ← eval (py_index x' idx);
          a ← eval (py_get ex' "amount" (PInt 0));
          _ ← eval (py_int a);
          set_edit_row idx "amount" (PInt (in_edit_ex_amt inp idx));;
          (if pressed (BEditRemove idx) then pop_edit_row idx;; st_rerun
           else mret ());;
          edit_loop n' (S idx)
      end
  end.

(** The nine assignments of the save to the record being edited. *)
Definition update_record (ed : pyval) (new_shop new_tagline : string)
    (new_profit_pct : float) (t_sales : Z) (p_amt t_exp rem : float)
    (edited_daily : list Z) (expenses : pyval) : result pyval :=
  ed ← py_setitem ed "shop_name" (PStr new_shop);
  ed ← py_setitem ed "tagline" (PStr new_tagline);
  ed ← py_setitem ed "profit_pct" (PFloat new_profit_pct);
  ed ← py_setitem ed "total_sales" (PInt t_sales);
  ed ← py_setitem ed "profit_amount" (PFloat p_amt);
  ed ← py_setitem ed "total_expenses" (PFloat t_exp);
  ed ← py_setitem ed "remaining_profit" (PFloat rem);
  ed ← py_setitem ed "daily_sales" (PList (map PInt edited_daily));
  py_setitem ed "expenses" expenses.

(** The handler of "Save Changes to JSON". *)
Definition save_changes (ed : pyval) (new_shop new_tagline : string)
    (new_profit_pct : float) (edited_daily : list Z) : script unit :=
  t_sales ← eval (compute_total_sales (map PInt edited_daily));
  p_amt ← eval (compute_profit t_sales new_profit_pct);
  x ← get_edit_expenses;
  rows ← eval (py_iter x);
  t_exp ← eval (compute_total_expenses rows);
  let rem := (p_amt - t_exp)%float in
  copy ← eval (py_copy x);
  ed' ← eval (update_record ed new_shop new_tagline new_profit_pct
                t_sales p_amt t_exp rem edited_daily copy);
  modify_state (λ s, set_editing (editing_file s) (Some ed') s);;
  s ← get_state;
  match editing_file s with
  | None => raise (KeyError "editing_file")
  | Some edit_path =>
      fs ← get_files;
      put_files (<[edit_path := Json.dumps ed']> fs);;
      show (Success_record_updated edit_path);;
      modify_state (λ s, set_edit_expenses None (set_editing None None s));;
      st_rerun
  end.

Definition edit_section : script unit :=
  s ← get_state;
  match editing_data s with
  | None => mret ()
  | Some ed =>
      if negb (truthy ed) then mret ()
      else
        _ ← eval (py_get ed "shop_name" (PStr ""));
        let new_shop := in_edit_shop inp in
        _ ← eval (py_get ed "tagline" (PStr ""));
        let new_tagline := in_edit_tagline inp in
        p0 ← eval (py_get ed "profit_pct" (PFloat 20));
        _ ← eval (py_float p0);
        let new_profit_pct := in_edit_profit_pct inp in
        dlist ← eval (py_get ed "daily_sales" (PList []));
        _ ← eval (py_len dlist);
        let edit_days := in_edit_days inp in
        dlist ← eval (pad_days dlist edit_days);
        (* the list grown in place is the one the record holds *)
        let ed := match ed with
                  | PDict d => match dict_lookup "daily_sales" d with
                               | Some _ => PDict (dict_set "daily_sales" dlist d)
                               | None => ed
                               end
                  | _ => ed
                  end in
        modify_state (λ s, set_editing (editing_file s) (Some ed) s);;
        _ ← eval (mapM (λ i, v ← py_index dlist i; py_int v)
                       (seq 0 (Z.to_nat edit_days)));
        let edited_daily := map (in_edit_day inp) (seq 0 (Z.to_nat edit_days)) in
        edit_expenses0 ← eval (py_get ed "expenses" (PList []));
        s ← get_state;
        (match edit_expenses s with
         | None => c ← eval (py_copy edit_expenses0);
                   modify_state (set_edit_expenses (Some c))
         | Some _ => mret ()
         end);;
        x ← get_edit_expenses;
        n ← eval (py_len x);
        edit_loop (Z.to_nat n) 0;;
        (if pressed BEditAdd then
           append_edit_row (PDict [("name", PStr ""); ("amount", PInt 0)]);;
           st_rerun
         else mret ());;
        (if pressed BSaveChanges then
           save_changes ed new_shop new_tagline new_profit_pct edited_daily
         else mret ())
  end.

(** *** The whole script *)

Definition main : script unit :=
  gate;;
  fv ← form;
  rows ← expense_rows;
  total_expenses ← eval (compute_total_expenses (map expense_dict rows));
  pie_chart total_expenses;;
  remaining_profit ← warning_banner total_expenses (fv_profit_amount fv);
  calc_handler fv total_expenses remaining_profit;;
  save_handler fv rows total_expenses remaining_profit;;
  pdf_handler fv rows total_expenses remaining_profit;;
  show_last_summary;;
  listing;;
  edit_section.
End Script.

(** A run of the script on a page drawn afresh. *)
Definition run `{TextConv} (build_pdf : list element → result string)
    (inp : inputs) (w : world) : flow unit * world :=
  main build_pdf inp
    {| files := files w; state := state w; shown := []; ticks := ticks w |}.

(** The inputs of the run that follows [st.rerun()]: the widgets keep
    their values and no button is pressed. *)
Definition no_click (inp : inputs) : inputs :=
  {| clicked := None; clock := clock inp;
     in_set_pin := in_set_pin inp; in_pin_attempt := in_pin_attempt inp;
     in_shop_name := in_shop_name inp; in_tagline := in_tagline inp;
     in_month_name := in_month_name inp; in_year := in_year inp;
     in_day := in_day inp; in_profit_pct := in_profit_pct inp;
     in_ex_name := in_ex_name inp; in_ex_amt := in_ex_amt inp;
     in_edit_shop := in_edit_shop inp; in_edit_tagline := in_edit_tagline inp;
     in_edit_profit_pct := in_edit_profit_pct inp;
     in_edit_days := in_edit_days inp; in_edit_day := in_edit_day inp;
     in_edit_ex_name := in_edit_ex_name inp;
     in_edit_ex_amt := in_edit_ex_amt inp |}.

(** One interaction: the run it triggers and, after [st.rerun()], the
    run that follows. *)
Definition interact `{TextConv} (build_pdf : list element → result string)
    (inp : inputs) (w : world) : flow unit * world :=
  match run build_pdf inp w with
  | (Rerun, w') => run build_pdf (no_click inp) w'
  | r => r
  end.

(** ** An instance of the text conversions, to run the script

    It agrees with CPython on the doubles of integral value below
    10^16 in magnitude, printed [d.0], and on plain decimal numerals. *)

Definition small_float_repr (f : float) : string :=
  match int_of_float f with
  | Ok z => (if get_sign f && (z =? 0)%Z then "-" else "") ++ str_of_int z ++ ".0"
  | Err _ => "nan"
  end.

Definition small_float_of_str (s : string) : option float :=
  match Str.cut (S (String.length s)) "." s with
  | Some (i, "0") =>
      match NilZero.int_of_string i with
      | Some d =>
          match float_of_int (Z.of_int d) with
          | Ok f => Some (if String.prefix "-" i && (Z.of_int d =? 0)%Z
                          then (- f)%float else f)
          | Err _ => None
          end
      | None => None
      end
  | _ => None
  end.

Definition small_int_of_str (s : string) : option Z :=
  Z.of_int <$> NilZero.int_of_string s.

Definition small_text : TextConv :=
  {| float_repr := small_float_repr;
     float_of_str := small_float_of_str;
     int_of_str := small_int_of_str |}.

(** A renderer that always succeeds. *)
Definition plain_pdf : list element → result string := λ _, Ok "%PDF".

(** * Properties *)

(** ** Strings and paths *)

Lemma prefix_app (p s : string) : String.prefix p (p ++ s) = true.
Proof.
  induction p as [|c p IH]; rewrite ?Str.app_nil, ?Str.app_cons; simpl.
  - by destruct s.
  - destruct (ascii_dec c c); [done|congruence].
Qed.

Lemma substring_all (s : string) : String.substring 0 (String.length s) s = s.
Proof. induction s as [|c s IH]; simpl; congruence. Qed.

Lemma substring_app_r (p s : string) :
  String.substring (String.length p) (String.length s) (p ++ s) = s.
Proof.
  induction p as [|c p IH]; rewrite ?Str.app_nil, ?Str.app_cons; simpl.
  - apply substring_all.
  - done.
Qed.

Lemma endswith_app (x y : string) : Str.endswith (x ++ y) y = true.
Proof.
  unfold Str.endswith. rewrite Str.length_app.
  replace (String.length x + String.length y - String.length y)%nat
    with (String.length x) by lia.
  rewrite substring_app_r, String.eqb_refl.
  rewrite andb_true_r. apply Nat.leb_le. lia.
Qed.

Lemma contains_char_app c (a b : string) :
  Str.contains_char c (a ++ b) = Str.contains_char c a || Str.contains_char c b.
Proof.
  induction a as [|x a IH]; rewrite ?Str.app_nil, ?Str.app_cons; simpl; [done|].
  rewrite IH. by rewrite orb_assoc.
Qed.

(** The characters of a numeral are digits, after an optional sign. *)
Definition numeral_char (c : ascii) : bool :=
  Ascii.eqb c "-" || ((48 <=? code c) && (code c <=? 57))%N.

Lemma forall_chars_app p (a b : string) :
  forall_chars p (a ++ b) = forall_chars p a && forall_chars p b.
Proof.
  induction a as [|x a IH]; rewrite ?Str.app_nil, ?Str.app_cons; simpl; [done|].
  rewrite IH. by rewrite andb_assoc.
Qed.

Lemma forall_chars_impl (p q : ascii → bool) s :
  (∀ c, p c = true → q c = true) → forall_chars p s = true → forall_chars q s = true.
Proof.
  intros Hpq. induction s as [|c s IH]; simpl; [done|].
  intros [Hc Hs]%andb_true_iff. rewrite (Hpq _ Hc). simpl. auto.
Qed.

Lemma forall_chars_contains p c s :
  p c = false → forall_chars p s = true → Str.contains_char c s = false.
Proof.
  intros Hc. induction s as [|x s IH]; simpl; [done|].
  intros [Hx Hs]%andb_true_iff. rewrite IH by done. rewrite orb_false_r.
  destruct (Ascii.eqb_spec x c); [congruence|done].
Qed.

Lemma string_of_uint_numeral d :
  forall_chars numeral_char (NilEmpty.string_of_uint d) = true.
Proof. induction d; simpl; auto. Qed.

Lemma str_of_int_numeral z : forall_chars numeral_char (str_of_int z) = true.
Proof.
  unfold str_of_int, NilZero.string_of_int, NilZero.string_of_uint.
  destruct (Z.to_int z) as [d|d]; [destruct d|destruct d]; simpl;
    try done; apply string_of_uint_numeral.
Qed.

Lemma numeral_char_digit n : numeral_char (digit n) = true.
Proof.
  unfold numeral_char. apply orb_true_iff. right.
  unfold code. rewrite (digit_mod n).
  rewrite N_of_digit by (apply Z.mod_pos_bound; lia).
  pose proof (Z.mod_pos_bound n 10 ltac:(lia)).
  apply andb_true_iff. split; apply N.leb_le; lia.
Qed.

(** The characters of a stamp: digits and the underscore. *)
Definition stamp_char (c : ascii) : bool := numeral_char c || Ascii.eqb c "_".

Lemma strftime_stamp_chars t : forall_chars stamp_char (strftime_stamp t) = true.
Proof.
  unfold strftime_stamp, pad4, pad2.
  rewrite ?Str.app_cons, ?Str.app_nil. simpl.
  unfold stamp_char. rewrite !numeral_char_digit. done.
Qed.

(** ** The record store *)

Section Store.
Context `{TextConv}.

Lemma path_of_record m y t :
  path_join RECORDS_DIR (record_filename m y t) =
  "records/" ++ record_filename m y t.
Proof. reflexivity. Qed.

Lemma entry_of_records (f : string) :
  f ≠ "" → Str.contains_char "/" f = false →
  entry_of RECORDS_DIR ("records/" ++ f) = Some f.
Proof.
  intros Hne Hslash. unfold entry_of.
  change (RECORDS_DIR ++ "/") with "records/".
  unfold Str.startswith. rewrite prefix_app. rewrite Str.length_app.
  replace (String.length "records/" + String.length f - String.length "records/")%nat
    with (String.length f) by lia.
  rewrite substring_app_r, Hslash.
  destruct (String.eqb_spec f ""); [done|]. done.
Qed.

Lemma record_filename_no_slash m y t :
  Str.contains_char "/" m = false →
  Str.contains_char "/" (record_filename m y t) = false.
Proof.
  intros Hm. unfold record_filename. rewrite !contains_char_app, Hm.
  rewrite (forall_chars_contains numeral_char "/" (str_of_int y))
    by (done || apply str_of_int_numeral).
  rewrite (forall_chars_contains stamp_char "/" (strftime_stamp t))
    by (done || apply strftime_stamp_chars).
  done.
Qed.

Lemma record_filename_json m y t :
  Str.endswith (record_filename m y t) ".json" = true.
Proof.
  unfold record_filename. rewrite <- !Str.app_assoc. apply endswith_app.
Qed.

(** A file that is in the records directory under the name of a record
    is among the saved records listed. *)
Lemma record_listed (files : gmap string string) m y t :
  Str.contains_char "/" m = false →
  is_Some (files !! path_join RECORDS_DIR (record_filename m y t)) →
  record_filename m y t ∈ list_saved_records files.
Proof.
  intros Hm Hin. unfold list_saved_records, sort_reverse.
  rewrite merge_sort_Permutation. apply list_elem_of_filter. split.
  - rewrite record_filename_json. done.
  - unfold listdir. apply list_elem_of_omap.
    exists (path_join RECORDS_DIR (record_filename m y t)). split.
    + apply elem_of_elements, elem_of_dom. done.
    + rewrite path_of_record. apply entry_of_records.
      * unfold record_filename. rewrite Str.app_cons. done.
      * by apply record_filename_no_slash.
Qed.

#[local] Instance ge_string_trans : Transitive (λ a b : string, String.le b a).
Proof. intros a b c Hab Hbc. by etrans. Qed.

#[local] Instance ge_string_total : Total (λ a b : string, String.le b a).
Proof. intros a b. destruct (total String.le a b); auto. Qed.

(** The listing is in descending order of the file names. *)
Lemma list_saved_records_sorted (files : gmap string string) :
  StronglySorted (λ a b, String.le b a) (list_saved_records files).
Proof. unfold list_saved_records, sort_reverse. apply StronglySorted_merge_sort; apply _. Qed.
End Store.

(** [x] comes before [y] in [l]. *)
Definition precedes (x y : string) (l : list string) : Prop :=
  ∃ i j, (i < j)%nat ∧ l !! i = Some x ∧ l !! j = Some y.

Lemma StronglySorted_lookup {A} (R : A → A → Prop) (l : list A) i j a b :
  StronglySorted R l → (i < j)%nat → l !! i = Some a → l !! j = Some b → R a b.
Proof.
  intros Hs. revert i j. induction Hs as [|x l Hs IH Hall]; intros i j Hij Hi Hj.
  - done.
  - destruct i as [|i], j as [|j]; try lia; simpl in *.
    + injection Hi as ->. rewrite Forall_forall in Hall. apply Hall.
      eapply list_elem_of_lookup_2. done.
    + apply (IH i j); [lia|done|done].
Qed.

(** In a list in descending order, the greater of two members comes first. *)
Lemma greater_precedes (l : list string) (x y : string) :
  StronglySorted (λ a b, String.le b a) l →
  x ∈ l → y ∈ l → Str.lt y x → precedes x y l.
Proof.
  intros Hs [i Hi]%list_elem_of_lookup_1 [j Hj]%list_elem_of_lookup_1 Hlt.
  destruct (Nat.lt_trichotomy i j) as [Hij|[->|Hji]].
  - by exists i, j.
  - rewrite Hi in Hj. injection Hj as ->. by apply Str.lt_neq in Hlt.
  - pose proof (StronglySorted_lookup _ _ _ _ _ _ Hs Hji Hj Hi) as Hle.
    simpl in Hle. by apply Str.lt_not_le in Hlt.
Qed.

Lemma app_empty_r (s : string) : s ++ "" = s.
Proof. induction s as [|c s IH]; rewrite ?Str.app_nil, ?Str.app_cons; congruence. Qed.

(** Two valid readings with the same stamp lie in the same second. *)
Lemma strftime_stamp_same_second t1 t2 :
  valid_datetime t1 → valid_datetime t2 →
  strftime_stamp t1 = strftime_stamp t2 → same_second t1 t2.
Proof.
  intros V1 V2 E.
  pose proof (compare_strftime_stamp t1 t2 "" "" V1 V2) as C.
  rewrite !app_empty_r, E, Str.compare_refl in C.
  unfold same_second. by destruct (dt_compare t1 t2).
Qed.

(** The names of two records saved in different seconds differ. *)
Lemma record_filename_stamp m1 y1 t1 m2 y2 t2 :
  record_filename m1 y1 t1 = record_filename m2 y2 t2 →
  strftime_stamp t1 = strftime_stamp t2.
Proof.
  unfold record_filename. intros E.
  rewrite <- !(Str.app_assoc _ _ (strftime_stamp _ ++ ".json")) in E.
  rewrite <- !(Str.app_assoc _ _ (str_of_int _ ++ _)) in E.
  rewrite <- !(Str.app_assoc "record_") in E.
  apply Str.app_inj_length_r in E as [_ E].
  - apply Str.app_inj_length in E as [E _]; [done|].
    by rewrite !length_strftime_stamp.
  - by rewrite !Str.length_app, !length_strftime_stamp.
Qed.

(** With the same month name and year, the later a record is saved, the
    greater its file name. *)
Lemma record_filename_lt m y t1 t2 :
  valid_datetime t1 → valid_datetime t2 → earlier t1 t2 →
  Str.lt (record_filename m y t1) (record_filename m y t2).
Proof.
  intros V1 V2 E. unfold Str.lt, record_filename.
  rewrite !Str.compare_app_l.
  rewrite compare_strftime_stamp by done. unfold earlier in E. by rewrite E.
Qed.

(** * The claims of the specification *)

(** ** C1: the order of the listing *)

Definition t_march : datetime :=
  {| dt_year := 2025; dt_month := 3; dt_day := 1; dt_hour := 12;
     dt_minute := 0; dt_second := 0; dt_microsecond := 0 |}.

Definition t_april : datetime :=
  {| dt_year := 2025; dt_month := 4; dt_day := 1; dt_hour := 12;
     dt_minute := 0; dt_second := 0; dt_microsecond := 0 |}.

(** A record of the kind the save handler builds, for a month and a shop. *)
Definition sample_record (t : datetime) (m : Z) (mname shop : string) : record :=
  {| created_at := isoformat t; month := m; month_name := mname; year := 2025;
     shop_name := shop; tagline := "Savings";
     profit_pct := 20; total_sales := 60; profit_amount := 12;
     total_expenses := 100; remaining_profit := -88;
     daily_sales := [10; 20; 30]%Z;
     expenses := [expense_dict {| ex_name := "Rent"; ex_amount := 100 |}] |}.

(** The store after a record for March is saved on the first of March
    and a record for April on the first of April. *)
Definition march_then_april : gmap string string :=
  let fs := snd (@save_record_json small_text t_march
                   (sample_record t_march 3 "March" "AR Book Mart") ∅) in
  snd (@save_record_json small_text t_april
         (sample_record t_april 4 "April" "AR Book Mart") fs).

(** C1, as stated, fails: the record for April is created a month after
    the record for March, and the listing puts the record for March
    first, because "March" sorts after "April". *)
Lemma C1_listing_by_name_not_by_time :
  earlier t_march t_april ∧
  list_saved_records march_then_april =
    [record_filename "March" 2025 t_march; record_filename "April" 2025 t_april] ∧
  ¬ precedes (record_filename "April" 2025 t_april)
             (record_filename "March" 2025 t_march)
             (list_saved_records march_then_april).
Proof.
  assert (E : list_saved_records march_then_april =
    [record_filename "March" 2025 t_march; record_filename "April" 2025 t_april])
    by (vm_compute; reflexivity).
  split; [reflexivity|]. split; [exact E|].
  rewrite E. intros (i & j & Hij & Hi & Hj).
  destruct i as [|[|i]], j as [|[|j]]; try lia; simpl in *; try discriminate.
Qed.

(** C1, amended: [list_saved_records] returns the file names in
    descending order; of two persisted records with the same month name
    and year, the one saved in a later second comes first. *)
Theorem C1_same_month_most_recent_first
    (files : gmap string string) (m : string) (y : Z) (t1 t2 : datetime) :
  valid_datetime t1 → valid_datetime t2 →
  Str.contains_char "/" m = false →
  is_Some (files !! path_join RECORDS_DIR (record_filename m y t1)) →
  is_Some (files !! path_join RECORDS_DIR (record_filename m y t2)) →
  earlier t1 t2 →
  StronglySorted (λ a b, String.le b a) (list_saved_records files) ∧
  precedes (record_filename m y t2) (record_filename m y t1)
           (list_saved_records files).
Proof.
  intros V1 V2 Hm H1 H2 E. split; [apply list_saved_records_sorted|].
  apply greater_precedes.
  - apply list_saved_records_sorted.
  - by apply record_listed.
  - by apply record_listed.
  - by apply record_filename_lt.
Qed.

Definition t_march_later : datetime :=
  {| dt_year := 2025; dt_month := 3; dt_day := 1; dt_hour := 12;
     dt_minute := 0; dt_second := 1; dt_microsecond := 0 |}.

Lemma C1_same_month_most_recent_first_witness :
  precedes (record_filename "March" 2025 t_march_later)
           (record_filename "March" 2025 t_march)
           (list_saved_records
              (snd (@save_record_json small_text t_march_later
                      (sample_record t_march_later 3 "March" "AR Book Mart")
                      (snd (@save_record_json small_text t_march
                              (sample_record t_march 3 "March" "AR Book Mart") ∅))))).
Proof.
  apply (C1_same_month_most_recent_first _ "March" 2025 t_march t_march_later).
  - unfold valid_datetime; simpl; lia.
  - unfold valid_datetime; simpl; lia.
  - reflexivity.
  - vm_compute. eauto.
  - vm_compute. eauto.
  - reflexivity.
Defined.

(** ** C6: the identifier of a save *)

Definition t_noon : datetime :=
  {| dt_year := 2025; dt_month := 3; dt_day := 1; dt_hour := 12;
     dt_minute := 0; dt_second := 0; dt_microsecond := 100000 |}.

Definition t_noon_and_a_half : datetime :=
  {| dt_year := 2025; dt_month := 3; dt_day := 1; dt_hour := 12;
     dt_minute := 0; dt_second := 0; dt_microsecond := 600000 |}.

(** C6, as stated, fails: two saves for the same month and year within
    one second get the same identifier, and the second save replaces the
    record of the first. *)
Lemma C6_two_saves_in_one_second_collide :
  let r1 := sample_record t_noon 3 "March" "AR Book Mart" in
  let r2 := sample_record t_noon_and_a_half 3 "March" "Corner Shop" in
  let '(p1, files1) := @save_record_json small_text t_noon r1 ∅ in
  let '(p2, files2) := @save_record_json small_text t_noon_and_a_half r2 files1 in
  t_noon ≠ t_noon_and_a_half ∧ p1 = p2 ∧
  @load_record small_text p1 files1 = Ok (record_dict r1) ∧
  @load_record small_text p1 files2 = Ok (record_dict r2) ∧
  record_dict r1 ≠ record_dict r2.
Proof. vm_compute. repeat split; congruence. Qed.

(** C6, amended: a save writes the file named after the month name, the
    year and the clock reading cut to the second; two saves whose
    readings lie in different seconds get different identifiers, and the
    later one leaves the record of the earlier one in place.  (Two saves
    for the same month and year within one second share the identifier,
    and the later replaces the earlier.) *)
Theorem C6_save_identifier `{TextConv}
    (t1 t2 : datetime) (r1 r2 : record) (files : gmap string string) :
  valid_datetime t1 → valid_datetime t2 → ¬ same_second t1 t2 →
  let p1 := fst (save_record_json t1 r1 files) in
  let files1 := snd (save_record_json t1 r1 files) in
  let p2 := fst (save_record_json t2 r2 files1) in
  let files2 := snd (save_record_json t2 r2 files1) in
  p1 = path_join RECORDS_DIR
         ("record_" ++ month_name r1 ++ "_" ++ str_of_int (year r1) ++ "_" ++
          strftime_stamp t1 ++ ".json") ∧
  files1 !! p1 = Some (Json.dumps (record_dict r1)) ∧
  p1 ≠ p2 ∧
  files2 !! p1 = Some (Json.dumps (record_dict r1)) ∧
  (∀ q, q ≠ p2 → files2 !! q = files1 !! q).
Proof.
  intros V1 V2 Hsec. simpl.
  assert (Hne : path_join RECORDS_DIR (record_filename (month_name r1) (year r1) t1) ≠
                path_join RECORDS_DIR (record_filename (month_name r2) (year r2) t2)).
  { rewrite !path_of_record. intros E. apply Hsec.
    apply (inj (String.append "records/")) in E.
    apply record_filename_stamp in E.
    by apply strftime_stamp_same_second. }
  split; [reflexivity|]. split; [apply lookup_insert_eq|].
  split; [exact Hne|]. split.
  - rewrite lookup_insert_ne by done. apply lookup_insert_eq.
  - intros q Hq. by rewrite lookup_insert_ne.
Qed.

Lemma C6_save_identifier_witness :
  let r := sample_record t_march 3 "March" "AR Book Mart" in
  let files1 := snd (@save_record_json small_text t_march r ∅) in
  fst (@save_record_json small_text t_march r ∅) ≠
  fst (@save_record_json small_text t_march_later r files1).
Proof.
  intros r files1.
  apply (@C6_save_identifier small_text t_march t_march_later r r ∅).
  - unfold valid_datetime; simpl; lia.
  - unfold valid_datetime; simpl; lia.
  - unfold same_second. vm_compute. discriminate.
Defined.

(** ** C4: the warning banner *)

Lemma round_float_finite f : finite f = true → ∃ z, round_float f = Ok z.
Proof.
  unfold finite, round_float. destruct (Prim2SF f); try done; eauto.
Qed.

Lemma SFcompare_Eq_sym x y : SFcompare x y = Some Eq → SFcompare y x = Some Eq.
Proof.
  destruct x as [?|?| |sx mx ex], y as [?|?| |sy my ey]; simpl; try done;
    repeat match goal with b : bool |- _ => destruct b end; try done.
  all: destruct (Z.compare_spec ex ey) as [->| |]; try done.
  all: rewrite Z.compare_refl; intros E.
  all: assert (Pos.compare mx my = Eq) as C
         by (injection E as E; unfold Pos.compare;
             destruct (Pos.compare_cont Eq mx my); simpl in *; congruence).
  all: apply Pos.compare_eq in C as ->; by rewrite Pos.compare_cont_refl.
Qed.

(** [a == b] excludes [a > b]. *)
Lemma float_eqb_not_ltb (a b : float) :
  (a =? b)%float = true → (b <? a)%float = false.
Proof.
  rewrite FloatAxioms.eqb_spec, FloatAxioms.ltb_spec. unfold SFeqb, SFltb.
  destruct (SFcompare (Prim2SF a) (Prim2SF b)) as [[]|] eqn:E; try done.
  intros _. by rewrite (SFcompare_Eq_sym _ _ E).
Qed.

(** C4: on amounts that are finite doubles, the banner shows the alert
    exactly when [total_expenses > profit_amount], with the three
    amounts rounded by [fmt_pk], and shows nothing else; in particular it
    shows nothing when the two amounts are equal. *)
Theorem C4_warning_iff_expenses_exceed
    (total_expenses profit_amount : float) (w : world) :
  finite total_expenses = true → finite profit_amount = true →
  finite (profit_amount - total_expenses) = true →
  ∃ a b c,
    fmt_pk (PFloat total_expenses) = Ok a ∧
    fmt_pk (PFloat profit_amount) = Ok b ∧
    fmt_pk (PFloat (profit_amount - total_expenses)) = Ok c ∧
    warning_banner total_expenses profit_amount w =
      (Done (profit_amount - total_expenses)%float,
       {| files := files w; state := state w;
          shown := shown w ++
                   (if (profit_amount <? total_expenses)%float
                    then [Error_expenses_exceed a b c] else []);
          ticks := ticks w |}) ∧
    ((total_expenses =? profit_amount)%float = true →
     (profit_amount <? total_expenses)%float = false).
Proof.
  intros Ht Hp Hr.
  destruct (round_float_finite _ Ht) as [a Ha].
  destruct (round_float_finite _ Hp) as [b Hb].
  destruct (round_float_finite _ Hr) as [c Hc].
  exists a, b, c. repeat split; try done.
  - unfold warning_banner, fmt_pk, py_round. rewrite Ha, Hb, Hc.
    destruct (profit_amount <? total_expenses)%float; cbn.
    + done.
    + rewrite app_nil_r. by destruct w.
  - apply float_eqb_not_ltb.
Qed.

Lemma C4_warning_iff_expenses_exceed_witness :
  ∃ a b c,
    warning_banner 150 15
      {| files := ∅; state := new_session; shown := []; ticks := 0 |} =
    (Done (-135)%float,
     {| files := ∅; state := new_session;
        shown := [Error_expenses_exceed a b c]; ticks := 0 |}).
Proof.
  destruct (C4_warning_iff_expenses_exceed 150 15
              {| files := ∅; state := new_session; shown := []; ticks := 0 |})
    as (a & b & c & _ & _ & _ & E & _); try reflexivity.
  exists a, b, c. exact E.
Defined.

(** ** C5: the PIN gate *)

Definition nonspace (c : ascii) : bool := negb (isspace_char c).

Lemma lstrip_nonspace s : forall_chars nonspace s = true → lstrip s = s.
Proof.
  destruct s as [|c s]; simpl; [done|].
  unfold nonspace. intros [Hc _]%andb_true_iff.
  by destruct (isspace_char c).
Qed.

Lemma rstrip_nonspace s : forall_chars nonspace s = true → rstrip s = s.
Proof.
  induction s as [|c s IH]; simpl; [done|].
  unfold nonspace at 1. intros [Hc Hs]%andb_true_iff.
  rewrite IH by done. destruct s; [|done]. by destruct (isspace_char c).
Qed.

Lemma strip_nonspace s : forall_chars nonspace s = true → strip s = s.
Proof.
  intros Hs. unfold strip. rewrite lstrip_nonspace by done.
  by apply rstrip_nonspace.
Qed.

Lemma hex_digit_nonspace n : nonspace (SHA256.hex_digit n) = true.
Proof.
  unfold SHA256.hex_digit.
  pose proof (Z.mod_pos_bound n 16 ltac:(lia)) as Hm.
  generalize dependent (n mod 16)%Z. intros m Hm.
  assert (m = 0 ∨ m = 1 ∨ m = 2 ∨ m = 3 ∨ m = 4 ∨ m = 5 ∨ m = 6 ∨ m = 7 ∨
          m = 8 ∨ m = 9 ∨ m = 10 ∨ m = 11 ∨ m = 12 ∨ m = 13 ∨ m = 14 ∨
          m = 15)%Z as Hcases by lia.
  repeat (destruct Hcases as [->|Hcases]; [reflexivity|]). by subst.
Qed.

Lemma hex_word_nonspace w : forall_chars nonspace (SHA256.hex_word w) = true.
Proof.
  unfold SHA256.hex_word. cbn [fold_right forall_chars].
  by rewrite !hex_digit_nonspace.
Qed.

(** A digest has no white space, so [strip] leaves it as it is. *)
Lemma strip_sha256 text : strip (sha256 text) = sha256 text.
Proof.
  apply strip_nonspace. unfold sha256, SHA256.hexdigest, SHA256.digest_words.
  destruct (fold_left _ _ _) as [[[[[[[a b] c] d] e] f] g] h].
  cbn [fold_right]. by rewrite !forall_chars_app, !hex_word_nonspace.
Qed.

(** A text of exactly four numeric characters, in the sense of
    [str.isdigit]. *)
Definition four_digits (s : string) : Prop :=
  String.length s = 4%nat ∧ forall_chars isdigit_char s = true.

Lemma pin_test_four_digits (pin : string) :
  isdigit pin && (len pin =? 4)%Z = true ↔ four_digits pin.
Proof.
  unfold isdigit, len, four_digits. split.
  - intros [[_ Hd]%andb_true_iff Hl%Z.eqb_eq]%andb_true_iff. split; [lia|done].
  - intros [Hl Hd]. rewrite Hd, Hl. by destruct pin.
Qed.

Definition with_shown (w : world) (l : list message) : world :=
  {| files := files w; state := state w; shown := l; ticks := ticks w |}.

Definition with_state (w : world) (s : session) : world :=
  {| files := files w; state := s; shown := shown w; ticks := ticks w |}.

Definition with_files (w : world) (f : gmap string string) : world :=
  {| files := f; state := state w; shown := shown w; ticks := ticks w |}.

(** *** Running a script *)

Lemma bind_run {A B} (m : script A) (k : A → script B) (w : world) :
  (m ≫= k) w =
  match m w with
  | (Done a, w') => k a w'
  | (Raised e, w') => (Raised e, w')
  | (Stopped, w') => (Stopped, w')
  | (Rerun, w') => (Rerun, w')
  end.
Proof. reflexivity. Qed.

Lemma bind_eval {A B} (r : result A) (k : A → script B) (w : world) :
  (eval r ≫= k) w = match r with Ok a => k a w | Err e => (Raised e, w) end.
Proof. by destruct r. Qed.

Lemma bind_assoc_run {A B C} (m : script A) (f : A → script B)
    (g : B → script C) (w : world) :
  ((m ≫= f) ≫= g) w = (m ≫= λ a, f a ≫= g) w.
Proof. rewrite !bind_run. destruct (m w) as [[a| | |] w']; try done. Qed.

Lemma bind_get_files {B} (k : gmap string string → script B) (w : world) :
  (get_files ≫= k) w = k (files w) w.
Proof. reflexivity. Qed.

Lemma bind_get_state {B} (k : session → script B) (w : world) :
  (get_state ≫= k) w = k (state w) w.
Proof. reflexivity. Qed.

Lemma bind_ret {A B} (a : A) (k : A → script B) (w : world) :
  (mret a ≫= k) w = k a w.
Proof. reflexivity. Qed.

(** Unfold the operations of the monad and compute what is known. *)
Ltac run_script :=
  repeat (unfold mbind, script_bind, mret, script_ret, modify_state,
          get_files, put_files, get_state, put_state, show, eval, raise,
          st_stop, st_rerun);
  cbv beta iota zeta.


(** Widgets at rest: no button pressed, every field at a fixed value. *)
Definition idle (t : datetime) : inputs :=
  {| clicked := None; clock := λ _, t;
     in_set_pin := ""; in_pin_attempt := "";
     in_shop_name := "AR Book Mart"; in_tagline := "Savings";
     in_month_name := "March"; in_year := 2025;
     in_day := λ _, 0%Z; in_profit_pct := 20;
     in_ex_name := λ _, "Rent"; in_ex_amt := λ _, 0%Z;
     in_edit_shop := "AR Book Mart"; in_edit_tagline := "Savings";
     in_edit_profit_pct := 20; in_edit_days := 3;
     in_edit_day := λ i, nth i [10; 20; 30]%Z 0%Z;
     in_edit_ex_name := λ i, nth i ["Rent"] "";
     in_edit_ex_amt := λ i, nth i [100]%Z 0%Z |}.

(** The same widgets with a button pressed. *)
Definition press (b : button) (inp : inputs) : inputs :=
  {| clicked := Some b; clock := clock inp;
     in_set_pin := in_set_pin inp; in_pin_attempt := in_pin_attempt inp;
     in_shop_name := in_shop_name inp; in_tagline := in_tagline inp;
     in_month_name := in_month_name inp; in_year := in_year inp;
     in_day := in_day inp; in_profit_pct := in_profit_pct inp;
     in_ex_name := in_ex_name inp; in_ex_amt := in_ex_amt inp;
     in_edit_shop := in_edit_shop inp; in_edit_tagline := in_edit_tagline inp;
     in_edit_profit_pct := in_edit_profit_pct inp;
     in_edit_days := in_edit_days inp; in_edit_day := in_edit_day inp;
     in_edit_ex_name := in_edit_ex_name inp;
     in_edit_ex_amt := in_edit_ex_amt inp |}.

(** The same widgets with a text in the two PIN fields. *)
Definition type_pin (pin : string) (inp : inputs) : inputs :=
  {| clicked := clicked inp; clock := clock inp;
     in_set_pin := pin; in_pin_attempt := pin;
     in_shop_name := in_shop_name inp; in_tagline := in_tagline inp;
     in_month_name := in_month_name inp; in_year := in_year inp;
     in_day := in_day inp; in_profit_pct := in_profit_pct inp;
     in_ex_name := in_ex_name inp; in_ex_amt := in_ex_amt inp;
     in_edit_shop := in_edit_shop inp; in_edit_tagline := in_edit_tagline inp;
     in_edit_profit_pct := in_edit_profit_pct inp;
     in_edit_days := in_edit_days inp; in_edit_day := in_edit_day inp;
     in_edit_ex_name := in_edit_ex_name inp;
     in_edit_ex_amt := in_edit_ex_amt inp |}.

Definition fresh_world (fs : gmap string string) : world :=
  {| files := fs; state := new_session; shown := []; ticks := 0 |}.


(** ** C8: the floor of one expense row *)

(** The main form: [remove_row] leaves a list that has a row with a row. *)
Lemma remove_row_keeps_a_row (i : nat) (w : world) (l : list expense) :
  ss_expenses (state w) = Some l → l ≠ [] →
  ∃ l', ss_expenses (state (snd (remove_row i w))) = Some l' ∧ l' ≠ [].
Proof.
  intros Hl Hne. unfold remove_row, get_expenses. run_script. rewrite Hl.
  cbv beta iota.
  destruct (1 <? length l)%nat eqn:H1; [|by exists l].
  apply Nat.ltb_lt in H1.
  destruct (i <? length l)%nat eqn:Hi; [|by exists l].
  apply Nat.ltb_lt in Hi.
  exists (delete i l). split; [done|].
  intros E. apply (f_equal length) in E. rewrite length_delete in E.
  - simpl in E. lia.
  - by apply lookup_lt_is_Some.
Qed.

(** A store with a PIN and one saved record, in an unlocked session. *)
Definition march_file : string := record_filename "March" 2025 t_march.

Definition one_record_world : world :=
  let r := sample_record t_march 3 "March" "AR Book Mart" in
  {| files := snd (@save_record_json small_text t_march r (set_pin "1234" ∅));
     state := set_unlocked true new_session; shown := []; ticks := 0 |}.

(** The session after "Load this record to edit" on that record. *)
Definition editing_world : world :=
  snd (@interact small_text plain_pdf
         (press (BLoad march_file) (idle t_march)) one_record_world).

(** C8 fails in the edit workflow: with exactly one expense row in the
    edited record, its Remove button removes the row, and the list of
    the edit session is left empty. *)
Theorem C8_edit_remove_has_no_floor :
  edit_expenses (state editing_world) =
    Some (PList [expense_dict {| ex_name := "Rent"; ex_amount := 100 |}]) ∧
  edit_expenses
    (state (snd (@interact small_text plain_pdf
                   (press (BEditRemove 0) (idle t_march)) editing_world))) =
    Some (PList []).
Proof. vm_compute. split; reflexivity. Qed.

(** ** C10: the name [logo_to_use] *)

Lemma logo_to_use_unbound : "logo_to_use" ∉ module_names.
Proof.
  apply (bool_decide_eq_false ("logo_to_use" ∈ module_names)).
  vm_compute. reflexivity.
Qed.

Lemma load_logo_to_use (w : world) :
  load_name "logo_to_use" w = (Raised (NameError "logo_to_use"), w).
Proof.
  unfold load_name. rewrite bool_decide_eq_false_2 by apply logo_to_use_unbound.
  reflexivity.
Qed.

Section Logo.
Context `{TextConv}.
Variable build_pdf : list element → result string.
Variable inp : inputs.

Lemma build_record_run fv rows te rp (w : world) :
  ∃ r, build_record inp fv rows te rp w =
       (Done r, {| files := files w; state := state w; shown := shown w;
                   ticks := S (ticks w) |}) ∧
       month_name r = fv_month_name fv ∧ year r = fv_year fv ∧
       profit_pct r = fv_profit_pct fv ∧ total_sales r = fv_total_sales fv ∧
       profit_amount r = fv_profit_amount fv ∧ total_expenses r = te ∧
       remaining_profit r = rp ∧ daily_sales r = fv_daily_sales fv ∧
       expenses r = map expense_dict rows.
Proof. eexists. split; [reflexivity|]. repeat split. Qed.

Lemma save_record_run (r : record) (w : world) :
  save_record inp r w =
  (Done (fst (save_record_json (clock inp (ticks w)) r (files w))),
   {| files := snd (save_record_json (clock inp (ticks w)) r (files w));
      state := state w; shown := shown w; ticks := S (ticks w) |}).
Proof. reflexivity. Qed.

(** The reads of the listing succeed on a record as the program saves
    it, when the two amounts it formats are finite. *)
Definition listable (rec : pyval) : Prop :=
  ∃ r : record, rec = record_dict r ∧
    finite (remaining_profit r) = true ∧ finite (total_expenses r) = true.

(** C10: the module never binds [logo_to_use].  Pressing "Generate PDF
    (Save & Download)" saves the JSON record and then raises the
    [NameError] where the name is read, before [generate_pdf_bytes]: no
    PDF is written and no "PDF saved" message is shown.  Pressing
    "Generate & Download PDF" of a listed record ends its run with an
    exception and changes nothing, and the exception is that [NameError]
    when the record is one the program saved.  [generate_pdf_bytes]
    itself gives the same document for a logo path that names no file as
    for no logo. *)
Theorem C10_logo_to_use_undefined :
  ("logo_to_use" ∉ module_names) ∧
  (∀ fv rows total_expenses remaining_profit w,
     clicked inp = Some BPdf →
     ∃ r json_path,
       pdf_handler build_pdf inp fv rows total_expenses remaining_profit w =
         (Raised (NameError "logo_to_use"),
          {| files := <[json_path := Json.dumps (record_dict r)]> (files w);
             state := state w; shown := shown w; ticks := S (S (ticks w)) |}) ∧
       Str.endswith json_path ".json" = true) ∧
  (∀ fname w,
     clicked inp = Some (BPdfFor fname) →
     (∃ e, listing_item build_pdf inp fname w = (Raised e, w)) ∧
     (∀ rec, load_record (path_join RECORDS_DIR fname) (files w) = Ok rec →
             listable rec →
             listing_item build_pdf inp fname w =
               (Raised (NameError "logo_to_use"), w))) ∧
  (∀ rec daily p fs,
     fs !! p = None →
     generate_pdf_bytes build_pdf rec daily (Some p) fs =
     generate_pdf_bytes build_pdf rec daily None fs).
Proof.
  split; [|split; [|split]].
  - apply logo_to_use_unbound.
  - intros fv rows te rp w Hclick.
    destruct (build_record_run fv rows te rp w) as (r & Hr & _).
    exists r, (fst (save_record_json (clock inp (S (ticks w))) r (files w))).
    split.
    + unfold pdf_handler, pressed. rewrite Hclick.
      rewrite bool_decide_eq_true_2 by done.
      rewrite bind_run, Hr. rewrite bind_run, save_record_run.
      rewrite bind_run, load_logo_to_use. reflexivity.
    + unfold save_record_json, fst. rewrite path_of_record.
      unfold record_filename.
      rewrite <- !(Str.app_assoc _ _ ".json"). apply endswith_app.
  - intros fname w Hclick.
    assert (Hp : pressed inp (BPdfFor fname) = true)
      by (unfold pressed; rewrite Hclick; by apply bool_decide_eq_true_2).
    split.
    + unfold listing_item. rewrite Hp. rewrite bind_get_files.
      repeat (rewrite bind_eval;
              match goal with
              | |- context [match ?r with Ok _ => _ | Err _ => _ end] =>
                  destruct r eqn:?; [|by eauto]
              end).
      rewrite bind_assoc_run, bind_eval.
      match goal with
      | |- context [match ?r with Ok _ => _ | Err _ => _ end] =>
          destruct r eqn:?; [|by eauto]
      end.
      rewrite bind_assoc_run, bind_run, load_logo_to_use. eauto.
    + intros rec Hload (r & -> & Hrp & Hte).
      destruct (round_float_finite _ Hrp) as [a Ha].
      destruct (round_float_finite _ Hte) as [b Hb].
      unfold listing_item. rewrite Hp. rewrite bind_get_files.
      rewrite bind_eval, Hload. cbv beta iota.
      rewrite bind_eval.
      change (py_getitem (record_dict r) "month_name")
        with (Ok (PStr (month_name r))). cbv beta iota.
      rewrite bind_eval.
      change (py_getitem (record_dict r) "year") with (Ok (PInt (year r))).
      cbv beta iota. rewrite bind_eval.
      change (py_getitem (record_dict r) "remaining_profit")
        with (Ok (PFloat (remaining_profit r))). cbv beta iota.
      rewrite bind_eval. change (fmt_pk (PFloat ?x)) with (round_float x).
      rewrite Ha. cbv beta iota. rewrite bind_eval.
      change (py_getitem (record_dict r) "created_at")
        with (Ok (PStr (created_at r))). cbv beta iota.
      rewrite bind_eval.
      change (py_get (record_dict r) "shop_name" (PStr ""))
        with (Ok (PStr (shop_name r))). cbv beta iota.
      rewrite bind_eval.
      change (py_getitem (record_dict r) "total_sales")
        with (Ok (PInt (total_sales r))). cbv beta iota.
      rewrite bind_eval. change (fmt_pk (PInt ?x)) with (Ok x).
      cbv beta iota. rewrite bind_eval.
      change (py_getitem (record_dict r) "profit_pct")
        with (Ok (PFloat (profit_pct r))). cbv beta iota.
      rewrite bind_eval.
      change (py_getitem (record_dict r) "total_expenses")
        with (Ok (PFloat (total_expenses r))). cbv beta iota.
      rewrite bind_eval. change (fmt_pk (PFloat ?x)) with (round_float x).
      rewrite Hb. cbv beta iota.
      rewrite bind_assoc_run, bind_eval.
      change (py_getitem (record_dict r) "daily_sales")
        with (Ok (PList (map PInt (daily_sales r)))). cbv beta iota.
      rewrite bind_assoc_run, bind_run, load_logo_to_use. reflexivity.
  - intros rec daily p fs Hnone. unfold generate_pdf_bytes.
    assert (path_exists p fs = false) as ->.
    { unfold path_exists. rewrite Hnone. apply bool_decide_eq_false.
      by intros [? ?]. }
    by rewrite andb_false_r.
Qed.
End Logo.

Definition sample_form : form_values :=
  {| fv_shop_name := "AR Book Mart"; fv_tagline := "Savings";
     fv_month_name := "March"; fv_year := 2025; fv_month_number := 3;
     fv_daily_sales := [10; 20; 30]%Z; fv_total_sales := 60;
     fv_profit_pct := 20; fv_profit_amount := 12 |}.

Lemma C10_logo_to_use_undefined_witness :
  ∃ r json_path,
    @pdf_handler small_text plain_pdf (press BPdf (idle t_march)) sample_form
      [{| ex_name := "Rent"; ex_amount := 100 |}] 100 (-88) one_record_world =
    (Raised (NameError "logo_to_use"),
     {| files := <[json_path := @Json.dumps small_text (record_dict r)]>
                   (files one_record_world);
        state := state one_record_world; shown := shown one_record_world;
        ticks := S (S (ticks one_record_world)) |}) ∧
    Str.endswith json_path ".json" = true.
Proof.
  apply (@C10_logo_to_use_undefined small_text plain_pdf
           (press BPdf (idle t_march))).
  reflexivity.
Defined.

(** ** C9: loading a missing or undecodable record *)

Section Load.
Context `{TextConv}.
Variable build_pdf : list element → result string.
Variable inp : inputs.

(** Without a button pressed, the listing of a file either passes and
    changes nothing or raises and changes nothing. *)
Lemma listing_item_idle (fname : string) (w : world) :
  clicked inp = None →
  listing_item build_pdf inp fname w = (Done (), w) ∨
  ∃ e, listing_item build_pdf inp fname w = (Raised e, w).
Proof.
  intros Hclick. unfold listing_item, pressed. rewrite Hclick.
  rewrite !bool_decide_eq_false_2 by done. rewrite bind_get_files.
  repeat (rewrite bind_eval;
          match goal with
          | |- context [match ?r with Ok _ => _ | Err _ => _ end] =>
              destruct r eqn:?; [|by eauto]
          end).
  by left.
Qed.

(** A file that does not load makes its listing raise. *)
Lemma listing_item_load_error (fname : string) (w : world) (e : exn) :
  load_record (path_join RECORDS_DIR fname) (files w) = Err e →
  listing_item build_pdf inp fname w = (Raised e, w).
Proof.
  intros Hload. unfold listing_item. rewrite bind_get_files.
  by rewrite bind_eval, Hload.
Qed.

Lemma for_each_raises (l : list string) (x : string) (w : world) (e : exn) :
  clicked inp = None → x ∈ l →
  listing_item build_pdf inp x w = (Raised e, w) →
  ∃ e', for_each (listing_item build_pdf inp) l w = (Raised e', w).
Proof.
  intros Hclick Hin Hx. induction l as [|y l IH]; [by apply elem_of_nil in Hin|].
  cbn [for_each]. rewrite bind_run.
  destruct (listing_item_idle y w Hclick) as [Hy|[e' Hy]]; rewrite Hy.
  - apply elem_of_cons in Hin as [->|Hin]; [congruence|]. by apply IH.
  - eauto.
Qed.

(** C9, amended: [load_record] raises [FileNotFoundError] on a path that
    names no file and the decoder's exception on a content that is not
    JSON; the script does not catch either.  A file of the records
    directory that does not load ends the run at the listing with an
    exception, with nothing shown about it by the program and with the
    files and the session as they were. *)
Theorem C9_load_error_ends_the_run :
  (∀ path fs, fs !! path = None →
     load_record path fs = Err (FileNotFoundError path)) ∧
  (∀ path fs content e, fs !! path = Some content → Json.loads content = Err e →
     load_record path fs = Err e) ∧
  (∀ fname w e,
     clicked inp = None →
     fname ∈ list_saved_records (files w) →
     load_record (path_join RECORDS_DIR fname) (files w) = Err e →
     ∃ e', listing build_pdf inp w = (Raised e', w)).
Proof.
  split; [|split].
  - intros path fs Hnone. unfold load_record. by rewrite Hnone.
  - intros path fs content e Hsome Hloads. unfold load_record.
    by rewrite Hsome.
  - intros fname w e Hclick Hin Hload. unfold listing.
    rewrite bind_get_files.
    destruct (list_saved_records (files w)) as [|y l] eqn:El;
      [by apply elem_of_nil in Hin|].
    eapply for_each_raises; [done|done|].
    by apply listing_item_load_error.
Qed.
End Load.

(** A store with a PIN and, in the records directory, a file that is not
    JSON, in an unlocked session. *)
Definition broken_record_world : world :=
  {| files := <["records/record_broken.json" := "{"]> (set_pin "1234" ∅);
     state := set_unlocked true new_session; shown := []; ticks := 0 |}.

(** C9, as stated, fails: with a file in the records directory that is
    not JSON, a run of the script ends with the uncaught
    [JSONDecodeError] of [load_record]; what the run has shown until then
    says nothing about the record. *)
Lemma C9_undecodable_record_raises :
  @load_record small_text "records/record_broken.json"
     (files broken_record_world) = Err JSONDecodeError ∧
  @run small_text plain_pdf (idle t_march) broken_record_world =
    (Raised JSONDecodeError,
     {| files := files broken_record_world;
        state := set_expenses [{| ex_name := "Rent"; ex_amount := 0 |}]
                   (state broken_record_world);
        shown := [Info_add_expenses]; ticks := 0 |}).
Proof. vm_compute. split; reflexivity. Qed.

Lemma C9_load_error_ends_the_run_witness :
  ∃ e', @listing small_text plain_pdf (idle t_march) broken_record_world =
        (Raised e', broken_record_world).
Proof.
  eapply (@C9_load_error_ends_the_run small_text plain_pdf (idle t_march)).
  - reflexivity.
  - assert (E : list_saved_records (files broken_record_world) =
                ["record_broken.json"]) by (vm_compute; reflexivity).
    rewrite E. apply list_elem_of_singleton. reflexivity.
  - vm_compute. reflexivity.
Defined.

(** ** C7: the edit-and-overwrite scenario *)

(** The widgets of the edit form with a profit percentage and the names
    and amounts of the expense rows typed in. *)
Definition type_edit (pct : float) (names : list string) (amounts : list Z)
    (inp : inputs) : inputs :=
  {| clicked := clicked inp; clock := clock inp;
     in_set_pin := in_set_pin inp; in_pin_attempt := in_pin_attempt inp;
     in_shop_name := in_shop_name inp; in_tagline := in_tagline inp;
     in_month_name := in_month_name inp; in_year := in_year inp;
     in_day := in_day inp; in_profit_pct := in_profit_pct inp;
     in_ex_name := in_ex_name inp; in_ex_amt := in_ex_amt inp;
     in_edit_shop := in_edit_shop inp; in_edit_tagline := in_edit_tagline inp;
     in_edit_profit_pct := pct;
     in_edit_days := in_edit_days inp; in_edit_day := in_edit_day inp;
     in_edit_ex_name := λ i, nth i names "";
     in_edit_ex_amt := λ i, nth i amounts 0%Z |}.

(** The record of [one_record_world] is loaded for edit, a row is added,
    the percentage is set to 25 and the new row to Utilities, 50, and
    the changes are saved. *)
Definition edited_world : world :=
  let w1 := editing_world in
  let w2 := snd (@interact small_text plain_pdf
                   (press BEditAdd (idle t_march)) w1) in
  snd (@interact small_text plain_pdf
         (press BSaveChanges
            (type_edit 25 ["Rent"; "Utilities"] [100; 50]%Z (idle t_march))) w2).

(** C7: the record loaded has the daily sales 10, 20, 30, the expense
    Rent 100 and the percentage 20; after the edit the file it was loaded
    from holds the total expenses 150, the profit amount 15, the
    remaining profit -135 and the two expenses, and the store has the
    same files as before. *)
Theorem C7_edit_and_overwrite :
  let path := path_join RECORDS_DIR march_file in
  @load_record small_text path (files one_record_world) =
    Ok (record_dict (sample_record t_march 3 "March" "AR Book Mart")) ∧
  editing_file (state editing_world) = Some path ∧
  dom (files edited_world) = dom (files one_record_world) ∧
  ∃ ed,
    @load_record small_text path (files edited_world) = Ok (PDict ed) ∧
    dict_lookup "daily_sales" ed = Some (PList [PInt 10; PInt 20; PInt 30]) ∧
    dict_lookup "profit_pct" ed = Some (PFloat 25) ∧
    dict_lookup "total_sales" ed = Some (PInt 60) ∧
    dict_lookup "profit_amount" ed = Some (PFloat 15) ∧
    dict_lookup "total_expenses" ed = Some (PFloat 150) ∧
    dict_lookup "remaining_profit" ed = Some (PFloat (-135)) ∧
    dict_lookup "expenses" ed =
      Some (PList [expense_dict {| ex_name := "Rent"; ex_amount := 100 |};
                   expense_dict {| ex_name := "Utilities"; ex_amount := 50 |}]).
Proof.
  cbv zeta. split; [vm_compute; reflexivity|].
  split; [vm_compute; reflexivity|].
  split; [vm_compute; reflexivity|].
  eexists. split; [vm_compute; reflexivity|].
  vm_compute. repeat split; reflexivity.
Qed.

(** ** C3: the derived fields of a written record *)

(** *** Pieces of the script that write no file *)

Definition keeps_files {A} (m : script A) : Prop :=
  ∀ w, files (snd (m w)) = files w.

Lemma keeps_bind {A B} (m : script A) (k : A → script B) :
  keeps_files m → (∀ a, keeps_files (k a)) → keeps_files (m ≫= k).
Proof.
  intros Hm Hk w. rewrite bind_run. specialize (Hm w).
  destruct (m w) as [[a| | |] w1]; simpl in *; try done.
  by rewrite Hk.
Qed.

Lemma keeps_ret {A} (a : A) : keeps_files (mret a).
Proof. by intros w. Qed.

Lemma keeps_eval {A} (r : result A) : keeps_files (eval r).
Proof. intros w. by destruct r. Qed.

Lemma keeps_raise {A} (e : exn) : keeps_files (raise (A := A) e).
Proof. by intros w. Qed.

Lemma keeps_stop {A} : keeps_files (st_stop (A := A)).
Proof. by intros w. Qed.

Lemma keeps_rerun {A} : keeps_files (st_rerun (A := A)).
Proof. by intros w. Qed.

Lemma keeps_show (m : message) : keeps_files (show m).
Proof. by intros w. Qed.

Lemma keeps_get_files : keeps_files get_files.
Proof. by intros w. Qed.

Lemma keeps_get_state : keeps_files get_state.
Proof. by intros w. Qed.

Lemma keeps_put_state (s : session) : keeps_files (put_state s).
Proof. by intros w. Qed.

Lemma keeps_modify_state (g : session → session) : keeps_files (modify_state g).
Proof. by intros w. Qed.

Lemma keeps_load_name (n : string) : keeps_files (load_name n).
Proof. intros w. unfold load_name. by case_bool_decide. Qed.

Create HintDb keeps discriminated.
#[export] Hint Resolve keeps_ret keeps_eval keeps_raise keeps_stop keeps_rerun
  keeps_show keeps_get_files keeps_get_state keeps_put_state
  keeps_modify_state keeps_load_name : keeps.

(** Decompose a piece of the script along its binds and branches. *)
Ltac keeps :=
  repeat first
    [ progress (intros)
    | apply keeps_bind
    | solve [auto with keeps]
    | match goal with
      | |- keeps_files (if ?b then _ else _) => destruct b
      | |- keeps_files (match ?x with _ => _ end) => destruct x
      end ].

(** The files after a piece that writes none satisfy what the files
    before it satisfy. *)
Lemma bind_frame {A B} (m : script A) (k : A → script B) (w : world)
    (Q : gmap string string → Prop) :
  keeps_files m → Q (files w) →
  (∀ a w1, m w = (Done a, w1) → files w1 = files w →
           Q (files (snd (k a w1)))) →
  Q (files (snd ((m ≫= k) w))).
Proof.
  intros Hm HQ Hk. rewrite bind_run. specialize (Hm w).
  destruct (m w) as [[a| | |] w1] eqn:E; simpl in *;
    try (by rewrite Hm).
  by apply Hk.
Qed.

Section Frame.
Context `{TextConv}.
Variable build_pdf : list element → result string.
Variable inp : inputs.

Lemma keeps_now : keeps_files (now inp).
Proof. by intros w. Qed.

Lemma keeps_gate : clicked inp ≠ Some BSetPin → keeps_files (gate inp).
Proof.
  intros Hclick. unfold gate, pressed.
  rewrite (bool_decide_eq_false_2 (clicked inp = Some BSetPin)) by done.
  keeps.
Qed.

Lemma keeps_form : keeps_files (form inp).
Proof. unfold form. keeps. Qed.

Lemma keeps_get_expenses : keeps_files get_expenses.
Proof. unfold get_expenses. keeps. Qed.

Lemma keeps_remove_row i : keeps_files (remove_row i).
Proof. unfold remove_row. pose proof keeps_get_expenses. keeps. Qed.

Lemma keeps_add_row : keeps_files add_row.
Proof. unfold add_row. pose proof keeps_get_expenses. keeps. Qed.

Lemma keeps_expense_loop n idx : keeps_files (expense_loop inp n idx).
Proof.
  revert idx. induction n as [|n IH]; intros idx; cbn [expense_loop].
  - keeps.
  - pose proof keeps_get_expenses. pose proof (keeps_remove_row idx). keeps.
Qed.

Lemma keeps_expense_rows : keeps_files (expense_rows inp).
Proof.
  unfold expense_rows.
  pose proof keeps_get_expenses. pose proof keeps_add_row.
  pose proof keeps_expense_loop. keeps.
Qed.

Lemma keeps_pie_chart te : keeps_files (pie_chart te).
Proof. unfold pie_chart. keeps. Qed.

Lemma keeps_warning_banner te pa : keeps_files (warning_banner te pa).
Proof. unfold warning_banner. keeps. Qed.

Lemma keeps_calc_handler fv te rp : keeps_files (calc_handler inp fv te rp).
Proof. unfold calc_handler. keeps. Qed.

Lemma keeps_save_handler fv rows te rp :
  clicked inp ≠ Some BSave → keeps_files (save_handler inp fv rows te rp).
Proof.
  intros Hclick. unfold save_handler, pressed.
  rewrite bool_decide_eq_false_2 by done. keeps.
Qed.

Lemma keeps_pdf_handler fv rows te rp :
  clicked inp ≠ Some BPdf →
  keeps_files (pdf_handler build_pdf inp fv rows te rp).
Proof.
  intros Hclick. unfold pdf_handler, pressed.
  rewrite bool_decide_eq_false_2 by done. keeps.
Qed.

Lemma keeps_show_last_summary : keeps_files show_last_summary.
Proof. unfold show_last_summary. keeps. Qed.


Lemma keeps_for_each {A} (body : A → script unit) (l : list A) :
  (∀ x, keeps_files (body x)) → keeps_files (for_each body l).
Proof. intros Hb. induction l as [|x l IH]; cbn [for_each]; keeps. Qed.


Lemma keeps_get_edit_expenses : keeps_files get_edit_expenses.
Proof. unfold get_edit_expenses. keeps. Qed.

Lemma keeps_set_edit_row idx k v : keeps_files (set_edit_row idx k v).
Proof. unfold set_edit_row. pose proof keeps_get_edit_expenses. keeps. Qed.

Lemma keeps_pop_edit_row idx : keeps_files (pop_edit_row idx).
Proof. unfold pop_edit_row. pose proof keeps_get_edit_expenses. keeps. Qed.

Lemma keeps_append_edit_row row : keeps_files (append_edit_row row).
Proof. unfold append_edit_row. pose proof keeps_get_edit_expenses. keeps. Qed.

Lemma keeps_edit_loop n idx : keeps_files (edit_loop inp n idx).
Proof.
  revert idx. induction n as [|n IH]; intros idx; cbn [edit_loop].
  - keeps.
  - pose proof keeps_get_edit_expenses. pose proof keeps_set_edit_row.
    pose proof keeps_pop_edit_row. keeps.
Qed.

Lemma keeps_edit_section :
  clicked inp ≠ Some BSaveChanges → keeps_files (edit_section inp).
Proof.
  intros Hclick. unfold edit_section, pressed.
  rewrite (bool_decide_eq_false_2 (clicked inp = Some BSaveChanges)) by done.
  pose proof keeps_get_edit_expenses. pose proof keeps_edit_loop.
  pose proof keeps_append_edit_row. keeps.
Qed.
End Frame.

(** *** The four equations *)

Definition sum_Z (l : list Z) : Z := foldr Z.add 0%Z l.

Section Derived.
Context `{TextConv}.
Variable build_pdf : list element → result string.
Variable inp : inputs.

Lemma total_sales_from_ints (acc : Z) (l : list Z) :
  total_sales_from acc (map PInt l) = Ok (acc + sum_Z l)%Z.
Proof.
  revert acc. induction l as [|x l IH]; intros acc; cbn [map total_sales_from].
  - unfold sum_Z. simpl. f_equal. lia.
  - assert (py_int (py_or (PInt x) (PInt 0)) = Ok x) as ->.
    { unfold py_or, truthy. destruct (Z.eqb_spec x 0); simpl; congruence. }
    cbn. rewrite IH. f_equal. unfold sum_Z. simpl. lia.
Qed.

(** On a list of ints, [compute_total_sales] is their sum. *)
Lemma compute_total_sales_ints (l : list Z) :
  compute_total_sales (map PInt l) = Ok (sum_Z l).
Proof. unfold compute_total_sales. by rewrite total_sales_from_ints. Qed.




Lemma compute_profit_spec ts pct pa :
  compute_profit ts pct = Ok pa →
  ∃ t, float_of_int ts = Ok t ∧ pa = (t * (pct / 100))%float.
Proof.
  unfold compute_profit. destruct (float_of_int ts) as [t|e]; cbn; [|done].
  intros [= <-]. eauto.
Qed.

(** What the form computes. *)
Lemma form_spec (w w1 : world) (fv : form_values) :
  form inp w = (Done fv, w1) →
  fv_total_sales fv = sum_Z (fv_daily_sales fv) ∧
  ∃ t, float_of_int (fv_total_sales fv) = Ok t ∧
       fv_profit_amount fv = (t * (fv_profit_pct fv / 100))%float.
Proof.
  unfold form.
  rewrite bind_eval. destruct (list_index _ _) as [mn|]; [|done].
  rewrite bind_eval. destruct (days_in_month _ _) as [nd|]; [|done].
  rewrite bind_eval, compute_total_sales_ints.
  rewrite bind_eval. cbn [fmt_pk py_round].
  rewrite bind_eval.
  destruct (compute_profit _ _) as [pa|] eqn:Ep; [|done].
  rewrite bind_eval.
  match goal with
  | |- context [match ?r with Ok _ => _ | Err _ => _ end] => destruct r
  end; [|done].
  intros [= <- <-]. simpl. split; [done|]. by apply compute_profit_spec.
Qed.


End Derived.

(** *** The records the script writes *)


Section Written.
Context `{TextConv}.
Variable build_pdf : list element → result string.
Variable inp : inputs.








End Written.




(** ** C2: the round trip through a file *)

(** *** White space *)

Section RoundTrip.
Context `{TextConv}.

Lemma spaces_S (k : nat) :
  String.concat "" (repeat " " (S k)) =
  String " " (String.concat "" (repeat " " k)).
Proof. by destruct k. Qed.

Lemma skip_ws_spaces (k : nat) (s : string) :
  Json.skip_ws (String.concat "" (repeat " " k) ++ s) = Json.skip_ws s.
Proof.
  induction k as [|k IH]; [done|].
  rewrite spaces_S, Str.app_cons. cbn [Json.skip_ws]. exact IH.
Qed.

Lemma skip_ws_newline_indent (level : nat) (s : string) :
  Json.skip_ws (Json.newline_indent level ++ s) = Json.skip_ws s.
Proof.
  unfold Json.newline_indent. rewrite Str.app_cons. cbn [Json.skip_ws].
  change (Json.is_ws Json.newline) with true. cbv iota.
  apply skip_ws_spaces.
Qed.

Lemma skip_ws_head (c : ascii) (s : string) :
  Json.is_ws c = false → Json.skip_ws (String c s) = String c s.
Proof. intros Hc. cbn [Json.skip_ws]. by rewrite Hc. Qed.

(** *** Strings *)

Lemma scanstring_escape_char (c : ascii) (s : string) :
  Json.scanstring (Json.escape_char c ++ s) =
  Json.cons_char c (Json.scanstring s).
Proof.
  destruct c as [[] [] [] [] [] [] [] []]; reflexivity.
Qed.

Lemma scanstring_escape (s rest : string) :
  Json.scanstring (Json.escape s ++ String Json.dquote rest) = Ok (s, rest).
Proof.
  induction s as [|c s IH]; cbn [Json.escape].
  - reflexivity.
  - rewrite Str.app_assoc, scanstring_escape_char, IH. reflexivity.
Qed.

(** A string literal reads back as the string. *)
Lemma scanstring_basestring (s rest : string) :
  Json.encode_basestring s ++ rest =
    String Json.dquote (Json.escape s ++ String Json.dquote rest) ∧
  Json.scanstring (Json.escape s ++ String Json.dquote rest) = Ok (s, rest).
Proof.
  split; [|apply scanstring_escape].
  unfold Json.encode_basestring. rewrite Str.app_cons, Str.app_assoc.
  by rewrite Str.app_cons, Str.app_nil.
Qed.

(** *** Numbers *)

(** What follows a value in the text of the encoder: nothing, a comma or
    a line break. *)
Definition delimited (rest : string) : bool :=
  match rest with
  | EmptyString => true
  | String c _ => Ascii.eqb c "," || Ascii.eqb c Json.newline
  end.

Lemma string_of_uint_digits d :
  forall_chars Json.is_digit (NilEmpty.string_of_uint d) = true.
Proof. induction d; simpl; auto. Qed.

Lemma span_digits_app (ds rest : string) :
  forall_chars Json.is_digit ds = true → delimited rest = true →
  Json.span_digits (ds ++ rest) = (ds, rest).
Proof.
  intros Hd Hr. induction ds as [|c ds IH];
    rewrite ?Str.app_nil, ?Str.app_cons.
  - destruct rest as [|c rest]; [done|]. cbn [Json.span_digits].
    simpl in Hr.
    destruct (Ascii.eqb_spec c ",") as [->|]; [done|].
    destruct (Ascii.eqb_spec c Json.newline) as [->|]; [done|done].
  - simpl in Hd. apply andb_true_iff in Hd as [Hc Hd].
    cbn [Json.span_digits]. rewrite Hc, IH by done. done.
Qed.

Lemma nzhead_not_D0 d d' : Decimal.nzhead d ≠ Decimal.D0 d'.
Proof. induction d; simpl; try done. Qed.

(** The numeral of a positive number starts with a digit that is not 0. *)
Lemma to_uint_head (p : positive) :
  ∃ d, Pos.to_uint p = d ∧ d ≠ Decimal.Nil ∧ ∀ d', d ≠ Decimal.D0 d'.
Proof.
  exists (Pos.to_uint p). split; [done|]. split.
  - apply DecimalPos.Unsigned.to_uint_nonnil.
  - intros d' E.
    pose proof (DecimalPos.Unsigned.to_of (Pos.to_uint p)) as Hn.
    rewrite DecimalPos.Unsigned.of_to in Hn. simpl in Hn.
    rewrite E in Hn. unfold Decimal.unorm in Hn. simpl in Hn.
    destruct (Decimal.nzhead d') eqn:En; try discriminate Hn.
    + injection Hn as ->.
      by apply (DecimalPos.Unsigned.to_uint_nonzero p).
    + by apply nzhead_not_D0 in En.
Qed.

Lemma lex_integer_pos (d : Decimal.uint) (rest : string) :
  d ≠ Decimal.Nil → (∀ d', d ≠ Decimal.D0 d') → delimited rest = true →
  Json.lex_integer (NilEmpty.string_of_uint d ++ rest) =
    Some (NilEmpty.string_of_uint d, rest).
Proof.
  intros Hnil H0 Hr.
  pose proof (span_digits_app _ rest (string_of_uint_digits d) Hr) as Hs.
  destruct d; try done; try (by exfalso; eapply H0);
    cbn [NilEmpty.string_of_uint] in *; rewrite Str.app_cons in *;
    cbv beta iota zeta delta [Json.lex_integer];
    rewrite Hs; reflexivity.
Qed.

Lemma lex_integer_neg (d : Decimal.uint) (rest : string) :
  d ≠ Decimal.Nil → (∀ d', d ≠ Decimal.D0 d') → delimited rest = true →
  Json.lex_integer (String "-" (NilEmpty.string_of_uint d ++ rest)) =
    Some (String "-" (NilEmpty.string_of_uint d), rest).
Proof.
  intros Hnil H0 Hr.
  pose proof (span_digits_app _ rest (string_of_uint_digits d) Hr) as Hs.
  destruct d; try done; try (by exfalso; eapply H0);
    cbn [NilEmpty.string_of_uint] in *; rewrite Str.app_cons in *;
    cbv beta iota zeta delta [Json.lex_integer];
    rewrite Hs; reflexivity.
Qed.

(** The integer part of a number is read whole. *)
Lemma lex_integer_int (z : Z) (rest : string) :
  delimited rest = true →
  Json.lex_integer (str_of_int z ++ rest) = Some (str_of_int z, rest).
Proof.
  intros Hr. unfold str_of_int. destruct z as [|p|p]; cbn [Z.to_int].
  - reflexivity.
  - destruct (to_uint_head p) as (d & -> & Hnil & H0).
    unfold NilZero.string_of_int, NilZero.string_of_uint.
    destruct d eqn:Ed; try done; rewrite <- Ed in *;
      apply lex_integer_pos; done.
  - destruct (to_uint_head p) as (d & -> & Hnil & H0).
    unfold NilZero.string_of_int, NilZero.string_of_uint.
    rewrite Str.app_cons.
    destruct d eqn:Ed; try done; rewrite <- Ed in *;
      apply lex_integer_neg; done.
Qed.

Lemma int_of_integer_int (z : Z) : Json.int_of_integer (str_of_int z) = z.
Proof.
  unfold Json.int_of_integer, str_of_int. rewrite NilZero.isi.
  - apply DecimalZ.of_to.
  - destruct z; simpl; try done; intros [= E];
      by apply DecimalPos.Unsigned.to_uint_nonnil in E.
  - destruct z; simpl; try done; intros [= E];
      by apply DecimalPos.Unsigned.to_uint_nonnil in E.
Qed.

Lemma lex_frac_delimited (rest : string) :
  delimited rest = true → Json.lex_frac rest = ("", rest).
Proof.
  destruct rest as [|c rest]; [done|]. simpl.
  destruct (Ascii.eqb_spec c ",") as [->|]; [done|].
  destruct (Ascii.eqb_spec c Json.newline) as [->|]; done.
Qed.

Lemma lex_exp_delimited (rest : string) :
  delimited rest = true → Json.lex_exp rest = ("", rest).
Proof.
  destruct rest as [|c rest]; [done|]. simpl.
  destruct (Ascii.eqb_spec c ",") as [->|]; [done|].
  destruct (Ascii.eqb_spec c Json.newline) as [->|]; done.
Qed.

(** The numeral of an [int] reads back as the [int]. *)
Lemma scan_number_int (z : Z) (rest : string) :
  delimited rest = true →
  Json.scan_number (str_of_int z ++ rest) = Some (Ok (PInt z), rest).
Proof.
  intros Hr. unfold Json.scan_number.
  rewrite lex_integer_int, lex_frac_delimited, lex_exp_delimited by done.
  cbn. by rewrite int_of_integer_int.
Qed.

(** A text that starts with a number starts with a sign or a digit. *)
Definition number_head (c : ascii) : bool := Ascii.eqb c "-" || Json.is_digit c.

Lemma scan_number_head (s : string) r rest :
  Json.scan_number s = Some (r, rest) →
  ∃ c s', s = String c s' ∧ number_head c = true.
Proof.
  unfold Json.scan_number, Json.lex_integer. destruct s as [|c s']; [done|].
  intros Hs. exists c, s'. split; [done|].
  unfold number_head. destruct (Ascii.eqb_spec c "-") as [->|Hm]; [done|].
  simpl. destruct (Json.is_digit c) eqn:Hd; [done|]. exfalso.
  revert Hs.
  destruct c as [[] [] [] [] [] [] [] []]; try done; cbv beta iota zeta;
    cbv in Hd; try discriminate Hd.
Qed.

(** [scan_once] on a text that starts with a number. *)
Lemma scan_once_number (fuel : nat) (s : string) r rest :
  Json.scan_number s = Some (r, rest) →
  Json.scan_once (S fuel) s = (v ← r; Ok (v, rest)).
Proof.
  intros Hs. destruct (scan_number_head _ _ _ Hs) as (c & s' & -> & Hc).
  cbn [Json.scan_once]. unfold number_head in Hc.
  destruct c as [[] [] [] [] [] [] [] []]; try discriminate Hc;
    cbv beta iota zeta delta [Ascii.eqb Bool.eqb Json.dquote Json.eat andb];
    rewrite Hs; reflexivity.
Qed.

(** *** Well-formed values *)

(** The contract of [repr] and [float] on a double: the numeral [repr]
    gives is read whole by the scanner of numbers and converts back to
    the double. *)
Definition float_text (f : float) : Prop :=
  finite f = true ∧
  ∀ rest, delimited rest = true →
    Json.scan_number (float_repr f ++ rest) = Some (Ok (PFloat f), rest).

(** The values [json.dump] writes and [json.load] gives back: the keys
    of a dictionary are distinct, the doubles are finite and their
    numerals convert back. *)
#[warnings="-register-all"]
Inductive well_formed : pyval → Prop :=
| wf_none : well_formed PNone
| wf_bool b : well_formed (PBool b)
| wf_int z : well_formed (PInt z)
| wf_float f : float_text f → well_formed (PFloat f)
| wf_str s : well_formed (PStr s)
| wf_list l : Forall well_formed l → well_formed (PList l)
| wf_dict d :
    NoDup (map fst d) → Forall (λ kv, well_formed (snd kv)) d →
    well_formed (PDict d).

(** Induction on a value, with the hypothesis on the items of a list and
    on the values of a dictionary. *)
Lemma pyval_nested_ind (P : pyval → Prop) :
  P PNone → (∀ b, P (PBool b)) → (∀ z, P (PInt z)) → (∀ f, P (PFloat f)) →
  (∀ s, P (PStr s)) →
  (∀ l, Forall P l → P (PList l)) →
  (∀ d, Forall (λ kv, P (snd kv)) d → P (PDict d)) →
  ∀ v, P v.
Proof.
  intros Hn Hb Hi Hf Hs Hl Hd. fix IH 1. intros [| b | z | f | s | l | d].
  - exact Hn.
  - apply Hb.
  - apply Hi.
  - apply Hf.
  - apply Hs.
  - apply Hl. induction l as [|x l IHl]; constructor; [apply IH|exact IHl].
  - apply Hd. induction d as [|[k x] d IHd]; constructor; [apply IH|exact IHd].
Qed.

(** The calls of the scanner a value takes. *)
Fixpoint cost (v : pyval) : nat :=
  match v with
  | PList l => S (list_sum (map (λ x, S (cost x)) l))
  | PDict d => S (list_sum (map (λ kv, S (cost (snd kv))) d))
  | _ => 1
  end.

(** The first character of the text of a value: no white space and no
    closing bracket. *)
Definition value_head (c : ascii) : bool :=
  negb (Json.is_ws c) && negb (Ascii.eqb c "]") && negb (Ascii.eqb c "}").

Lemma number_head_value_head c : number_head c = true → value_head c = true.
Proof.
  unfold number_head.
  destruct c as [[] [] [] [] [] [] [] []]; try discriminate; reflexivity.
Qed.

Lemma number_text_head (t : string) r :
  Json.scan_number (t ++ "") = Some (r, "") →
  ∃ c s, t = String c s ∧ value_head c = true.
Proof.
  intros Hs. apply scan_number_head in Hs as (c & s & Hs & Hc).
  rewrite app_empty_r in Hs. exists c, s. split; [done|].
  by apply number_head_value_head.
Qed.

Lemma floatstr_finite f : finite f = true → Json.floatstr f = float_repr f.
Proof. unfold finite, Json.floatstr. by destruct (Prim2SF f). Qed.

Lemma encode_head (level : nat) (v : pyval) :
  well_formed v → ∃ c s, Json.encode level v = String c s ∧ value_head c = true.
Proof.
  intros Hwf. destruct Hwf as [|[]|z|f [Hfin Hf]|s|l|d].
  - by eexists _, _.
  - by eexists _, _.
  - by eexists _, _.
  - cbn [Json.encode]. eapply number_text_head. by apply scan_number_int.
  - cbn [Json.encode]. rewrite floatstr_finite by done.
    eapply number_text_head. by apply Hf.
  - by eexists _, _.
  - destruct l; by eexists _, _.
  - destruct d as [|[]]; by eexists _, _.
Qed.

Lemma skip_ws_value_head c s :
  value_head c = true → Json.skip_ws (String c s) = String c s.
Proof.
  intros Hc. apply skip_ws_head. unfold value_head in Hc.
  by destruct (Json.is_ws c).
Qed.

(** After white space, the text of a value. *)
Lemma skip_ws_encode (level k : nat) (v : pyval) (rest : string) :
  well_formed v →
  Json.skip_ws (Json.newline_indent k ++ Json.encode level v ++ rest) =
  Json.encode level v ++ rest.
Proof.
  intros Hwf. rewrite skip_ws_newline_indent.
  destruct (encode_head level v Hwf) as (c & s & -> & Hc).
  rewrite Str.app_cons. by apply skip_ws_value_head.
Qed.

(** *** Lists and dictionaries *)

Lemma result_bind_ok {A B} (a : A) (k : A → result B) : (Ok a ≫= k) = k a.
Proof. reflexivity. Qed.

Lemma scan_once_open_list (fuel : nat) (s1 : string) c s' :
  Json.skip_ws s1 = String c s' → Ascii.eqb c "]" = false →
  Json.scan_once (S fuel) (String "[" s1) =
  ('(items, rest) ← Json.array_items fuel (String c s'); Ok (PList items, rest)).
Proof.
  intros Hs Hc. cbn [Json.scan_once].
  cbv beta iota zeta delta [Ascii.eqb Bool.eqb Json.dquote andb].
  rewrite Hs.
  destruct c as [[] [] [] [] [] [] [] []]; try discriminate Hc; reflexivity.
Qed.

Lemma scan_once_open_dict (fuel : nat) (s1 : string) c s' :
  Json.skip_ws s1 = String c s' → Ascii.eqb c "}" = false →
  Json.scan_once (S fuel) (String "{" s1) =
  ('(pairs, rest) ← Json.object_members fuel (String c s');
   Ok (PDict (Json.dict_of_pairs pairs), rest)).
Proof.
  intros Hs Hc. cbn [Json.scan_once].
  cbv beta iota zeta delta [Ascii.eqb Bool.eqb Json.dquote andb].
  rewrite Hs.
  destruct c as [[] [] [] [] [] [] [] []]; try discriminate Hc; reflexivity.
Qed.

(** What the induction gives for a value: its text, followed by a
    delimiter, reads back as the value. *)
Definition reads_back (v : pyval) : Prop :=
  well_formed v ∧
  ∀ level fuel rest, (cost v ≤ fuel)%nat → delimited rest = true →
    Json.scan_once fuel (Json.encode level v ++ rest) = Ok (v, rest).

Lemma concat_cons_cons (sep a b : string) (l : list string) :
  String.concat sep (a :: b :: l) = a ++ sep ++ String.concat sep (b :: l).
Proof. reflexivity. Qed.

Lemma concat_head (sep a : string) (l : list string) c s :
  a = String c s → ∃ s', String.concat sep (a :: l) = String c s'.
Proof. intros ->. destruct l; eexists; reflexivity. Qed.

Lemma array_items_encode (l : list pyval) (x : pyval) (level k fuel : nat)
    (rest : string) :
  Forall reads_back (x :: l) →
  (list_sum (map (λ y, S (cost y)) (x :: l)) ≤ fuel)%nat →
  Json.array_items fuel
    (String.concat ("," ++ Json.newline_indent level)
       (map (Json.encode level) (x :: l)) ++
     Json.newline_indent k ++ "]" ++ rest) = Ok (x :: l, rest).
Proof.
  revert x fuel. induction l as [|y l IH]; intros x fuel Hall Hfuel.
  - apply Forall_cons_1 in Hall as [[Hwf Hx] _].
    cbn [map list_sum fold_right] in Hfuel. destruct fuel as [|fuel]; [lia|].
    cbn [map String.concat Json.array_items].
    rewrite Hx by (done || lia). rewrite result_bind_ok.
    rewrite skip_ws_newline_indent. reflexivity.
  - apply Forall_cons_1 in Hall as [[Hwf Hx] Hall].
    cbn [map list_sum fold_right] in Hfuel. destruct fuel as [|fuel]; [lia|].
    pose proof (IH y fuel Hall) as IHy. cbn [map] in IHy |- *.
    rewrite concat_cons_cons. cbn [Json.array_items].
    rewrite !Str.app_assoc.
    rewrite Hx by (done || lia). rewrite result_bind_ok.
    rewrite Str.app_cons, Str.app_nil.
    rewrite (skip_ws_head ","%char) by done. cbv beta iota.
    rewrite skip_ws_newline_indent.
    pose proof Hall as [[Hwfy _] _]%Forall_cons_1.
    destruct (encode_head level y Hwfy) as (c & s & Ec & Hc).
    destruct (concat_head ("," ++ Json.newline_indent level) _
                (map (Json.encode level) l) c s Ec) as [s' Es'].
    rewrite Es' at 1. rewrite Str.app_cons, skip_ws_value_head by done.
    rewrite <- Str.app_cons, <- Es'.
    rewrite IHy by (cbn [list_sum fold_right]; lia).
    reflexivity.
Qed.

(** The text of a member of a dictionary. *)
Definition member_text (level : nat) (kv : string * pyval) : string :=
  Json.encode_basestring (fst kv) ++ ": " ++ Json.encode level (snd kv).

Lemma member_text_app (level : nat) (k : string) (v : pyval) (rest : string) :
  member_text level (k, v) ++ rest =
  String Json.dquote
    (Json.escape k ++
     String Json.dquote (String ":" (String " " (Json.encode level v ++ rest)))).
Proof.
  unfold member_text, Json.encode_basestring. cbn [fst snd].
  rewrite !Str.app_cons, !Str.app_assoc, !Str.app_cons, !Str.app_nil.
  reflexivity.
Qed.

Lemma object_members_encode (d : list (string * pyval)) (kv : string * pyval)
    (level k fuel : nat) (rest : string) :
  Forall (λ kv, reads_back (snd kv)) (kv :: d) →
  (list_sum (map (λ kv, S (cost (snd kv))) (kv :: d)) ≤ fuel)%nat →
  Json.object_members fuel
    (String.concat ("," ++ Json.newline_indent level)
       (map (member_text level) (kv :: d)) ++
     Json.newline_indent k ++ "}" ++ rest) = Ok (kv :: d, rest).
Proof.
  revert kv fuel. induction d as [|kv' d IH]; intros [key x] fuel Hall Hfuel.
  - apply Forall_cons_1 in Hall as [[Hwf Hx] _]. cbn [snd] in *.
    cbn [map list_sum fold_right snd] in Hfuel.
    destruct fuel as [|fuel]; [lia|].
    cbn [map String.concat]. rewrite member_text_app.
    cbn [Json.object_members Json.eat].
    change (Ascii.eqb Json.dquote Json.dquote) with true. cbv iota.
    rewrite scanstring_escape, result_bind_ok. cbv beta iota.
    rewrite (skip_ws_head ":"%char) by done. cbv iota.
    destruct (encode_head level x Hwf) as (c & s & Ec & Hc).
    assert (Ew : Json.skip_ws (String " " (Json.encode level x ++
                   Json.newline_indent k ++ "}" ++ rest)) =
                 Json.encode level x ++ Json.newline_indent k ++ "}" ++ rest).
    { cbn [Json.skip_ws]. change (Json.is_ws " ") with true. cbv iota.
      rewrite Ec, Str.app_cons. by apply skip_ws_value_head. }
    rewrite Ew. rewrite Hx by (done || lia). rewrite result_bind_ok.
    cbv beta iota. rewrite skip_ws_newline_indent. reflexivity.
  - apply Forall_cons_1 in Hall as [[Hwf Hx] Hall]. cbn [snd] in *.
    cbn [map list_sum fold_right snd] in Hfuel.
    destruct fuel as [|fuel]; [lia|].
    pose proof (IH kv' fuel Hall) as IHy. cbn [map] in IHy |- *.
    rewrite concat_cons_cons. rewrite !Str.app_assoc.
    rewrite member_text_app.
    cbn [Json.object_members Json.eat].
    change (Ascii.eqb Json.dquote Json.dquote) with true. cbv iota.
    rewrite scanstring_escape, result_bind_ok. cbv beta iota.
    rewrite (skip_ws_head ":"%char) by done. cbv iota.
    destruct (encode_head level x Hwf) as (c & s & Ec & Hc).
    match goal with
    | |- context [Json.skip_ws (String " " (Json.encode level x ++ ?R))] =>
        assert (Ew : Json.skip_ws (String " " (Json.encode level x ++ R)) =
                     Json.encode level x ++ R)
    end.
    { cbn [Json.skip_ws]. change (Json.is_ws " ") with true. cbv iota.
      rewrite Ec, Str.app_cons. by apply skip_ws_value_head. }
    rewrite Ew. rewrite Hx by (done || lia). rewrite result_bind_ok.
    cbv beta iota.
    rewrite Str.app_cons, Str.app_nil.
    rewrite (skip_ws_head ","%char) by done. cbv beta iota.
    rewrite skip_ws_newline_indent.
    destruct kv' as [key' y].
    destruct (concat_head ("," ++ Json.newline_indent level)
                (member_text level (key', y))
                (map (member_text level) d) Json.dquote
                (Json.escape key' ++ String Json.dquote "" ++ ": " ++
                 Json.encode level y))
      as [s' Es'].
    { unfold member_text, Json.encode_basestring. cbn [fst snd].
      by rewrite !Str.app_cons, Str.app_assoc. }
    rewrite Es' at 1. rewrite Str.app_cons, skip_ws_value_head by done.
    rewrite <- Str.app_cons, <- Es'.
    rewrite IHy by (cbn [list_sum fold_right]; lia).
    reflexivity.
Qed.

(** With distinct keys, [dict] of the pairs is the list of the pairs. *)
Lemma dict_set_fresh (k : string) (v : pyval) (d : dict) :
  k ∉ map fst d → dict_set k v d = (d ++ [(k, v)])%list.
Proof.
  induction d as [|[k' v'] d IH]; intros Hk; [done|]. cbn [dict_set].
  cbn [map fst] in Hk. apply not_elem_of_cons in Hk as [Hne Hk].
  destruct (String.eqb_spec k' k); [congruence|].
  by rewrite IH.
Qed.

Lemma dict_of_pairs_from (acc d : dict) :
  NoDup (map fst (acc ++ d)%list) →
  fold_left (λ a kv, dict_set (fst kv) (snd kv) a) d acc = (acc ++ d)%list.
Proof.
  revert acc. induction d as [|[k v] d IH]; intros acc Hnd.
  - by rewrite app_nil_r.
  - cbn [fold_left fst snd]. rewrite dict_set_fresh.
    + rewrite IH; rewrite <- app_assoc; done.
    + rewrite map_app in Hnd. apply NoDup_app in Hnd as (_ & Hd & _).
      intros Hin. apply (Hd k Hin). cbn [map fst]. apply elem_of_cons. by left.
Qed.

Lemma dict_of_pairs_nodup (d : dict) :
  NoDup (map fst d) → Json.dict_of_pairs d = d.
Proof. intros Hnd. unfold Json.dict_of_pairs. by rewrite dict_of_pairs_from. Qed.

(** *** The scanner on the text of a value *)

Lemma encode_list_cons (level : nat) (x : pyval) (l : list pyval) :
  Json.encode level (PList (x :: l)) =
  String "[" (Json.newline_indent (S level) ++
    String.concat ("," ++ Json.newline_indent (S level))
      (map (Json.encode (S level)) (x :: l)) ++
    Json.newline_indent level ++ "]").
Proof. reflexivity. Qed.

Lemma encode_dict_cons (level : nat) (kv : string * pyval) (d : dict) :
  Json.encode level (PDict (kv :: d)) =
  String "{" (Json.newline_indent (S level) ++
    String.concat ("," ++ Json.newline_indent (S level))
      (map (member_text (S level)) (kv :: d)) ++
    Json.newline_indent level ++ "}").
Proof. reflexivity. Qed.

Lemma well_formed_list (l : list pyval) :
  well_formed (PList l) → Forall well_formed l.
Proof. by inversion 1. Qed.

Lemma well_formed_dict (d : dict) :
  well_formed (PDict d) →
  NoDup (map fst d) ∧ Forall (λ kv, well_formed (snd kv)) d.
Proof. by inversion 1. Qed.

Lemma well_formed_float (f : float) : well_formed (PFloat f) → float_text f.
Proof. by inversion 1. Qed.

Lemma Forall_modus_ponens {A} (P Q : A → Prop) (l : list A) :
  Forall (λ x, P x → Q x) l → Forall P l → Forall Q l.
Proof.
  induction 1 as [|x l Hx _ IH]; [done|].
  intros [Hp Hl]%Forall_cons_1. constructor; auto.
Qed.

(** The text of a well-formed value, followed by a delimiter, reads
    back as the value, with fuel for the calls it takes. *)
Lemma scan_once_encode (v : pyval) : well_formed v → reads_back v.
Proof.
  induction v as [| b | z | f | s | l IH | d IH] using pyval_nested_ind;
    intros Hwf; (split; [exact Hwf|]); intros level fuel rest Hfuel Hrest;
    (destruct fuel as [|fuel]; [cbn [cost] in Hfuel; lia|]).
  - reflexivity.
  - destruct b; reflexivity.
  - cbn [Json.encode].
    rewrite (scan_once_number _ _ _ _ (scan_number_int z rest Hrest)).
    reflexivity.
  - apply well_formed_float in Hwf as [Hfin Hf]. cbn [Json.encode].
    rewrite floatstr_finite by done.
    rewrite (scan_once_number _ _ _ _ (Hf rest Hrest)). reflexivity.
  - cbn [Json.encode].
    destruct (scanstring_basestring s rest) as [-> Hs].
    cbn [Json.scan_once].
    change (Ascii.eqb Json.dquote Json.dquote) with true. cbv iota.
    rewrite Hs. reflexivity.
  - apply well_formed_list in Hwf.
    assert (Hall : Forall reads_back l).
    { by eapply Forall_modus_ponens. }
    clear IH. destruct l as [|x l]; [reflexivity|].
    rewrite encode_list_cons, Str.app_cons, !Str.app_assoc.
    apply Forall_cons_1 in Hwf as Hwf'. destruct Hwf' as [Hwx _].
    destruct (encode_head (S level) x Hwx) as (c & s & Ec & Hc).
    destruct (concat_head ("," ++ Json.newline_indent (S level))
                (Json.encode (S level) x)
                (map (Json.encode (S level)) l) c s Ec) as [s' Es'].
    cbn [map]. cbn [cost] in Hfuel.
    rewrite (scan_once_open_list fuel _ c
               (s' ++ Json.newline_indent level ++ "]" ++ rest)).
    + rewrite <- Str.app_cons, <- Es'.
      pose proof (array_items_encode l x (S level) level fuel rest Hall
                    ltac:(lia)) as Hitems.
      cbn [map] in Hitems. rewrite Hitems. reflexivity.
    + rewrite skip_ws_newline_indent, Es', Str.app_cons.
      by apply skip_ws_value_head.
    + unfold value_head in Hc. by destruct (Ascii.eqb c "]"), (Json.is_ws c).
  - apply well_formed_dict in Hwf as [Hnd Hwf].
    assert (Hall : Forall (λ kv, reads_back (snd kv)) d).
    { exact (Forall_modus_ponens (λ kv, well_formed (snd kv))
               (λ kv, reads_back (snd kv)) d IH Hwf). }
    clear IH. destruct d as [|[key x] d]; [reflexivity|].
    rewrite encode_dict_cons, Str.app_cons, !Str.app_assoc.
    destruct (concat_head ("," ++ Json.newline_indent (S level))
                (member_text (S level) (key, x))
                (map (member_text (S level)) d) Json.dquote
                (Json.escape key ++ String Json.dquote "" ++ ": " ++
                 Json.encode (S level) x)) as [s' Es'].
    { unfold member_text, Json.encode_basestring. cbn [fst snd].
      by rewrite !Str.app_cons, Str.app_assoc. }
    cbn [map]. cbn [cost] in Hfuel.
    rewrite (scan_once_open_dict fuel _ Json.dquote
               (s' ++ Json.newline_indent level ++ "}" ++ rest)).
    + rewrite <- Str.app_cons, <- Es'.
      pose proof (object_members_encode d (key, x) (S level) level fuel rest
                    Hall ltac:(lia)) as Hitems.
      cbn [map] in Hitems. rewrite Hitems.
      rewrite result_bind_ok. cbv beta iota.
      by rewrite dict_of_pairs_nodup.
    + rewrite skip_ws_newline_indent, Es', Str.app_cons.
      by apply skip_ws_value_head.
    + reflexivity.
Qed.

(** *** The fuel [loads] gives *)

Lemma newline_indent_length (level : nat) :
  (1 ≤ String.length (Json.newline_indent level))%nat.
Proof. unfold Json.newline_indent. cbn [String.length]. lia. Qed.

Lemma concat_length_ge {A} (sep : string) (f : A → string) (g : A → nat)
    (l : list A) :
  (2 ≤ String.length sep)%nat →
  Forall (λ x, (g x ≤ String.length (f x) + 2)%nat) l →
  (list_sum (map g l) ≤ String.length (String.concat sep (map f l)) + 2)%nat.
Proof.
  intros Hsep. induction 1 as [|x l Hx Hl IH]; cbn [map list_sum fold_right].
  - lia.
  - destruct l as [|y l].
    + cbn [map list_sum fold_right String.concat]. lia.
    + cbn [map] in IH |- *. rewrite concat_cons_cons, !Str.length_app.
      cbn [list_sum fold_right] in IH |- *. lia.
Qed.

(** A value takes no more calls than its text has characters, and one
    more. *)
Lemma cost_le_length (v : pyval) (level : nat) :
  (cost v ≤ S (String.length (Json.encode level v)))%nat.
Proof.
  revert level.
  induction v as [| b | z | f | s | l IH | d IH] using pyval_nested_ind;
    intros level; try (cbn [cost]; lia).
  - destruct l as [|x l]; [cbn; lia|].
    rewrite encode_list_cons. cbn [cost String.length].
    rewrite !Str.length_app.
    pose proof (newline_indent_length (S level)).
    pose proof (newline_indent_length level).
    pose proof (concat_length_ge ("," ++ Json.newline_indent (S level))
                  (Json.encode (S level)) (λ x, S (cost x)) (x :: l)) as Hc.
    cbn [String.length] in *.
    assert (Hc' := Hc). clear Hc.
    specialize (Hc' ltac:(rewrite Str.app_cons, Str.app_nil; cbn [String.length]; lia)).
    specialize (Hc' ltac:(eapply Forall_impl; [exact IH|]; intros y Hy;
                          cbv beta in *; specialize (Hy (S level)); lia)).
    lia.
  - destruct d as [|kv d]; [cbn; lia|].
    rewrite encode_dict_cons. cbn [cost String.length].
    rewrite !Str.length_app.
    pose proof (newline_indent_length (S level)).
    pose proof (newline_indent_length level).
    pose proof (concat_length_ge ("," ++ Json.newline_indent (S level))
                  (member_text (S level)) (λ kv, S (cost (snd kv))) (kv :: d))
      as Hc.
    cbn [String.length] in *.
    assert (Hc' := Hc). clear Hc.
    specialize (Hc' ltac:(rewrite Str.app_cons, Str.app_nil; cbn [String.length]; lia)).
    specialize (Hc' ltac:(eapply Forall_impl; [exact IH|]; intros y Hy;
                          cbv beta in *; specialize (Hy (S level));
                          unfold member_text; rewrite !Str.length_app; lia)).
    lia.
Qed.

(** [json.loads(json.dumps(v, ensure_ascii=False, indent=2)) == v] *)
Lemma loads_dumps (v : pyval) :
  well_formed v → Json.loads (Json.dumps v) = Ok v.
Proof.
  intros Hwf. unfold Json.loads, Json.dumps.
  destruct (encode_head 0 v Hwf) as (c & s & Ec & Hc).
  assert (Es : Json.skip_ws (Json.encode 0 v) = Json.encode 0 v ++ "").
  { rewrite app_empty_r, Ec. by apply skip_ws_value_head. }
  rewrite Es.
  destruct (scan_once_encode v Hwf) as [_ Hv].
  rewrite Hv; [reflexivity| |reflexivity].
  pose proof (cost_le_length v 0). lia.
Qed.
End RoundTrip.

(** C2: for every well-formed record, loading the path that
    [save_record_json] returns, from the files it leaves, gives the
    dictionary of the record that was saved, key for key and value for
    value; a record is well formed when its doubles are finite and
    [repr] and [float] convert them to text and back. *)
Theorem C2_load_save_round_trip `{TextConv} (t : datetime) (r : record)
    (files : gmap string string) :
  well_formed (record_dict r) →
  load_record (fst (save_record_json t r files))
              (snd (save_record_json t r files)) = Ok (record_dict r).
Proof.
  intros Hwf. unfold save_record_json, load_record. cbn [fst snd].
  rewrite lookup_insert_eq. by apply loads_dumps.
Qed.

(** A month without sales and without expenses: thirty-one days of
    zero, no row of expenses. *)
Definition quiet_record : record :=
  {| created_at := isoformat t_march; month := 3; month_name := "March";
     year := 2025; shop_name := "AR Book Mart"; tagline := "";
     profit_pct := 20; total_sales := 0; profit_amount := 0;
     total_expenses := 0; remaining_profit := 0;
     daily_sales := repeat 0%Z 31; expenses := [] |}.

(** A record with no day at all. *)
Definition blank_record : record :=
  {| created_at := ""; month := 2; month_name := "February";
     year := 2025; shop_name := ""; tagline := "";
     profit_pct := 0; total_sales := 0; profit_amount := 0;
     total_expenses := 0; remaining_profit := 0;
     daily_sales := []; expenses := [] |}.

(** The numerals of the example conversions read back. *)
Ltac float_text_example :=
  split; [reflexivity|];
  let c := fresh "c" in let rest := fresh "rest" in
  let Hr := fresh "Hr" in let Hc := fresh "Hc" in
  intros [|c rest] Hr; [vm_compute; reflexivity|];
  cbn [delimited] in Hr; apply orb_true_iff in Hr as [Hc|Hc];
  apply Ascii.eqb_eq in Hc; subst c; vm_compute; reflexivity.

Ltac well_formed_example :=
  repeat first
    [ apply Forall_nil_2
    | apply Forall_cons_2
    | apply wf_none | apply wf_bool | apply wf_int | apply wf_str
    | apply wf_list | apply wf_dict
    | apply wf_float; float_text_example
    | apply (bool_decide_unpack _); vm_compute; reflexivity ].

Lemma sample_record_well_formed :
  @well_formed small_text
    (record_dict (sample_record t_march 3 "March" "AR Book Mart")).
Proof. unfold record_dict, sample_record, expense_dict. cbn. well_formed_example. Qed.

Lemma quiet_record_well_formed :
  @well_formed small_text (record_dict quiet_record).
Proof. unfold record_dict, quiet_record. cbn. well_formed_example. Qed.

Lemma blank_record_well_formed :
  @well_formed small_text (record_dict blank_record).
Proof. unfold record_dict, blank_record. cbn. well_formed_example. Qed.

Lemma C2_load_save_round_trip_witness :
  let save r := @save_record_json small_text t_march r ∅ in
  let round_trip r :=
    @well_formed small_text (record_dict r) ∧
    @load_record small_text (fst (save r)) (snd (save r)) = Ok (record_dict r) in
  round_trip (sample_record t_march 3 "March" "AR Book Mart") ∧
  round_trip quiet_record ∧ round_trip blank_record.
Proof.
  cbv zeta.
  refine (conj (conj _ _) (conj (conj _ _) (conj _ _))).
  - exact sample_record_well_formed.
  - apply (@C2_load_save_round_trip small_text t_march _ ∅).
    exact sample_record_well_formed.
  - exact quiet_record_well_formed.
  - apply (@C2_load_save_round_trip small_text t_march quiet_record ∅).
    exact quiet_record_well_formed.
  - exact blank_record_well_formed.
  - apply (@C2_load_save_round_trip small_text t_march blank_record ∅).
    exact blank_record_well_formed.
Defined.

(** * Further properties of the program *)

(** ** The PIN file *)






(** [check_pin] accepts the PIN that [set_pin] has just stored, and
    another text exactly when its digest is the stored one; [set_pin]
    writes the PIN file only, and a second [set_pin] replaces the
    first. *)
Theorem set_pin_then_check_pin (pin other : string)
    (fs : gmap string string) :
  check_pin pin (set_pin pin fs) = true ∧
  (check_pin other (set_pin pin fs) = true ↔ sha256 other = sha256 pin) ∧
  (∀ q, q ≠ PIN_FILE → set_pin pin fs !! q = fs !! q) ∧
  set_pin pin (set_pin other fs) = set_pin pin fs.
Proof.
  unfold check_pin, set_pin. rewrite lookup_insert_eq, strip_sha256.
  repeat split.
  - apply String.eqb_refl.
  - by intros ->%String.eqb_eq.
  - intros ->. apply String.eqb_refl.
  - intros q Hq. by rewrite lookup_insert_ne.
  - apply insert_insert_eq.
Qed.



(** ** The days of a month *)

(** [days_in_month] gives between 28 and 31 days for the months 1 to
    12 and raises [ValueError] for any other month number; February has
    29 days exactly in the years divisible by 4 and not by 100, or
    divisible by 400. *)
Theorem days_in_month_range (year month : Z) :
  ((1 ≤ month ≤ 12)%Z →
   ∃ d, days_in_month year month = Ok d ∧ (28 ≤ d ≤ 31)%Z) ∧
  (¬ (1 ≤ month ≤ 12)%Z → days_in_month year month = Err ValueError) ∧
  (days_in_month year 2 = Ok 29%Z ↔
   (4 | year)%Z ∧ (¬ (100 | year)%Z ∨ (400 | year)%Z)).
Proof.
  split; [|split].
  - intros Hm. unfold days_in_month.
    assert (((1 <=? month) && (month <=? 12))%Z = true) as -> by lia.
    eexists. split; [reflexivity|].
    repeat match goal with |- context [if ?b then _ else _] => destruct b end;
      lia.
  - intros Hm. unfold days_in_month.
    assert (((1 <=? month) && (month <=? 12))%Z = false) as -> by lia.
    reflexivity.
  - unfold days_in_month, isleap. cbn [Z.leb Z.eqb andb Z.compare Pos.compare Pos.compare_cont Pos.eqb].
    rewrite <- !Z.mod_divide by lia.
    destruct (Z.eqb_spec (year mod 4) 0), (Z.eqb_spec (year mod 100) 0),
      (Z.eqb_spec (year mod 400) 0); cbn; split;
      try (intros [= ?]); try tauto; try (intros; f_equal; lia);
      try (intros [? [?|?]]; tauto).
Qed.

Lemma days_in_month_range_witness :
  (∃ d, days_in_month 2024 2 = Ok d ∧ (28 ≤ d ≤ 31)%Z) ∧
  days_in_month 2024 13 = Err ValueError ∧
  days_in_month 2024 2 = Ok 29%Z.
Proof.
  split; [|split].
  - apply (days_in_month_range 2024 2). lia.
  - apply (days_in_month_range 2024 13). lia.
  - apply (days_in_month_range 2024 2). split.
    + exists 506%Z. reflexivity.
    + left. intros [k Hk]. lia.
Defined.

(** The days of the twelve months of a year add up to 365, and to 366
    in a leap year. *)
Theorem days_in_month_year_total (year : Z) :
  ∃ l, mapM (days_in_month year) (seqZ 1 12) = Ok l ∧
       sum_Z l = (if isleap year then 366 else 365)%Z.
Proof.
  unfold days_in_month. destruct (isleap year); eexists; split; reflexivity.
Qed.

(** ** The total of the sales *)

Section Totals.
Context `{TextConv}.

Lemma total_sales_from_acc (acc : Z) (l : list pyval) :
  total_sales_from acc l = (x ← total_sales_from 0 l; Ok (acc + x)%Z).
Proof.
  revert acc. induction l as [|v l IH]; intros acc; cbn [total_sales_from].
  - cbn. f_equal. lia.
  - destruct (py_int (py_or v (PInt 0))) as [n|e]; cbn; [|done].
    rewrite (IH (acc + n)%Z), (IH (0 + n)%Z).
    destruct (total_sales_from 0 l); cbn; [|done]. f_equal. lia.
Qed.

Lemma total_sales_from_app (acc : Z) (a b : list pyval) :
  total_sales_from acc (a ++ b)%list =
  (x ← total_sales_from acc a; total_sales_from x b).
Proof.
  revert acc. induction a as [|v a IH]; intros acc; cbn [app total_sales_from].
  - reflexivity.
  - destruct (py_int (py_or v (PInt 0))) as [n|e]; cbn; [|done]. apply IH.
Qed.

(** The total of the sales of two lists put end to end is the sum of
    their totals; an item that does not convert raises its exception,
    the first such item in the order of the lists. *)
Theorem compute_total_sales_app (a b : list pyval) :
  compute_total_sales (a ++ b)%list =
  (x ← compute_total_sales a; y ← compute_total_sales b; Ok (x + y)%Z).
Proof.
  unfold compute_total_sales. rewrite total_sales_from_app.
  destruct (total_sales_from 0 a) as [x|e]; cbn; [|done].
  apply total_sales_from_acc.
Qed.

(** [int(x or 0)]: a day that is [None], zero, an empty text or an
    empty list counts as zero; the total is that of the other days. *)
Theorem compute_total_sales_skips_falsy (l : list pyval) :
  compute_total_sales (filter (λ x, truthy x = true) l) = compute_total_sales l.
Proof.
  unfold compute_total_sales. generalize 0%Z as acc.
  induction l as [|v l IH]; intros acc; [done|].
  rewrite filter_cons. cbn [total_sales_from].
  destruct (decide (truthy v = true)) as [Hv|Hv].
  - cbn [total_sales_from].
    destruct (py_int (py_or v (PInt 0))) as [n|e]; cbn; [|done]. apply IH.
  - apply not_true_is_false in Hv. unfold py_or. rewrite Hv. cbn.
    rewrite Z.add_0_r. apply IH.
Qed.
End Totals.

(** ** The listing of the saved records *)

Lemma prefix_split (p s : string) :
  String.prefix p s = true →
  s = p ++ String.substring (String.length p) (String.length s - String.length p) s.
Proof.
  revert s. induction p as [|a p IH]; intros s Hp.
  - rewrite Str.app_nil. cbn [String.length]. rewrite Nat.sub_0_r.
    by rewrite substring_all.
  - destruct s as [|b s]; [done|]. cbn [String.prefix] in Hp.
    destruct (ascii_dec a b) as [->|]; [|done].
    rewrite Str.app_cons. cbn [String.length String.substring Nat.sub].
    f_equal. by apply IH.
Qed.

Lemma path_join_records (name : string) :
  Str.contains_char "/" name = false →
  path_join RECORDS_DIR name = "records/" ++ name.
Proof.
  intros Hn. unfold path_join, Str.startswith.
  destruct name as [|c name]; [reflexivity|].
  cbn [Str.contains_char] in Hn. apply orb_false_iff in Hn as [Hc _].
  cbn [String.prefix]. destruct (ascii_dec "/" c) as [<-|]; [done|].
  by destruct name.
Qed.

(** The name [entry_of] gives is the path without the directory. *)
Lemma entry_of_Some (path name : string) :
  entry_of RECORDS_DIR path = Some name ↔
  path = "records/" ++ name ∧ name ≠ "" ∧ Str.contains_char "/" name = false.
Proof.
  split.
  - unfold entry_of. change (RECORDS_DIR ++ "/") with "records/".
    destruct (Str.startswith path "records/") eqn:Hp; [|done].
    cbn [andb].
    destruct (String.eqb_spec
                (String.substring (String.length "records/")
                   (String.length path - String.length "records/") path) "")
      as [|Hne]; [done|].
    cbn [negb andb].
    destruct (Str.contains_char "/" _) eqn:Hs; [done|].
    intros [= <-]. split; [|done]. by apply prefix_split.
  - intros (-> & Hne & Hs). by apply entry_of_records.
Qed.

Lemma elem_of_listdir_records (fs : gmap string string) (name : string) :
  name ∈ listdir RECORDS_DIR fs ↔
  name ≠ "" ∧ Str.contains_char "/" name = false ∧
  is_Some (fs !! ("records/" ++ name)).
Proof.
  unfold listdir. rewrite list_elem_of_omap. split.
  - intros (path & Hin & (-> & Hne & Hs)%entry_of_Some).
    apply elem_of_elements, elem_of_dom in Hin. done.
  - intros (Hne & Hs & Hin). exists ("records/" ++ name). split.
    + by apply elem_of_elements, elem_of_dom.
    + by apply entry_of_Some.
Qed.

Lemma NoDup_omap_inj {A B} (g : A → option B) (l : list A) :
  (∀ x y b, g x = Some b → g y = Some b → x = y) →
  NoDup l → NoDup (omap g l).
Proof.
  intros Hinj. induction 1 as [|x l Hx Hl IH]; csimpl; [constructor|].
  destruct (g x) as [b|] eqn:Eb; csimpl; [|done].
  constructor; [|done].
  intros (y & Hy & Eyb)%list_elem_of_omap.
  by rewrite (Hinj x y b Eb Eyb) in Hx.
Qed.

Lemma NoDup_listdir_records (fs : gmap string string) :
  NoDup (listdir RECORDS_DIR fs).
Proof.
  unfold listdir. apply NoDup_omap_inj; [|apply NoDup_elements].
  intros x y b (-> & _)%entry_of_Some (-> & _)%entry_of_Some. done.
Qed.

Lemma endswith_nonempty (s suffix : string) :
  suffix ≠ "" → Str.endswith s suffix = true → s ≠ "".
Proof.
  intros Hne Hs ->. unfold Str.endswith in Hs.
  destruct suffix; [done|]. done.
Qed.

(** What is listed: the names that end in [.json] of the files directly
    in the records directory. *)
Lemma elem_of_list_saved_records (fs : gmap string string) (name : string) :
  name ∈ list_saved_records fs ↔
  Str.endswith name ".json" = true ∧ Str.contains_char "/" name = false ∧
  is_Some (fs !! ("records/" ++ name)).
Proof.
  unfold list_saved_records, sort_reverse.
  rewrite merge_sort_Permutation, list_elem_of_filter, elem_of_listdir_records.
  split.
  - intros (Hj & _ & Hs & Hin). split; [|done].
    by destruct (Str.endswith name ".json").
  - intros (Hj & Hs & Hin). split; [by rewrite Hj|].
    split; [by apply (endswith_nonempty name ".json")|by split].
Qed.

Lemma NoDup_list_saved_records (fs : gmap string string) :
  NoDup (list_saved_records fs).
Proof.
  unfold list_saved_records, sort_reverse.
  rewrite merge_sort_Permutation. apply NoDup_filter, NoDup_listdir_records.
Qed.

#[local] Instance ge_string_antisymm :
  AntiSymm (=) (λ a b : string, String.le b a).
Proof. intros a b Hab Hba. by apply (anti_symm String.le). Qed.

(** Two stores with the same record names have the same listing. *)
Lemma list_saved_records_ext (fs1 fs2 : gmap string string) :
  (∀ name, name ∈ list_saved_records fs1 ↔ name ∈ list_saved_records fs2) →
  list_saved_records fs1 = list_saved_records fs2.
Proof.
  intros Hiff.
  apply (StronglySorted_unique (λ a b : string, String.le b a)).
  - apply list_saved_records_sorted.
  - apply list_saved_records_sorted.
  - apply NoDup_Permutation; [apply NoDup_list_saved_records..|done].
Qed.

(** [list_saved_records] returns, each once and in descending order of
    the names, the names ending in [.json] of the files directly in the
    records directory: no file of another directory, no file with
    another ending. *)
Theorem list_saved_records_spec (fs : gmap string string) :
  (∀ name, name ∈ list_saved_records fs ↔
     Str.endswith name ".json" = true ∧ Str.contains_char "/" name = false ∧
     is_Some (fs !! path_join RECORDS_DIR name)) ∧
  NoDup (list_saved_records fs) ∧
  StronglySorted (λ a b, String.le b a) (list_saved_records fs).
Proof.
  split; [|split].
  - intros name. rewrite elem_of_list_saved_records. split.
    + intros (Hj & Hs & Hin). by rewrite path_join_records.
    + intros (Hj & Hs & Hin). by rewrite path_join_records in Hin.
  - apply NoDup_list_saved_records.
  - apply list_saved_records_sorted.
Qed.

Lemma substring_app_skip (x y : string) (n m : nat) :
  String.substring (String.length x + n) m (x ++ y) = String.substring n m y.
Proof.
  induction x as [|c x IH]; rewrite ?Str.app_nil, ?Str.app_cons; [done|].
  cbn [String.length Nat.add String.substring]. exact IH.
Qed.

Lemma endswith_app_l (x y suffix : string) :
  Str.endswith y suffix = true → Str.endswith (x ++ y) suffix = true.
Proof.
  unfold Str.endswith. intros [Hl He%String.eqb_eq]%andb_true_iff.
  apply Nat.leb_le in Hl. apply andb_true_iff. split.
  - apply Nat.leb_le. rewrite Str.length_app. lia.
  - apply String.eqb_eq. rewrite Str.length_app.
    replace (String.length x + String.length y - String.length suffix)%nat
      with (String.length x + (String.length y - String.length suffix))%nat
      by lia.
    by rewrite substring_app_skip.
Qed.

(** Writing a file that exists already, or a file whose name does not
    end in [.json], leaves the listing as it is: the overwrite of an
    edited record, the PIN file and a PDF report do not change it. *)
Theorem list_saved_records_insert_other (fs : gmap string string)
    (path content : string) :
  is_Some (fs !! path) ∨ Str.endswith path ".json" = false →
  list_saved_records (<[path := content]> fs) = list_saved_records fs.
Proof.
  intros Hp. apply list_saved_records_ext. intros name.
  rewrite !elem_of_list_saved_records.
  destruct (decide (path = "records/" ++ name)) as [->|Hne].
  - rewrite lookup_insert_eq. split.
    + intros (Hj & Hs & _). split; [done|]. split; [done|].
      destruct Hp as [Hp|Hp]; [done|].
      by rewrite (endswith_app_l "records/" name ".json") in Hp.
    + intros (Hj & Hs & _). eauto.
  - by rewrite lookup_insert_ne.
Qed.

Lemma list_saved_records_insert_other_witness :
  list_saved_records (<[PIN_FILE := sha256 "1234"]> march_then_april) =
  list_saved_records march_then_april.
Proof.
  apply (list_saved_records_insert_other march_then_april PIN_FILE
           (sha256 "1234")).
  right. reflexivity.
Defined.

(** After [save_record_json] the listing has the name of the record
    saved besides the names it had. *)
Theorem save_record_json_listed `{TextConv} (t : datetime) (r : record)
    (fs : gmap string string) :
  Str.contains_char "/" (month_name r) = false →
  let name := record_filename (month_name r) (year r) t in
  fst (save_record_json t r fs) = path_join RECORDS_DIR name ∧
  ∀ n, n ∈ list_saved_records (snd (save_record_json t r fs)) ↔
       n = name ∨ n ∈ list_saved_records fs.
Proof.
  intros Hm name. split; [reflexivity|]. intros n.
  unfold save_record_json. cbn [snd]. fold name.
  assert (Hs : Str.contains_char "/" name = false)
    by by apply record_filename_no_slash.
  rewrite (path_join_records name Hs).
  rewrite !elem_of_list_saved_records.
  destruct (decide (n = name)) as [->|Hne].
  - rewrite lookup_insert_eq. split; [by left|]. intros _.
    split; [apply record_filename_json|]. eauto.
  - rewrite lookup_insert_ne.
    + split; [by right|]. by intros [?|?].
    + intros [_ E]%Str.app_inj_length; [congruence|done].
Qed.

Lemma save_record_json_listed_witness :
  let r := sample_record t_march 3 "March" "AR Book Mart" in
  record_filename "March" 2025 t_march ∈
    list_saved_records (snd (@save_record_json small_text t_march r ∅)).
Proof.
  cbv zeta.
  apply (@save_record_json_listed small_text t_march
           (sample_record t_march 3 "March" "AR Book Mart") ∅); [reflexivity|].
  by left.
Defined.

(** ** The edit of a record *)

Lemma dict_set_keys_mem (k : string) (v : pyval) (d : dict) :
  k ∈ map fst d → map fst (dict_set k v d) = map fst d.
Proof.
  induction d as [|[k' v'] d IH]; cbn [map fst dict_set].
  - by intros ?%elem_of_nil.
  - intros Hk. destruct (String.eqb_spec k' k) as [->|Hne]; [done|].
    cbn [map fst]. f_equal. apply IH.
    apply elem_of_cons in Hk as [?|?]; [congruence|done].
Qed.





(** [update_record] on a value that is no dictionary raises
    [TypeError]. *)
Lemma update_record_not_dict (ed : pyval) new_shop new_tagline new_profit_pct
    t_sales p_amt t_exp rem edited_daily expenses :
  (∀ d, ed ≠ PDict d) →
  update_record ed new_shop new_tagline new_profit_pct t_sales p_amt t_exp
    rem edited_daily expenses = Err TypeError.
Proof. intros Hd. destruct ed; try reflexivity. by destruct (Hd d). Qed.


(** ** What a run keeps of the session *)

(** A piece of the script keeps a property of the session state, however
    it ends. *)
Definition preserves {A} (P : session → Prop) (m : script A) : Prop :=
  ∀ w, P (state w) → P (state (snd (m w))).

Section Preserves.
Context {P : session → Prop}.

Lemma preserves_bind {A B} (m : script A) (k : A → script B) :
  preserves P m → (∀ a, preserves P (k a)) → preserves P (m ≫= k).
Proof.
  intros Hm Hk w Hw. rewrite bind_run. specialize (Hm w Hw).
  destruct (m w) as [[a| | |] w1]; simpl in *; try done.
  by apply Hk.
Qed.

(** After [get_state] the property holds of the state read. *)
Lemma preserves_bind_get_state {B} (k : session → script B) :
  (∀ s, P s → preserves P (k s)) → preserves P (get_state ≫= k).
Proof. intros Hk w Hw. rewrite bind_get_state. by apply Hk. Qed.

Lemma preserves_ret {A} (a : A) : preserves P (mret a).
Proof. by intros w. Qed.

Lemma preserves_eval {A} (r : result A) : preserves P (eval r).
Proof. intros w. by destruct r. Qed.

Lemma preserves_raise {A} (e : exn) : preserves P (raise (A := A) e).
Proof. by intros w. Qed.

Lemma preserves_stop {A} : preserves P (st_stop (A := A)).
Proof. by intros w. Qed.

Lemma preserves_rerun {A} : preserves P (st_rerun (A := A)).
Proof. by intros w. Qed.

Lemma preserves_show (m : message) : preserves P (show m).
Proof. by intros w. Qed.

Lemma preserves_get_files : preserves P get_files.
Proof. by intros w. Qed.

Lemma preserves_put_files fs : preserves P (put_files fs).
Proof. by intros w. Qed.

Lemma preserves_get_state : preserves P get_state.
Proof. by intros w. Qed.

Lemma preserves_load_name (n : string) : preserves P (load_name n).
Proof. intros w. unfold load_name. by case_bool_decide. Qed.

Lemma preserves_now inp : preserves P (now inp).
Proof. by intros w. Qed.

Lemma preserves_put_state (s : session) : P s → preserves P (put_state s).
Proof. by intros Hs w _. Qed.

Lemma preserves_modify_state (g : session → session) :
  (∀ s, P s → P (g s)) → preserves P (modify_state g).
Proof. intros Hg w Hw. by apply Hg. Qed.

Lemma preserves_for_each {A} (body : A → script unit) (l : list A) :
  (∀ x, preserves P (body x)) → preserves P (for_each body l).
Proof.
  intros Hb. induction l as [|x l IH]; cbn [for_each].
  - apply preserves_ret.
  - apply preserves_bind; [apply Hb|by intros].
Qed.
End Preserves.

Create HintDb preserves discriminated.
#[export] Hint Resolve preserves_ret preserves_eval preserves_raise
  preserves_stop preserves_rerun preserves_show preserves_get_files
  preserves_put_files preserves_get_state preserves_load_name preserves_now
  : preserves.

(** Decompose a piece of the script along its binds and branches. *)
Ltac preserves :=
  repeat first
    [ match goal with |- ∀ _, _ => intro end
    | solve [auto with preserves]
    | apply preserves_bind_get_state
    | apply preserves_bind
    | apply preserves_put_state
    | match goal with
      | |- preserves _ (if ?b then _ else _) => destruct b eqn:?
      | |- preserves _ (match ?x with _ => _ end) => destruct x eqn:?
      end ].

Lemma pressed_true `{TextConv} (inp : inputs) (b : button) :
  pressed inp b = true → clicked inp = Some b.
Proof. unfold pressed. by intros ?%bool_decide_eq_true. Qed.

(** The pieces of the script, for a property that each update of the
    session state keeps in the runs where the piece makes it. *)
Section PreservesScript.
Context `{TextConv}.
Variable build_pdf : list element → result string.
Variable inp : inputs.
Context {P : session → Prop}.

Hypothesis P_unlocked :
  clicked inp = Some BUnlock → ∀ b s, P s → P (set_unlocked b s).
Hypothesis P_expense_rows : preserves P (expense_rows inp).
Hypothesis P_summary :
  clicked inp = Some BCalc → ∀ x s, P s → P (set_last_summary x s).
Hypothesis P_load :
  ∀ fname, clicked inp = Some (BLoad fname) →
           ∀ f d s, P s → P (set_editing f d s).
Hypothesis P_editing_data :
  ∀ d s, P s → P (set_editing (editing_file s) d s).
Hypothesis P_edit_expenses :
  ∀ x s, P s → P (set_edit_expenses x s).
Hypothesis P_clear :
  clicked inp = Some BSaveChanges →
  ∀ s, P s → P (set_edit_expenses None (set_editing None None s)).

Lemma preserves_gate : preserves P (gate inp).
Proof.
  unfold gate. preserves; apply P_unlocked; try done; by apply pressed_true.
Qed.

Lemma preserves_form : preserves P (form inp).
Proof. unfold form. preserves. Qed.

Lemma preserves_pie_chart te : preserves P (pie_chart te).
Proof. unfold pie_chart. preserves. Qed.

Lemma preserves_warning_banner te pa : preserves P (warning_banner te pa).
Proof. unfold warning_banner. preserves. Qed.

Lemma preserves_calc_handler fv te rp : preserves P (calc_handler inp fv te rp).
Proof.
  unfold calc_handler. preserves. apply P_summary; [by apply pressed_true|done].
Qed.

Lemma preserves_save_handler fv rows te rp :
  preserves P (save_handler inp fv rows te rp).
Proof. unfold save_handler, build_record, save_record. preserves. Qed.

Lemma preserves_pdf_handler fv rows te rp :
  preserves P (pdf_handler build_pdf inp fv rows te rp).
Proof.
  unfold pdf_handler, build_record, save_record, write_pdf. preserves.
Qed.

Lemma preserves_show_last_summary : preserves P show_last_summary.
Proof. unfold show_last_summary. preserves. Qed.

Lemma preserves_listing_item fname :
  preserves P (listing_item build_pdf inp fname).
Proof.
  unfold listing_item, write_pdf. preserves.
  eapply P_load; [by apply pressed_true|done].
Qed.

Lemma preserves_listing : preserves P (listing build_pdf inp).
Proof.
  unfold listing.
  pose proof (λ l, preserves_for_each (P := P) (listing_item build_pdf inp) l
                     preserves_listing_item).
  preserves.
Qed.

Lemma preserves_get_edit_expenses : preserves P get_edit_expenses.
Proof. unfold get_edit_expenses. preserves. Qed.

Lemma preserves_set_edit_row idx k v : preserves P (set_edit_row idx k v).
Proof.
  unfold set_edit_row. pose proof preserves_get_edit_expenses.
  preserves; by apply P_edit_expenses.
Qed.

Lemma preserves_pop_edit_row idx : preserves P (pop_edit_row idx).
Proof.
  unfold pop_edit_row. pose proof preserves_get_edit_expenses.
  preserves; by apply P_edit_expenses.
Qed.

Lemma preserves_append_edit_row row : preserves P (append_edit_row row).
Proof.
  unfold append_edit_row. pose proof preserves_get_edit_expenses.
  preserves; by apply P_edit_expenses.
Qed.

Lemma preserves_edit_loop n idx : preserves P (edit_loop inp n idx).
Proof.
  revert idx. induction n as [|n IH]; intros idx; cbn [edit_loop].
  - preserves.
  - pose proof preserves_get_edit_expenses. pose proof preserves_set_edit_row.
    pose proof preserves_pop_edit_row. preserves.
Qed.

Lemma preserves_save_changes ed shop tag pct daily :
  clicked inp = Some BSaveChanges →
  preserves P (save_changes ed shop tag pct daily).
Proof.
  intros Hclick. unfold save_changes. pose proof preserves_get_edit_expenses.
  preserves.
Qed.

Lemma preserves_edit_section : preserves P (edit_section inp).
Proof.
  unfold edit_section.
  pose proof preserves_get_edit_expenses. pose proof preserves_edit_loop.
  pose proof preserves_append_edit_row.
  assert (∀ ed shop tag pct daily, pressed inp BSaveChanges = true →
            preserves P (save_changes ed shop tag pct daily))
    by (intros; by apply preserves_save_changes, pressed_true).
  preserves.
Qed.

Lemma preserves_main : preserves P (main build_pdf inp).
Proof.
  unfold main.
  pose proof preserves_gate. pose proof preserves_form.
  pose proof preserves_pie_chart. pose proof preserves_warning_banner.
  pose proof preserves_calc_handler. pose proof preserves_save_handler.
  pose proof preserves_pdf_handler. pose proof preserves_show_last_summary.
  pose proof preserves_listing. pose proof preserves_edit_section.
  preserves.
Qed.
End PreservesScript.

(** A property that both runs of an interaction keep is kept by the
    interaction. *)
Lemma preserves_interact `{TextConv} (build_pdf : list element → result string)
    (inp : inputs) (P : session → Prop) (w : world) :
  preserves P (main build_pdf inp) →
  preserves P (main build_pdf (no_click inp)) →
  P (state w) → P (state (snd (interact build_pdf inp w))).
Proof.
  intros H1 H2 Hw. unfold interact, run.
  match goal with |- context [main build_pdf inp ?w0] =>
    pose proof (H1 w0 Hw) as Hw1; destruct (main build_pdf inp w0) as [r w1]
  end.
  cbn [snd] in Hw1. destruct r; try done.
  by apply H2.
Qed.

(** *** The rows of the expenses *)

Section ExpenseRows.
Context `{TextConv}.
Variable inp : inputs.

(** After [get_expenses], the list read is that of a state of which the
    property holds. *)
Lemma preserves_bind_get_expenses {P : session → Prop} {B}
    (k : list expense → script B) :
  (∀ l, (∃ s, P s ∧ ss_expenses s = Some l) → preserves P (k l)) →
  preserves P (get_expenses ≫= k).
Proof.
  intros Hk w Hw. rewrite bind_run. unfold get_expenses.
  rewrite bind_get_state.
  destruct (ss_expenses (state w)) as [l|] eqn:E; cbn; [|done].
  apply Hk; eauto.
Qed.

(** A property that does not look at the rows of the main form is kept
    by the code of the rows. *)
Lemma preserves_expense_rows_any (P : session → Prop) :
  (∀ l s, P s → P (set_expenses l s)) → preserves P (expense_rows inp).
Proof.
  intros HP.
  assert (Hget : preserves P get_expenses) by (unfold get_expenses; preserves).
  assert (Hrm : ∀ i, preserves P (remove_row i))
    by (intros i; unfold remove_row; preserves).
  assert (Hadd : preserves P add_row) by (unfold add_row; preserves).
  assert (Hloop : ∀ n idx, preserves P (expense_loop inp n idx)).
  { induction n as [|n IH]; intros idx; cbn [expense_loop]; preserves. }
  unfold expense_rows. preserves.
Qed.

(** The session has no empty list of rows. *)
Definition has_a_row (s : session) : Prop := ss_expenses s ≠ Some [].

Lemma has_a_row_set (l : list expense) (s : session) :
  l ≠ [] → has_a_row (set_expenses l s).
Proof. intros Hl. unfold has_a_row. cbn. congruence. Qed.

Lemma has_a_row_read (l : list expense) :
  (∃ s, has_a_row s ∧ ss_expenses s = Some l) → l ≠ [].
Proof. intros (s & Hs & E) ->. by apply Hs. Qed.

Lemma remove_row_has_a_row (i : nat) : preserves has_a_row (remove_row i).
Proof.
  unfold remove_row. apply preserves_bind_get_expenses.
  intros l Hl%has_a_row_read.
  destruct (1 <? length l)%nat eqn:H1; [|preserves].
  apply Nat.ltb_lt in H1.
  destruct (i <? length l)%nat eqn:Hi; [|preserves].
  apply Nat.ltb_lt in Hi.
  apply preserves_modify_state. intros s _. apply has_a_row_set.
  intros E. apply (f_equal length) in E. rewrite length_delete in E.
  - simpl in E. lia.
  - by apply lookup_lt_is_Some.
Qed.

Lemma add_row_has_a_row : preserves has_a_row add_row.
Proof.
  unfold add_row. apply preserves_bind_get_expenses. intros l _.
  apply preserves_modify_state. intros s _. apply has_a_row_set.
  by destruct l.
Qed.

Lemma expense_loop_has_a_row (n idx : nat) :
  preserves has_a_row (expense_loop inp n idx).
Proof.
  revert idx. induction n as [|n IH]; intros idx; cbn [expense_loop].
  - preserves.
  - apply preserves_bind_get_expenses. intros l Hl%has_a_row_read.
    apply preserves_bind.
    + apply preserves_modify_state. intros s _. apply has_a_row_set.
      intros E. apply (f_equal length) in E.
      rewrite length_insert in E. by destruct l.
    + intros _. pose proof (remove_row_has_a_row idx). preserves.
Qed.

Lemma expense_rows_has_a_row : preserves has_a_row (expense_rows inp).
Proof.
  unfold expense_rows. apply preserves_bind_get_state. intros s Hs.
  apply preserves_bind.
  - destruct (ss_expenses s); [preserves|].
    apply preserves_put_state. by apply has_a_row_set.
  - intros _. apply preserves_bind_get_expenses. intros l _.
    pose proof expense_loop_has_a_row. pose proof add_row_has_a_row.
    assert (preserves has_a_row get_expenses)
      by (unfold get_expenses; preserves).
    preserves.
Qed.
End ExpenseRows.

(** The main form never loses its last row of expenses: whatever is
    pressed, a run (and an interaction, with the run that follows
    [st.rerun()]) that starts with no list of rows or with a list that
    has a row ends with one. *)
Theorem main_form_keeps_a_row `{TextConv}
    (build_pdf : list element → result string) (inp : inputs) (w : world) :
  ss_expenses (state w) ≠ Some [] →
  ss_expenses (state (snd (main build_pdf inp w))) ≠ Some [] ∧
  ss_expenses (state (snd (interact build_pdf inp w))) ≠ Some [].
Proof.
  assert (Hmain : ∀ i, preserves has_a_row (main build_pdf i)).
  { intros i. apply preserves_main; try done.
    apply expense_rows_has_a_row. }
  intros Hw. split.
  - exact (Hmain inp w Hw).
  - exact (preserves_interact build_pdf inp has_a_row w
             (Hmain inp) (Hmain (no_click inp)) Hw).
Qed.

Lemma main_form_keeps_a_row_witness :
  ss_expenses
    (state (snd (@interact small_text plain_pdf
                   (press (BRemove 0) (idle t_march)) one_record_world))) ≠
  Some [].
Proof.
  apply (λ H, proj2 (@main_form_keeps_a_row small_text plain_pdf
           (press (BRemove 0) (idle t_march)) one_record_world H)).
  vm_compute. discriminate.
Defined.

(** Once unlocked, the session stays unlocked through every run, and
    every interaction, other than a press of Unlock. *)
Theorem unlocked_persists `{TextConv}
    (build_pdf : list element → result string) (inp : inputs) (w : world) :
  unlocked (state w) = Some true → clicked inp ≠ Some BUnlock →
  unlocked (state (snd (main build_pdf inp w))) = Some true ∧
  unlocked (state (snd (interact build_pdf inp w))) = Some true.
Proof.
  intros Hw Hclick.
  assert (Hmain : ∀ i, clicked i ≠ Some BUnlock →
            preserves (λ s, unlocked s = Some true) (main build_pdf i)).
  { intros i Hi. apply preserves_main; try done.
    by apply preserves_expense_rows_any. }
  split.
  - exact (Hmain inp Hclick w Hw).
  - exact (preserves_interact build_pdf inp (λ s, unlocked s = Some true) w
             (Hmain inp Hclick) (Hmain (no_click inp) ltac:(done)) Hw).
Qed.

Lemma unlocked_persists_witness :
  unlocked
    (state (snd (@interact small_text plain_pdf
                   (press BCalc (idle t_march)) one_record_world))) = Some true.
Proof.
  apply (λ H1 H2, proj2 (@unlocked_persists small_text plain_pdf
           (press BCalc (idle t_march)) one_record_world H1 H2)).
  - reflexivity.
  - discriminate.
Defined.

(** "Last Calculation" keeps the figures of the last press of Calculate
    Summary: a run, and an interaction, with another button leaves them
    as they are, whatever the form holds by then. *)
Theorem last_summary_persists `{TextConv}
    (build_pdf : list element → result string) (inp : inputs) (w : world)
    (x : option summary) :
  last_summary (state w) = x → clicked inp ≠ Some BCalc →
  last_summary (state (snd (main build_pdf inp w))) = x ∧
  last_summary (state (snd (interact build_pdf inp w))) = x.
Proof.
  intros Hw Hclick.
  assert (Hmain : ∀ i, clicked i ≠ Some BCalc →
            preserves (λ s, last_summary s = x) (main build_pdf i)).
  { intros i Hi. apply preserves_main; try done.
    by apply preserves_expense_rows_any. }
  split.
  - exact (Hmain inp Hclick w Hw).
  - exact (preserves_interact build_pdf inp (λ s, last_summary s = x) w
             (Hmain inp Hclick) (Hmain (no_click inp) ltac:(done)) Hw).
Qed.

Lemma last_summary_persists_witness :
  last_summary
    (state (snd (@interact small_text plain_pdf
                   (press BAddExpense (idle t_march)) one_record_world))) = None.
Proof.
  apply (λ H1 H2, proj2 (@last_summary_persists small_text plain_pdf
           (press BAddExpense (idle t_march)) one_record_world None H1 H2)).
  - reflexivity.
  - discriminate.
Defined.

(** ** What a run writes *)

Lemma keeps_load_logo_bind {B} (k : pyval → script B) :
  keeps_files (load_name "logo_to_use" ≫= k).
Proof. intros w. by rewrite bind_run, load_logo_to_use. Qed.

(** The files after a piece that writes none and keeps a property of
    the session satisfy what the files before it satisfy. *)
Lemma bind_frame_state {A B} (P : session → Prop) (m : script A)
    (k : A → script B) (w : world) (Q : gmap string string → Prop) :
  keeps_files m → preserves P m → P (state w) → Q (files w) →
  (∀ a w1, m w = (Done a, w1) → files w1 = files w → P (state w1) →
           Q (files (snd (k a w1)))) →
  Q (files (snd ((m ≫= k) w))).
Proof.
  intros Hm Hp Hw HQ Hk. rewrite bind_run.
  specialize (Hm w). specialize (Hp w Hw).
  destruct (m w) as [[a| | |] w1] eqn:E; simpl in *;
    try (by rewrite Hm).
  by apply Hk.
Qed.

Section Footprint.
Context `{TextConv}.
Variable build_pdf : list element → result string.
Variable inp : inputs.

(** The listing writes no file, whatever is pressed: the press of
    "Generate & Download PDF" ends at the name [logo_to_use]. *)
Lemma keeps_listing_item_always fname :
  keeps_files (listing_item build_pdf inp fname).
Proof.
  unfold listing_item.
  repeat (apply keeps_bind; [solve [auto with keeps]|intros]).
  apply keeps_bind; [|keeps].
  destruct (pressed inp (BPdfFor fname)); [|keeps].
  apply keeps_bind; [keeps|intros]. apply keeps_load_logo_bind.
Qed.

Lemma keeps_listing_always : keeps_files (listing build_pdf inp).
Proof.
  unfold listing. apply keeps_bind; [keeps|]. intros fs.
  destruct (list_saved_records fs) eqn:E; [keeps|].
  apply keeps_for_each. intros x. apply keeps_listing_item_always.
Qed.

Lemma form_inputs (w w1 : world) (fv : form_values) :
  form inp w = (Done fv, w1) →
  fv_month_name fv = in_month_name inp ∧ fv_year fv = in_year inp ∧
  fv_shop_name fv = in_shop_name inp ∧ fv_tagline fv = in_tagline inp ∧
  fv_profit_pct fv = in_profit_pct inp ∧
  (∃ n, days_in_month (in_year inp) (fv_month_number fv) = Ok n ∧
        fv_daily_sales fv = map (in_day inp) (seqZ 1 n)) ∧
  list_index (in_month_name inp) calendar_month_name = Ok (fv_month_number fv) ∧
  w1 = w.
Proof.
  unfold form.
  rewrite bind_eval. destruct (list_index _ _) as [mn|]; [|done].
  rewrite bind_eval. destruct (days_in_month _ _) as [nd|] eqn:En; [|done].
  rewrite bind_eval, compute_total_sales_ints.
  rewrite bind_eval. cbn [fmt_pk py_round].
  rewrite bind_eval.
  destruct (compute_profit _ _) as [pa|] eqn:Ep; [|done].
  rewrite bind_eval.
  match goal with
  | |- context [match ?r with Ok _ => _ | Err _ => _ end] => destruct r
  end; [|done].
  intros [= <- <-]. simpl. repeat split; eauto.
Qed.

(** What a run has written: nothing, or one file, which is the PIN file
    after "Set PIN", a record named after the month, the year and the
    time after "Save Record (JSON)" and "Generate PDF (Save &
    Download)", and the file being edited after "Save Changes to
    JSON". *)
Definition footprint (e0 : option string)
    (before after : gmap string string) : Prop :=
  after = before ∨
  ∃ path content, after = <[path := content]> before ∧
    (clicked inp = Some BSetPin ∧ path = PIN_FILE ∨
     (clicked inp = Some BSave ∨ clicked inp = Some BPdf) ∧
       (∃ t, path = path_join RECORDS_DIR
                      (record_filename (in_month_name inp) (in_year inp) t)) ∨
     clicked inp = Some BSaveChanges ∧ e0 = Some path).

Lemma gate_footprint (w : world) :
  (∃ r w1, gate inp w = (r, w1) ∧ files w1 = files w) ∨
  (∃ w1, gate inp w = (Stopped, w1) ∧ clicked inp = Some BSetPin ∧
         files w1 = set_pin (in_set_pin inp) (files w)).
Proof.
  destruct (decide (clicked inp = Some BSetPin)) as [Hc|Hc].
  - unfold gate, pressed. run_script. rewrite Hc.
    rewrite bool_decide_eq_true_2 by done.
    rewrite (bool_decide_eq_false_2 (Some BSetPin = Some BUnlock)) by done.
    destruct (path_exists PIN_FILE (files w)); cbn [negb].
    + destruct (default false (unlocked (state w))); cbn [negb];
        left; eexists _, _; split; reflexivity.
    + destruct (negb _); [left; eexists _, _|right; eexists];
        split; try reflexivity. done.
  - left. pose proof (keeps_gate inp Hc w) as Hk.
    destruct (gate inp w) as [r w1]. eauto.
Qed.

Lemma save_handler_path fv rows te rp (w : world) :
  clicked inp = Some BSave →
  ∃ t content w1,
    save_handler inp fv rows te rp w = (Done (), w1) ∧
    files w1 = <[path_join RECORDS_DIR
                   (record_filename (fv_month_name fv) (fv_year fv) t) :=
                   content]> (files w).
Proof.
  intros Hclick.
  destruct (build_record_run inp fv rows te rp w) as (r & Hr & Hm & Hy & _).
  eexists _, _, _. split.
  - unfold save_handler, pressed. rewrite Hclick.
    rewrite bool_decide_eq_true_2 by done.
    rewrite bind_run, Hr. rewrite bind_run, save_record_run. reflexivity.
  - cbn [files]. unfold save_record_json. cbn [snd]. by rewrite Hm, Hy.
Qed.

Lemma pdf_handler_path fv rows te rp (w : world) :
  clicked inp = Some BPdf →
  ∃ t content e w1,
    pdf_handler build_pdf inp fv rows te rp w = (Raised e, w1) ∧
    files w1 = <[path_join RECORDS_DIR
                   (record_filename (fv_month_name fv) (fv_year fv) t) :=
                   content]> (files w).
Proof.
  intros Hclick.
  destruct (build_record_run inp fv rows te rp w) as (r & Hr & Hm & Hy & _).
  eexists _, _, _, _. split.
  - unfold pdf_handler, pressed. rewrite Hclick.
    rewrite bool_decide_eq_true_2 by done.
    rewrite bind_run, Hr. rewrite bind_run, save_record_run.
    rewrite bind_run, load_logo_to_use. reflexivity.
  - cbn [files]. unfold save_record_json. cbn [snd]. by rewrite Hm, Hy.
Qed.

Lemma save_changes_footprint ed shop tag pct daily (w : world) :
  clicked inp = Some BSaveChanges →
  footprint (editing_file (state w)) (files w)
    (files (snd (save_changes ed shop tag pct daily w))).
Proof.
  intros Hclick. unfold save_changes.
  rewrite bind_eval, compute_total_sales_ints.
  rewrite bind_eval.
  destruct (compute_profit _ _) as [p_amt|] eqn:Ep; [|by left].
  rewrite bind_run. unfold get_edit_expenses at 1. rewrite bind_get_state.
  destruct (edit_expenses (state w)) as [x|]; [|by left].
  cbn [mret script_ret].
  rewrite bind_eval. destruct (py_iter x) as [rows|] eqn:Ei; [|by left].
  rewrite bind_eval.
  destruct (compute_total_expenses rows) as [t_exp|] eqn:Ee; [|by left].
  rewrite bind_eval. destruct (py_copy x) as [copy|] eqn:Ec; [|by left].
  rewrite bind_eval.
  destruct (update_record _ _ _ _ _ _ _ _ _ _) as [ed'|] eqn:Eu; [|by left].
  rewrite bind_run. unfold modify_state at 1. rewrite bind_get_state.
  unfold put_state at 1. rewrite bind_get_state.
  cbn [state editing_file set_editing].
  destruct (editing_file (state w)) as [edit_path|]; [|by left].
  right. exists edit_path, (Json.dumps ed'). split; [reflexivity|].
  right. right. done.
Qed.

(** A step of the script that writes no file and keeps the file being
    edited. *)
Ltac footprint_step e0 w0 :=
  match goal with
  | |- footprint _ _ (files (snd ((_ ≫= _) ?wc))) =>
      apply (bind_frame_state (λ s, editing_file s = e0) _ _ wc
               (footprint e0 (files w0)));
      [ | | first [assumption | congruence] | left; congruence | intros ]
  end.

Lemma edit_section_footprint (w : world) :
  clicked inp = Some BSaveChanges →
  footprint (editing_file (state w)) (files w)
    (files (snd (edit_section inp w))).
Proof.
  intros Hclick.
  assert (Hp : pressed inp BSaveChanges = true)
    by (unfold pressed; rewrite Hclick; by apply bool_decide_eq_true_2).
  assert (Hq : pressed inp BEditAdd = false)
    by (unfold pressed; rewrite Hclick; by apply bool_decide_eq_false_2).
  unfold edit_section. rewrite Hp, Hq.
  rewrite bind_get_state.
  destruct (editing_data (state w)) as [ed|]; [|by left].
  destruct (truthy ed); [|by left]. cbn [negb].
  set (e0 := editing_file (state w)).
  assert (He0 : editing_file (state w) = e0) by done.
  clearbody e0.
  repeat (footprint_step e0 w;
          [ solve [keeps | apply keeps_edit_loop]
          | solve [ apply preserves_edit_loop; intros; cbn; done
                  | unfold get_edit_expenses; preserves; cbn; done ]
          | ]).
  match goal with
  | Hs : editing_file (state ?w') = e0
    |- footprint _ _ (files (snd (save_changes _ _ _ _ _ ?w'))) =>
      rewrite <- Hs; replace (files w) with (files w') by congruence
  end.
  by apply save_changes_footprint.
Qed.

Lemma keeps_main_after_save fv rows te rp :
  clicked inp = Some BSave →
  keeps_files (pdf_handler build_pdf inp fv rows te rp;;
               show_last_summary;; listing build_pdf inp;; edit_section inp).
Proof.
  intros Hclick.
  apply keeps_bind; [apply keeps_pdf_handler; congruence|intros].
  apply keeps_bind; [apply keeps_show_last_summary|intros].
  apply keeps_bind; [apply keeps_listing_always|intros].
  apply keeps_edit_section; congruence.
Qed.

(** A run writes at most one file and removes none.  The file it writes
    is the PIN file when "Set PIN" is pressed, a record of the records
    directory named after the month, the year and a reading of the
    clock when "Save Record (JSON)" or "Generate PDF (Save & Download)"
    is pressed, and the file being edited when "Save Changes to JSON"
    is pressed; with any other button, and with "Generate & Download
    PDF" in the listing, it writes nothing. *)
Theorem run_writes_at_most_one_file (w : world) :
  footprint (editing_file (state w)) (files w)
    (files (snd (main build_pdf inp w))).
Proof.
  set (e0 := editing_file (state w)).
  assert (He0 : editing_file (state w) = e0) by done.
  clearbody e0.
  assert (Pexp : preserves (λ s, editing_file s = e0) (expense_rows inp))
    by by apply preserves_expense_rows_any.
  destruct (decide (clicked inp = Some BSetPin)) as [Hpin|Hpin].
  { unfold main. rewrite bind_run.
    destruct (gate_footprint w) as [(r & w1 & Hg & Hf)|(w1 & Hg & _ & Hf)];
      rewrite Hg.
    - destruct r as [[]| | |]; cbn [snd]; try (left; congruence).
      left. rewrite <- Hf.
      match goal with |- files (snd (?rest w1)) = _ =>
        assert (K : keeps_files rest) end; [|apply K].
      apply keeps_bind; [apply keeps_form|intros].
      apply keeps_bind; [apply keeps_expense_rows|intros].
      apply keeps_bind; [apply keeps_eval|intros].
      apply keeps_bind; [apply keeps_pie_chart|intros].
      apply keeps_bind; [apply keeps_warning_banner|intros].
      apply keeps_bind; [apply keeps_calc_handler|intros].
      apply keeps_bind; [apply keeps_save_handler; congruence|intros].
      apply keeps_bind; [apply keeps_pdf_handler; congruence|intros].
      apply keeps_bind; [apply keeps_show_last_summary|intros].
      apply keeps_bind; [apply keeps_listing_always|intros].
      apply keeps_edit_section; congruence.
    - cbn [snd]. right. eexists _, _. split; [exact Hf|]. left. done. }
  unfold main.
  footprint_step e0 w.
  { by apply keeps_gate. }
  { by apply preserves_gate. }
  footprint_step e0 w. { apply keeps_form. } { apply preserves_form. }
  match goal with Hf : form inp _ = (Done ?fv, _) |- _ =>
    destruct (form_inputs _ _ _ Hf) as (Hmn & Hyr & _) end.
  footprint_step e0 w. { apply keeps_expense_rows. } { exact Pexp. }
  footprint_step e0 w. { apply keeps_eval. } { apply preserves_eval. }
  footprint_step e0 w.
  { apply keeps_pie_chart. } { apply preserves_pie_chart. }
  footprint_step e0 w.
  { apply keeps_warning_banner. } { apply preserves_warning_banner. }
  footprint_step e0 w.
  { apply keeps_calc_handler. } { by apply preserves_calc_handler. }
  destruct (decide (clicked inp = Some BSave)) as [Hsave|Hsave].
  { rewrite bind_run.
    match goal with |- context [save_handler inp ?fv ?rows ?te ?rp ?w5] =>
      destruct (save_handler_path fv rows te rp w5 Hsave)
        as (t & content & wS & Hrun & Hfiles) end.
    rewrite Hrun. cbv beta iota.
    rewrite (keeps_main_after_save _ _ _ _ Hsave wS), Hfiles.
    right. eexists _, _. split; [f_equal; congruence|].
    right. left. split; [by left|]. exists t. by rewrite Hmn, Hyr. }
  footprint_step e0 w.
  { by apply keeps_save_handler. } { apply preserves_save_handler. }
  destruct (decide (clicked inp = Some BPdf)) as [Hpdf|Hpdf].
  { rewrite bind_run.
    match goal with |- context [pdf_handler build_pdf inp ?fv ?rows ?te ?rp ?w5] =>
      destruct (pdf_handler_path fv rows te rp w5 Hpdf)
        as (t & content & e & wS & Hrun & Hfiles) end.
    rewrite Hrun. cbv beta iota. cbn [snd]. rewrite Hfiles.
    right. eexists _, _. split; [f_equal; congruence|].
    right. left. split; [by right|]. exists t. by rewrite Hmn, Hyr. }
  footprint_step e0 w.
  { by apply keeps_pdf_handler. } { apply preserves_pdf_handler. }
  footprint_step e0 w.
  { apply keeps_show_last_summary. } { apply preserves_show_last_summary. }
  destruct (decide (clicked inp = Some BSaveChanges)) as [Hedit|Hedit].
  - footprint_step e0 w.
    { apply keeps_listing_always. }
    { apply preserves_listing. intros fname Hload. congruence. }
    match goal with
    | Hs : editing_file (state ?w') = e0
      |- footprint _ _ (files (snd (edit_section inp ?w'))) =>
        rewrite <- Hs; replace (files w) with (files w') by congruence
    end.
    by apply edit_section_footprint.
  - left.
    match goal with |- files (snd (?rest ?w')) = _ =>
      assert (K : keeps_files rest) end.
    { apply keeps_bind; [apply keeps_listing_always|intros].
      by apply keeps_edit_section. }
    rewrite K. congruence.
Qed.
End Footprint.

(** ** The gate and the page *)

(** The run stops at the gate, before anything of the page, and writes
    no file: when there is no PIN file and "Set PIN" is not pressed;
    and when there is one and the session is locked, that is when
    Unlock is pressed with a PIN that [check_pin] refuses, or when
    another button or none is pressed in a session that is not
    unlocked. *)
Theorem locked_run_stops_at_the_gate `{TextConv}
    (build_pdf : list element → result string) (inp : inputs) (w : world) :
  (files w !! PIN_FILE = None → clicked inp ≠ Some BSetPin →
   main build_pdf inp w = (Stopped, with_shown w (shown w ++ [Warning_set_pin]))) ∧
  (is_Some (files w !! PIN_FILE) → clicked inp = Some BUnlock →
   check_pin (in_pin_attempt inp) (files w) = false →
   main build_pdf inp w =
     (Stopped, with_shown (with_state w (set_unlocked false (state w)))
                 (shown w ++ [Error_incorrect_pin; Info_enter_pin]))) ∧
  (is_Some (files w !! PIN_FILE) → clicked inp ≠ Some BUnlock →
   unlocked (state w) ≠ Some true →
   main build_pdf inp w = (Stopped, with_shown w (shown w ++ [Info_enter_pin]))).
Proof.
  split; [|split].
  - intros Hnone Hclick.
    assert (Hex : path_exists PIN_FILE (files w) = false).
    { unfold path_exists. rewrite Hnone. apply bool_decide_eq_false.
      by intros [? ?]. }
    unfold main. rewrite bind_run.
    unfold gate, pressed. run_script. rewrite Hex. cbn [negb].
    rewrite bool_decide_eq_false_2 by done. reflexivity.
  - intros Hsome Hclick Hcheck.
    assert (Hex : path_exists PIN_FILE (files w) = true).
    { unfold path_exists. by apply bool_decide_eq_true. }
    unfold main. rewrite bind_run.
    unfold gate, pressed. run_script. rewrite Hex, Hclick, Hcheck. cbn [negb].
    rewrite bool_decide_eq_true_2 by done. cbn.
    unfold with_shown, with_state. cbn. by rewrite <- app_assoc.
  - intros Hsome Hclick Hlocked.
    assert (Hex : path_exists PIN_FILE (files w) = true).
    { unfold path_exists. by apply bool_decide_eq_true. }
    unfold main. rewrite bind_run.
    unfold gate, pressed. run_script. rewrite Hex. cbn [negb].
    rewrite bool_decide_eq_false_2 by done. cbn.
    destruct (unlocked (state w)) as [[]|]; try done.
Qed.

Lemma locked_run_stops_at_the_gate_witness :
  let locked :=
    {| files := files one_record_world; state := new_session;
       shown := []; ticks := 0 |} in
  @main small_text plain_pdf (press BSave (idle t_march))
    {| files := ∅; state := new_session; shown := []; ticks := 0 |} =
    (Stopped, {| files := ∅; state := new_session;
                 shown := [Warning_set_pin]; ticks := 0 |}) ∧
  @main small_text plain_pdf
    (press BUnlock (type_pin "0000" (idle t_march))) locked =
    (Stopped, with_shown (with_state locked (set_unlocked false new_session))
                [Error_incorrect_pin; Info_enter_pin]) ∧
  @main small_text plain_pdf (press BSave (idle t_march)) locked =
    (Stopped, with_shown locked [Info_enter_pin]).
Proof.
  cbv zeta. split; [|split].
  - apply (@locked_run_stops_at_the_gate small_text plain_pdf
             (press BSave (idle t_march))
             {| files := ∅; state := new_session; shown := []; ticks := 0 |});
      [reflexivity|discriminate].
  - apply (@locked_run_stops_at_the_gate small_text plain_pdf
             (press BUnlock (type_pin "0000" (idle t_march)))
             {| files := files one_record_world; state := new_session;
                shown := []; ticks := 0 |});
      [vm_compute; eauto|reflexivity|vm_compute; reflexivity].
  - apply (@locked_run_stops_at_the_gate small_text plain_pdf
             (press BSave (idle t_march))
             {| files := files one_record_world; state := new_session;
                shown := []; ticks := 0 |});
      [vm_compute; eauto|discriminate|discriminate].
Defined.

(** ** The listing of a record *)

Section ListingItem.
Context `{TextConv}.
Variable build_pdf : list element → result string.
Variable inp : inputs.

(** The listing of a file that holds a record as the program saves it:
    the reads and the formats succeed, and what follows depends on the
    button. *)
Lemma listing_item_listable (fname : string) (w : world) (rec : pyval) :
  load_record (path_join RECORDS_DIR fname) (files w) = Ok rec →
  listable rec →
  listing_item build_pdf inp fname w =
    if pressed inp (BPdfFor fname) then (Raised (NameError "logo_to_use"), w)
    else if pressed inp (BLoad fname)
    then (Rerun, with_state w
                   (set_editing (Some (path_join RECORDS_DIR fname)) (Some rec)
                      (state w)))
    else (Done (), w).
Proof.
  intros Hload (r & -> & Hrp & Hte).
  destruct (round_float_finite _ Hrp) as [a Ha].
  destruct (round_float_finite _ Hte) as [b Hb].
  unfold listing_item. rewrite bind_get_files.
  rewrite bind_eval, Hload. cbv beta iota.
  rewrite bind_eval.
  change (py_getitem (record_dict r) "month_name")
    with (Ok (PStr (month_name r))). cbv beta iota.
  rewrite bind_eval.
  change (py_getitem (record_dict r) "year") with (Ok (PInt (year r))).
  cbv beta iota. rewrite bind_eval.
  change (py_getitem (record_dict r) "remaining_profit")
    with (Ok (PFloat (remaining_profit r))). cbv beta iota.
  rewrite bind_eval. change (fmt_pk (PFloat ?x)) with (round_float x).
  rewrite Ha. cbv beta iota. rewrite bind_eval.
  change (py_getitem (record_dict r) "created_at")
    with (Ok (PStr (created_at r))). cbv beta iota.
  rewrite bind_eval.
  change (py_get (record_dict r) "shop_name" (PStr ""))
    with (Ok (PStr (shop_name r))). cbv beta iota.
  rewrite bind_eval.
  change (py_getitem (record_dict r) "total_sales")
    with (Ok (PInt (total_sales r))). cbv beta iota.
  rewrite bind_eval. change (fmt_pk (PInt ?x)) with (Ok x).
  cbv beta iota. rewrite bind_eval.
  change (py_getitem (record_dict r) "profit_pct")
    with (Ok (PFloat (profit_pct r))). cbv beta iota.
  rewrite bind_eval.
  change (py_getitem (record_dict r) "total_expenses")
    with (Ok (PFloat (total_expenses r))). cbv beta iota.
  rewrite bind_eval. change (fmt_pk (PFloat ?x)) with (round_float x).
  rewrite Hb. cbv beta iota.
  destruct (pressed inp (BPdfFor fname)) eqn:Hpdf.
  - rewrite bind_assoc_run, bind_eval.
    change (py_getitem (record_dict r) "daily_sales")
      with (Ok (PList (map PInt (daily_sales r)))). cbv beta iota.
    rewrite bind_assoc_run, bind_run, load_logo_to_use. reflexivity.
  - rewrite bind_ret. destruct (pressed inp (BLoad fname)); reflexivity.
Qed.

(** "Load this record to edit" on a file that holds a record as the
    program saves it: the session takes the path of the file and the
    record read from it, no file is written, and the script is run
    again. *)
Theorem load_for_edit (fname : string) (w : world) (rec : pyval) :
  clicked inp = Some (BLoad fname) →
  load_record (path_join RECORDS_DIR fname) (files w) = Ok rec →
  listable rec →
  listing_item build_pdf inp fname w =
    (Rerun, with_state w
              (set_editing (Some (path_join RECORDS_DIR fname)) (Some rec)
                 (state w))).
Proof.
  intros Hclick Hload Hrec.
  rewrite (listing_item_listable fname w rec Hload Hrec).
  unfold pressed. rewrite Hclick.
  rewrite bool_decide_eq_false_2 by done.
  by rewrite bool_decide_eq_true_2.
Qed.

Lemma well_formed_listable (r : record) :
  well_formed (record_dict r) → listable (record_dict r).
Proof.
  intros Hwf. exists r. split; [done|].
  apply well_formed_dict in Hwf as [_ Hall].
  unfold record_dict in Hall.
  repeat match goal with
         | H : Forall _ (_ :: _) |- _ => apply Forall_cons_1 in H as [? H]
         end.
  cbn [snd] in *.
  repeat match goal with
         | H : well_formed (PFloat _) |- _ => apply well_formed_float in H as [? _]
         end.
  done.
Qed.

(** A record that has just been saved is listed, and its listing goes
    through without an exception: the file reads back as the record
    and has every key and every amount the listing formats. *)
Theorem saved_record_is_displayed (t : datetime) (r : record) (w : world) :
  well_formed (record_dict r) →
  Str.contains_char "/" (month_name r) = false →
  clicked inp = None →
  let name := record_filename (month_name r) (year r) t in
  let w' := with_files w (snd (save_record_json t r (files w))) in
  name ∈ list_saved_records (files w') ∧
  listing_item build_pdf inp name w' = (Done (), w').
Proof.
  intros Hwf Hm Hclick name w'. split.
  - apply record_listed; [done|]. subst w'. cbn [files with_files].
    unfold save_record_json. cbn [snd]. rewrite lookup_insert_eq. eauto.
  - rewrite (listing_item_listable name w' (record_dict r)).
    + unfold pressed. rewrite Hclick. by rewrite !bool_decide_eq_false_2.
    + subst w'. cbn [files with_files]. unfold load_record, save_record_json.
      cbn [snd]. rewrite lookup_insert_eq. by apply loads_dumps.
    + by apply well_formed_listable.
Qed.

(** A file of the listing whose JSON is no dictionary, or a dictionary
    without the key [month_name], ends the run at the listing with an
    exception: [TypeError] or [KeyError]. *)
Lemma listing_item_not_a_record (fname : string) (w : world) (rec : pyval) :
  load_record (path_join RECORDS_DIR fname) (files w) = Ok rec →
  (∀ d, rec = PDict d → dict_lookup "month_name" d = None) →
  listing_item build_pdf inp fname w =
    (Raised (match rec with
             | PDict _ => KeyError "month_name"
             | _ => TypeError
             end), w).
Proof.
  intros Hload Hrec. unfold listing_item. rewrite bind_get_files.
  rewrite bind_eval, Hload. cbv beta iota. rewrite bind_eval.
  destruct rec as [| | | | | |d]; try reflexivity.
  unfold py_getitem. by rewrite (Hrec d eq_refl).
Qed.

Theorem listing_raises_on_other_json (fname : string) (w : world)
    (rec : pyval) :
  clicked inp = None →
  fname ∈ list_saved_records (files w) →
  load_record (path_join RECORDS_DIR fname) (files w) = Ok rec →
  (∀ d, rec = PDict d → dict_lookup "month_name" d = None) →
  listing_item build_pdf inp fname w =
    (Raised (match rec with
             | PDict _ => KeyError "month_name"
             | _ => TypeError
             end), w) ∧
  ∃ e, listing build_pdf inp w = (Raised e, w).
Proof.
  intros Hclick Hin Hload Hrec.
  pose proof (listing_item_not_a_record fname w rec Hload Hrec) as Hitem.
  split; [exact Hitem|].
  unfold listing. rewrite bind_get_files.
  destruct (list_saved_records (files w)) as [|y l] eqn:El;
    [by apply elem_of_nil in Hin|].
  eapply for_each_raises; [done|done|exact Hitem].
Qed.
End ListingItem.

Lemma load_for_edit_witness :
  @listing_item small_text plain_pdf (press (BLoad march_file) (idle t_march))
    march_file one_record_world =
  (Rerun,
   with_state one_record_world
     (set_editing (Some (path_join RECORDS_DIR march_file))
        (Some (record_dict (sample_record t_march 3 "March" "AR Book Mart")))
        (state one_record_world))).
Proof.
  apply (@load_for_edit small_text plain_pdf
           (press (BLoad march_file) (idle t_march)) march_file
           one_record_world).
  - reflexivity.
  - vm_compute. reflexivity.
  - exists (sample_record t_march 3 "March" "AR Book Mart").
    repeat split.
Defined.

Lemma saved_record_is_displayed_witness :
  let r := sample_record t_march 3 "March" "AR Book Mart" in
  let w' := with_files (fresh_world ∅)
              (snd (@save_record_json small_text t_march r ∅)) in
  march_file ∈ list_saved_records (files w') ∧
  @listing_item small_text plain_pdf (idle t_march) march_file w' =
    (Done (), w').
Proof.
  apply (@saved_record_is_displayed small_text plain_pdf (idle t_march)
           t_march (sample_record t_march 3 "March" "AR Book Mart")
           (fresh_world ∅)).
  - exact sample_record_well_formed.
  - reflexivity.
  - reflexivity.
Defined.

(** A store whose records directory holds a JSON text that is a list. *)
Definition stray_json_world : world :=
  {| files := <["records/notes.json" := "[]"]> (set_pin "1234" ∅);
     state := set_unlocked true new_session; shown := []; ticks := 0 |}.

Lemma listing_raises_on_other_json_witness :
  @listing_item small_text plain_pdf (idle t_march) "notes.json"
    stray_json_world = (Raised TypeError, stray_json_world) ∧
  ∃ e, @listing small_text plain_pdf (idle t_march) stray_json_world =
       (Raised e, stray_json_world).
Proof.
  apply (@listing_raises_on_other_json small_text plain_pdf (idle t_march)
           "notes.json" stray_json_world (PList [])).
  - reflexivity.
  - apply (bool_decide_unpack _). vm_compute. reflexivity.
  - vm_compute. reflexivity.
  - intros d Hd. discriminate Hd.
Defined.

(** ** The rows of the expenses and their widgets *)

(** The row the widgets of row [i] hold. *)
Definition widget_row (inp : inputs) (i : nat) : expense :=
  {| ex_name := in_ex_name inp i; ex_amount := in_ex_amt inp i |}.

(** The rows after the loop has passed over [n] rows from row [idx] on. *)
Fixpoint overwrite_rows (inp : inputs) (n idx : nat) (l : list expense)
  : list expense :=
  match n with
  | O => l
  | S n' => overwrite_rows inp n' (S idx) (<[idx := widget_row inp idx]> l)
  end.

Lemma overwrite_rows_length inp n idx l :
  length (overwrite_rows inp n idx l) = length l.
Proof.
  revert idx l. induction n as [|n IH]; intros idx l; cbn [overwrite_rows].
  - done.
  - by rewrite IH, length_insert.
Qed.

Lemma overwrite_rows_lookup inp n idx l i :
  overwrite_rows inp n idx l !! i =
  if bool_decide ((idx ≤ i < idx + n)%nat ∧ (i < length l)%nat)
  then Some (widget_row inp i) else l !! i.
Proof.
  revert idx l. induction n as [|n IH]; intros idx l; cbn [overwrite_rows].
  - rewrite bool_decide_eq_false_2 by lia. done.
  - rewrite IH, length_insert.
    destruct (decide (i = idx)) as [->|Hne].
    + rewrite (bool_decide_eq_false_2 ((S idx ≤ idx < _)%nat ∧ _)) by lia.
      case_bool_decide as Hi.
      * apply list_lookup_insert_eq. lia.
      * rewrite !lookup_ge_None_2; [done|lia|rewrite length_insert; lia].
    + rewrite list_lookup_insert_ne by done.
      repeat case_bool_decide; try done; lia.
Qed.

Lemma overwrite_rows_all inp l :
  overwrite_rows inp (length l) 0 l = map (widget_row inp) (seq 0 (length l)).
Proof.
  apply list_eq. intros i. rewrite overwrite_rows_lookup.
  change (map (widget_row inp) (seq 0 (length l)))
    with (widget_row inp <$> seq 0 (length l)).
  rewrite list_lookup_fmap. case_bool_decide as Hi.
  - rewrite lookup_seq_lt by lia. done.
  - rewrite !lookup_ge_None_2; [done|rewrite length_seq; lia|lia].
Qed.

Lemma with_state_set_expenses_same (w : world) (l : list expense) :
  ss_expenses (state w) = Some l → with_state w (set_expenses l (state w)) = w.
Proof.
  destruct w as [f s sh t]. destruct s. cbn. intros ->. reflexivity.
Qed.

Section WidgetRows.
Context `{TextConv}.
Variable inp : inputs.

Lemma get_expenses_run (w : world) (l : list expense) :
  ss_expenses (state w) = Some l → get_expenses w = (Done l, w).
Proof. intros Hl. unfold get_expenses. rewrite bind_get_state, Hl. done. Qed.

(** The loop over the rows when no Remove button is pressed on them. *)
Lemma expense_loop_idle (n idx : nat) (w : world) (l : list expense) :
  ss_expenses (state w) = Some l →
  (∀ i, clicked inp ≠ Some (BRemove i)) →
  expense_loop inp n idx w =
    (Done (), with_state w (set_expenses (overwrite_rows inp n idx l) (state w))).
Proof.
  intros Hl Hclick. revert idx w l Hl.
  induction n as [|n IH]; intros idx w l Hl; cbn [expense_loop overwrite_rows].
  - by rewrite with_state_set_expenses_same.
  - rewrite bind_run, (get_expenses_run w l Hl). cbv beta iota.
    rewrite bind_run.
    change (modify_state ?g w) with (Done (), with_state w (g (state w))).
    cbv beta iota. unfold pressed.
    rewrite bool_decide_eq_false_2 by apply Hclick.
    rewrite bind_ret.
    rewrite (IH (S idx) _ (<[idx := widget_row inp idx]> l)); [|done].
    reflexivity.
Qed.

(** The loop when the Remove button of row [r] is pressed: the rows up
    to [r] take the values of their widgets, then [remove_row] runs and
    the script is run again. *)
Lemma expense_loop_remove (n idx r : nat) (w : world) (l : list expense) :
  ss_expenses (state w) = Some l →
  clicked inp = Some (BRemove r) →
  (idx ≤ r < idx + n)%nat → (r < length l)%nat →
  expense_loop inp n idx w =
    (Rerun,
     with_state w
       (set_expenses
          (let l1 := overwrite_rows inp (S r - idx) idx l in
           if (1 <? length l)%nat then delete r l1 else l1)
          (state w))).
Proof.
  intros Hl Hclick. revert idx w l Hl.
  induction n as [|n IH]; intros idx w l Hl Hr Hlen; [lia|].
  cbn [expense_loop].
  rewrite bind_run, (get_expenses_run w l Hl). cbv beta iota.
  rewrite bind_run.
  change (modify_state ?g w) with (Done (), with_state w (g (state w))).
  cbv beta iota. unfold pressed. rewrite Hclick.
  destruct (decide (r = idx)) as [->|Hne].
  - rewrite bool_decide_eq_true_2 by done.
    replace (S idx - idx)%nat with 1%nat by lia. cbn [overwrite_rows].
    rewrite bind_run, bind_run. unfold remove_row. rewrite bind_run.
    rewrite (get_expenses_run _ (<[idx := widget_row inp idx]> l))
      by reflexivity.
    cbv beta iota. rewrite length_insert.
    destruct (1 <? length l)%nat; [|reflexivity].
    assert ((idx <? length l)%nat = true) as -> by (apply Nat.ltb_lt; lia).
    reflexivity.
  - rewrite bool_decide_eq_false_2 by congruence.
    rewrite bind_ret.
    rewrite (IH (S idx) _ (<[idx := widget_row inp idx]> l));
      [|done|lia|rewrite length_insert; lia].
    rewrite length_insert.
    replace (S r - idx)%nat with (S (S r - S idx))%nat by lia.
    reflexivity.
Qed.

Lemma overwrite_rows_prefix (r : nat) (l : list expense) :
  (r ≤ length l)%nat →
  overwrite_rows inp r 0 l =
  (map (widget_row inp) (seq 0 r) ++ drop r l)%list.
Proof.
  intros Hr. apply list_eq. intros i. rewrite overwrite_rows_lookup.
  change (map (widget_row inp) (seq 0 r)) with (widget_row inp <$> seq 0 r).
  case_bool_decide as Hi.
  - rewrite lookup_app_l by (rewrite length_fmap, length_seq; lia).
    rewrite list_lookup_fmap, lookup_seq_lt by lia. done.
  - destruct (decide (i < r)%nat) as [Hlt|Hge]; [lia|].
    rewrite lookup_app_r by (rewrite length_fmap, length_seq; lia).
    rewrite length_fmap, length_seq, lookup_drop. f_equal. lia.
Qed.

(** Without a press of Remove or of "Add Expense Field", the rows of
    the session take the values of their widgets, row by row, and these
    are the rows the run goes on with; a session without rows gets one
    first. *)
Theorem expense_rows_take_the_widgets (w : world) :
  (∀ i, clicked inp ≠ Some (BRemove i)) → clicked inp ≠ Some BAddExpense →
  let n := from_option length 1%nat (ss_expenses (state w)) in
  let rows := map (widget_row inp) (seq 0 n) in
  expense_rows inp w = (Done rows, with_state w (set_expenses rows (state w))).
Proof.
  intros Hrm Hadd n rows. unfold expense_rows. rewrite bind_get_state.
  assert (Hp : pressed inp BAddExpense = false)
    by (unfold pressed; by apply bool_decide_eq_false_2).
  destruct (ss_expenses (state w)) as [l|] eqn:El.
  - rewrite bind_ret. rewrite bind_run, (get_expenses_run w l El).
    cbv beta iota. rewrite bind_run, (expense_loop_idle _ _ w l El Hrm).
    cbv beta iota. rewrite Hp, bind_ret.
    rewrite overwrite_rows_all. by apply get_expenses_run.
  - rewrite bind_run.
    change (put_state ?s w) with (Done (), with_state w s). cbv beta iota.
    set (rent := {| ex_name := "Rent"; ex_amount := 0 |}).
    rewrite bind_run, (get_expenses_run _ [rent]) by reflexivity.
    cbv beta iota.
    rewrite bind_run, (expense_loop_idle _ _ _ [rent]) by done.
    cbv beta iota. rewrite Hp, bind_ret.
    rewrite (overwrite_rows_all inp [rent]). by apply get_expenses_run.
Qed.

(** A press of Remove on row [r] gives the rows before it the values of
    their widgets, takes row [r] out when there are two rows or more
    and leaves it in when it is the only one, keeps the rows after it
    as they are in the session, and runs the script again.  A press of
    "Add Expense Field" gives all the rows the values of their widgets,
    puts an empty row after them and runs the script again. *)
Theorem expense_rows_remove_and_add (w : world) (l : list expense) :
  ss_expenses (state w) = Some l →
  (∀ r, clicked inp = Some (BRemove r) → (r < length l)%nat →
     expense_rows inp w =
       (Rerun,
        with_state w
          (set_expenses
             (if (1 <? length l)%nat
              then (map (widget_row inp) (seq 0 r) ++ drop (S r) l)%list
              else [widget_row inp 0])
             (state w)))) ∧
  (clicked inp = Some BAddExpense →
     expense_rows inp w =
       (Rerun,
        with_state w
          (set_expenses
             (map (widget_row inp) (seq 0 (length l)) ++
              [{| ex_name := ""; ex_amount := 0 |}])%list
             (state w)))).
Proof.
  intros El. split.
  - intros r Hclick Hr. unfold expense_rows. rewrite bind_get_state, El.
    rewrite bind_ret. rewrite bind_run, (get_expenses_run w l El).
    cbv beta iota.
    rewrite bind_run, (expense_loop_remove _ 0 r w l El Hclick) by lia.
    cbv beta iota zeta. cbn [snd]. rewrite Nat.sub_0_r.
    rewrite overwrite_rows_prefix by lia.
    destruct (1 <? length l)%nat eqn:H1.
    + do 3 f_equal. rewrite seq_S, map_app. cbn [map Nat.add].
      rewrite <- app_assoc. cbn [app].
      rewrite <- (delete_middle (map (widget_row inp) (seq 0 r))
                    (drop (S r) l) (widget_row inp r)).
      by rewrite length_map, length_seq.
    + apply Nat.ltb_ge in H1.
      destruct l as [|x [|y l]]; cbn [length] in *; try lia.
      assert (r = 0)%nat as -> by lia. reflexivity.
  - intros Hclick. unfold expense_rows. rewrite bind_get_state, El.
    rewrite bind_ret. rewrite bind_run, (get_expenses_run w l El).
    cbv beta iota.
    rewrite bind_run, (expense_loop_idle _ _ w l El)
      by (intros i; congruence).
    cbv beta iota. unfold pressed. rewrite Hclick.
    rewrite bool_decide_eq_true_2 by done.
    rewrite overwrite_rows_all.
    rewrite bind_run, bind_run. unfold add_row. rewrite bind_run.
    rewrite (get_expenses_run _ (map (widget_row inp) (seq 0 (length l))))
      by reflexivity.
    reflexivity.
Qed.
End WidgetRows.

Lemma expense_rows_take_the_widgets_witness :
  expense_rows (idle t_march) one_record_world =
    (Done [widget_row (idle t_march) 0],
     with_state one_record_world
       (set_expenses [widget_row (idle t_march) 0] (state one_record_world))).
Proof.
  apply (expense_rows_take_the_widgets (idle t_march) one_record_world);
    discriminate.
Defined.

(** A session with two rows of expenses. *)
Definition two_rows_world : world :=
  with_state one_record_world
    (set_expenses [{| ex_name := "Rent"; ex_amount := 100 |};
                   {| ex_name := "Tea"; ex_amount := 5 |}]
       (state one_record_world)).

Lemma expense_rows_remove_and_add_witness :
  expense_rows (press (BRemove 0) (idle t_march)) two_rows_world =
    (Rerun,
     with_state two_rows_world
       (set_expenses [{| ex_name := "Tea"; ex_amount := 5 |}]
          (state two_rows_world))) ∧
  expense_rows (press BAddExpense (idle t_march)) two_rows_world =
    (Rerun,
     with_state two_rows_world
       (set_expenses
          [widget_row (idle t_march) 0; widget_row (idle t_march) 1;
           {| ex_name := ""; ex_amount := 0 |}]
          (state two_rows_world))).
Proof.
  split.
  - apply (proj1 (expense_rows_remove_and_add (press (BRemove 0) (idle t_march))
                    two_rows_world
                    [{| ex_name := "Rent"; ex_amount := 100 |};
                     {| ex_name := "Tea"; ex_amount := 5 |}] eq_refl) 0%nat);
      [reflexivity|cbn; lia].
  - apply (proj2 (expense_rows_remove_and_add (press BAddExpense (idle t_march))
                    two_rows_world
                    [{| ex_name := "Rent"; ex_amount := 100 |};
                     {| ex_name := "Tea"; ex_amount := 5 |}] eq_refl)).
    reflexivity.
Defined.

(** ** The save of an edit *)

Section SaveChanges.
Context `{TextConv}.

(** "Save Changes to JSON", when the totals compute: the file being
    edited is overwritten with the updated record, the message names
    it, the three editing keys leave the session, no other file and no
    other key changes, and the script is run again. *)
Theorem save_changes_overwrites_and_clears (d : dict)
    (new_shop new_tagline : string) (new_profit_pct : float)
    (edited_daily : list Z) (w : world) (path : string) (rows : list pyval)
    (p_amt t_exp : float) :
  editing_file (state w) = Some path →
  edit_expenses (state w) = Some (PList rows) →
  compute_profit (sum_Z edited_daily) new_profit_pct = Ok p_amt →
  compute_total_expenses rows = Ok t_exp →
  ∃ d',
    update_record (PDict d) new_shop new_tagline new_profit_pct
      (sum_Z edited_daily) p_amt t_exp (p_amt - t_exp) edited_daily
      (PList rows) = Ok (PDict d') ∧
    save_changes (PDict d) new_shop new_tagline new_profit_pct edited_daily w =
      (Rerun,
       {| files := <[path := Json.dumps (PDict d')]> (files w);
          state := set_edit_expenses None (set_editing None None (state w));
          shown := shown w ++ [Success_record_updated path];
          ticks := ticks w |}).
Proof.
  intros Hfile Hrows Hprofit Hexp.
  eexists. split; [reflexivity|].
  unfold save_changes.
  rewrite bind_eval, compute_total_sales_ints. cbv beta iota.
  rewrite bind_eval, Hprofit. cbv beta iota.
  rewrite bind_run. unfold get_edit_expenses at 1.
  rewrite bind_get_state, Hrows.
  cbn [mret script_ret]. cbv beta iota.
  rewrite bind_eval. cbn [py_iter]. cbv beta iota.
  rewrite bind_eval, Hexp. cbv beta iota.
  rewrite bind_eval. cbn [py_copy]. cbv beta iota.
  rewrite bind_eval.
  match goal with
  | |- context [update_record ?a ?b ?c ?e ?f ?g ?h ?i ?j ?k] =>
      change (update_record a b c e f g h i j k)
        with (Ok (PDict
                (dict_set "expenses" k
                (dict_set "daily_sales" (PList (map PInt j))
                (dict_set "remaining_profit" (PFloat i)
                (dict_set "total_expenses" (PFloat h)
                (dict_set "profit_amount" (PFloat g)
                (dict_set "total_sales" (PInt f)
                (dict_set "profit_pct" (PFloat e)
                (dict_set "tagline" (PStr c)
                (dict_set "shop_name" (PStr b) d)))))))))))
  end.
  cbv beta iota.
  rewrite bind_run. unfold modify_state at 1. rewrite bind_get_state.
  unfold put_state at 1. rewrite bind_get_state.
  cbn [state editing_file set_editing]. rewrite Hfile.
  reflexivity.
Qed.

Lemma dict_set_NoDup (k : string) (v : pyval) (d : dict) :
  NoDup (map fst d) → NoDup (map fst (dict_set k v d)).
Proof.
  intros Hnd. destruct (decide (k ∈ map fst d)) as [Hin|Hnin].
  - by rewrite dict_set_keys_mem.
  - rewrite dict_set_fresh by done. rewrite map_app. cbn [map fst].
    apply NoDup_app. split; [done|]. split; [|apply NoDup_singleton].
    intros x Hx ->%list_elem_of_singleton. done.
Qed.

Lemma dict_set_Forall (Q : string * pyval → Prop) (k : string) (v : pyval)
    (d : dict) :
  Forall Q d → Q (k, v) → Forall Q (dict_set k v d).
Proof.
  intros Hd Hv. induction Hd as [|[k' v'] d Hx Hd IH]; cbn [dict_set].
  - by constructor.
  - destruct (String.eqb k' k); constructor; done.
Qed.

Lemma well_formed_dict_set (k : string) (v : pyval) (d : dict) :
  well_formed (PDict d) → well_formed v → well_formed (PDict (dict_set k v d)).
Proof.
  intros [Hnd Hall]%well_formed_dict Hv. constructor.
  - by apply dict_set_NoDup.
  - by apply dict_set_Forall.
Qed.

(** An edited record is again a record that reads back from its file:
    the update of a well-formed record with finite amounts and
    well-formed expenses is well formed, and [json.loads] of its
    [json.dumps] is the updated record. *)
Theorem edited_record_reads_back (d : dict) (new_shop new_tagline : string)
    (new_profit_pct : float) (t_sales : Z) (p_amt t_exp rem : float)
    (edited_daily : list Z) (expenses : pyval) :
  well_formed (PDict d) →
  float_text new_profit_pct → float_text p_amt → float_text t_exp →
  float_text rem → well_formed expenses →
  ∃ ed',
    update_record (PDict d) new_shop new_tagline new_profit_pct t_sales
      p_amt t_exp rem edited_daily expenses = Ok ed' ∧
    well_formed ed' ∧ Json.loads (Json.dumps ed') = Ok ed'.
Proof.
  intros Hd Hpct Hpa Hte Hrem Hex.
  eexists. split; [reflexivity|].
  assert (Hwf : well_formed
            (PDict
               (dict_set "expenses" expenses
               (dict_set "daily_sales" (PList (map PInt edited_daily))
               (dict_set "remaining_profit" (PFloat rem)
               (dict_set "total_expenses" (PFloat t_exp)
               (dict_set "profit_amount" (PFloat p_amt)
               (dict_set "total_sales" (PInt t_sales)
               (dict_set "profit_pct" (PFloat new_profit_pct)
               (dict_set "tagline" (PStr new_tagline)
               (dict_set "shop_name" (PStr new_shop) d))))))))))).
  { repeat apply well_formed_dict_set; try done;
      try (by constructor).
    constructor. apply Forall_forall. intros x (z & -> & _)%list_elem_of_fmap.
    constructor. }
  split; [exact Hwf|]. by apply loads_dumps.
Qed.
End SaveChanges.

(** A session that edits the record of March, with one row of
    expenses. *)
Definition edit_session_world : world :=
  with_state one_record_world
    (set_edit_expenses
       (Some (PList [expense_dict {| ex_name := "Rent"; ex_amount := 100 |}]))
       (set_editing (Some (path_join RECORDS_DIR march_file))
          (Some (record_dict (sample_record t_march 3 "March" "AR Book Mart")))
          (state one_record_world))).

Lemma save_changes_overwrites_and_clears_witness :
  ∃ d',
    @save_changes small_text
      (record_dict (sample_record t_march 3 "March" "AR Book Mart"))
      "Shop" "" 25 [10; 20; 30]%Z edit_session_world =
      (Rerun,
       {| files := <[path_join RECORDS_DIR march_file :=
                       @Json.dumps small_text (PDict d')]>
                     (files edit_session_world);
          state := set_edit_expenses None
                     (set_editing None None (state edit_session_world));
          shown := [Success_record_updated (path_join RECORDS_DIR march_file)];
          ticks := 0 |}).
Proof.
  destruct (@save_changes_overwrites_and_clears small_text
              [("created_at", PStr (isoformat t_march)); ("month", PInt 3);
               ("month_name", PStr "March"); ("year", PInt 2025);
               ("shop_name", PStr "AR Book Mart"); ("tagline", PStr "Savings");
               ("profit_pct", PFloat 20); ("total_sales", PInt 60);
               ("profit_amount", PFloat 12); ("total_expenses", PFloat 100);
               ("remaining_profit", PFloat (-88));
               ("daily_sales", PList (map PInt [10; 20; 30]%Z));
               ("expenses",
                PList [expense_dict {| ex_name := "Rent"; ex_amount := 100 |}])]
              "Shop" "" 25 [10; 20; 30]%Z edit_session_world
              (path_join RECORDS_DIR march_file)
              [expense_dict {| ex_name := "Rent"; ex_amount := 100 |}]
              15 100 eq_refl eq_refl)
    as (d' & _ & Hrun).
  - vm_compute. reflexivity.
  - vm_compute. reflexivity.
  - exists d'. exact Hrun.
Defined.

Lemma edited_record_reads_back_witness :
  ∃ ed',
    @update_record
      (record_dict (sample_record t_march 3 "March" "AR Book Mart"))
      "Shop" "" 25 60 15 100 (-85) [10; 20; 30]%Z
      (PList [expense_dict {| ex_name := "Rent"; ex_amount := 100 |}]) =
      Ok ed' ∧
    @Json.loads small_text (@Json.dumps small_text ed') = Ok ed'.
Proof.
  destruct (@edited_record_reads_back small_text
              [("created_at", PStr (isoformat t_march)); ("month", PInt 3);
               ("month_name", PStr "March"); ("year", PInt 2025);
               ("shop_name", PStr "AR Book Mart"); ("tagline", PStr "Savings");
               ("profit_pct", PFloat 20); ("total_sales", PInt 60);
               ("profit_amount", PFloat 12); ("total_expenses", PFloat 100);
               ("remaining_profit", PFloat (-88));
               ("daily_sales", PList (map PInt [10; 20; 30]%Z));
               ("expenses",
                PList [expense_dict {| ex_name := "Rent"; ex_amount := 100 |}])]
              "Shop" "" 25 60 15 100 (-85) [10; 20; 30]%Z
              (PList [expense_dict {| ex_name := "Rent"; ex_amount := 100 |}]))
    as (ed' & Hup & _ & Hload).
  - exact sample_record_well_formed.
  - float_text_example.
  - float_text_example.
  - float_text_example.
  - float_text_example.
  - unfold expense_dict. cbn. well_formed_example.
  - exists ed'. split; [exact Hup|exact Hload].
Defined.

(** ** The form: month, year and daily sales *)

Lemma list_index_lookup (x : string) (l : list string) (i : Z) :
  list_index x l = Ok i → (0 ≤ i)%Z ∧ l !! Z.to_nat i = Some x.
Proof.
  revert i. induction l as [|y l IH]; intros i; cbn [list_index]; [done|].
  destruct (String.eqb_spec y x) as [->|Hne].
  - intros [= <-]. done.
  - destruct (list_index x l) as [j|] eqn:Ej; cbn; [|done].
    intros [= <-]. destruct (IH j eq_refl) as [Hj Hl]. split; [lia|].
    replace (Z.to_nat (j + 1)) with (S (Z.to_nat j)) by lia. done.
Qed.

Lemma list_index_not_in (x : string) (l : list string) :
  x ∉ l → list_index x l = Err ValueError.
Proof.
  induction l as [|y l IH]; cbn [list_index]; [done|].
  intros [Hne Hl]%not_elem_of_cons.
  destruct (String.eqb_spec y x); [congruence|]. by rewrite IH.
Qed.

Lemma days_in_month_bounds (year month n : Z) :
  days_in_month year month = Ok n → (28 ≤ n ≤ 31)%Z.
Proof.
  unfold days_in_month.
  destruct ((1 <=? month) && (month <=? 12))%Z; [|done].
  intros [= <-].
  repeat match goal with |- context [if ?b then _ else _] => destruct b end;
    lia.
Qed.

(** The same widgets with another month selected. *)
Definition type_month (m : string) (inp : inputs) : inputs :=
  {| clicked := clicked inp; clock := clock inp;
     in_set_pin := in_set_pin inp; in_pin_attempt := in_pin_attempt inp;
     in_shop_name := in_shop_name inp; in_tagline := in_tagline inp;
     in_month_name := m; in_year := in_year inp;
     in_day := in_day inp; in_profit_pct := in_profit_pct inp;
     in_ex_name := in_ex_name inp; in_ex_amt := in_ex_amt inp;
     in_edit_shop := in_edit_shop inp; in_edit_tagline := in_edit_tagline inp;
     in_edit_profit_pct := in_edit_profit_pct inp;
     in_edit_days := in_edit_days inp; in_edit_day := in_edit_day inp;
     in_edit_ex_name := in_edit_ex_name inp;
     in_edit_ex_amt := in_edit_ex_amt inp |}.

(** When the form goes through, the month number is that of the month
    name, between 1 and 12, there is one daily sale for each day of the
    month in that year, between 28 and 31 of them, each the value of its
    widget, and the total of the sales is their sum.  A month name that
    is no month of the calendar ends the run with [ValueError], and so
    does the empty name, which the calendar's list holds at index 0. *)
Theorem form_has_the_days_of_the_month `{TextConv} (inp : inputs)
    (w : world) :
  (∀ fv w1, form inp w = (Done fv, w1) →
     w1 = w ∧
     (1 ≤ fv_month_number fv ≤ 12)%Z ∧
     calendar_month_name !! Z.to_nat (fv_month_number fv) =
       Some (in_month_name inp) ∧
     ∃ n, days_in_month (in_year inp) (fv_month_number fv) = Ok n ∧
          (28 ≤ n ≤ 31)%Z ∧
          fv_daily_sales fv = map (in_day inp) (seqZ 1 n) ∧
          length (fv_daily_sales fv) = Z.to_nat n ∧
          fv_total_sales fv = sum_Z (fv_daily_sales fv)) ∧
  (in_month_name inp ∉ calendar_month_name ∨ in_month_name inp = "" →
   form inp w = (Raised ValueError, w)).
Proof.
  split.
  - intros fv w1 Hform.
    destruct (form_inputs inp w w1 fv Hform)
      as (_ & _ & _ & _ & _ & (n & Hn & Hd) & Hidx & ->).
    destruct (form_spec inp _ _ _ Hform) as [Hts _].
    apply list_index_lookup in Hidx as [H0 Hidx].
    assert (Hm : (1 ≤ fv_month_number fv ≤ 12)%Z).
    { unfold days_in_month in Hn.
      destruct ((1 <=? fv_month_number fv) && (fv_month_number fv <=? 12))%Z
        eqn:E; [lia|done]. }
    split; [done|]. split; [done|]. split; [done|].
    exists n. split; [done|].
    destruct (days_in_month_bounds (in_year inp) (fv_month_number fv) n Hn)
      as [Hlo Hhi].
    repeat split; try done.
    rewrite Hd, length_map, length_seqZ. done.
  - intros [Hnot|Hempty].
    + unfold form. by rewrite bind_eval, list_index_not_in.
    + unfold form. rewrite bind_eval, Hempty.
      change (list_index "" calendar_month_name) with (Ok 0%Z).
      cbv beta iota. rewrite bind_eval. reflexivity.
Qed.

Lemma form_has_the_days_of_the_month_witness :
  ∃ fv, @form small_text (idle t_march) one_record_world =
          (Done fv, one_record_world) ∧
        (28 ≤ length (fv_daily_sales fv) ≤ 31)%nat ∧
        @form small_text (type_month "" (idle t_march)) one_record_world =
          (Raised ValueError, one_record_world).
Proof.
  assert (E : ∃ fv, @form small_text (idle t_march) one_record_world =
                      (Done fv, one_record_world))
    by (eexists; vm_compute; reflexivity).
  destruct E as [fv E]. exists fv. split; [exact E|]. split.
  - destruct (proj1 (@form_has_the_days_of_the_month small_text
                       (idle t_march) one_record_world) fv _ E)
      as (_ & _ & _ & n & _ & Hn & _ & Hlen & _).
    rewrite Hlen. lia.
  - apply (proj2 (@form_has_the_days_of_the_month small_text
                    (type_month "" (idle t_march)) one_record_world)).
    by right.
Defined.

(** ** The total of the expenses of the form *)

Section FormExpenses.
Context `{TextConv}.

Lemma total_expenses_from_row (acc : float) (e : expense) (l : list pyval) :
  total_expenses_from acc (expense_dict e :: l) =
  (x ← float_of_int (ex_amount e); total_expenses_from (acc + x)%float l).
Proof.
  cbn [total_expenses_from]. unfold expense_dict, py_get, py_or.
  cbn [dict_lookup String.eqb Ascii.eqb Bool.eqb default mbind result_bind].
  unfold id. cbn [truthy].
  destruct (Z.eqb_spec (ex_amount e) 0) as [->|]; reflexivity.
Qed.

Lemma total_expenses_from_rows (acc : float) (rows : list expense) :
  total_expenses_from acc (map expense_dict rows) =
  (fl ← mapM (λ e, float_of_int (ex_amount e)) rows;
   Ok (fold_left PrimFloat.add fl acc)).
Proof.
  revert acc. induction rows as [|e rows IH]; intros acc; cbn [map mapM];
    [done|].
  rewrite total_expenses_from_row.
  destruct (float_of_int (ex_amount e)) as [x|err]; cbn; [|done].
  rewrite IH. by destruct (mapM _ rows).
Qed.

(** On the rows of the form, whose amounts are integers, the total of
    the expenses is the sum, from the left and from 0.0, of the amounts
    as doubles; it raises only [OverflowError], when an amount is
    beyond the doubles. *)
Theorem compute_total_expenses_of_rows (rows : list expense) :
  compute_total_expenses (map expense_dict rows) =
  (fl ← mapM (λ e, float_of_int (ex_amount e)) rows; Ok (float_sum fl)).
Proof. apply total_expenses_from_rows. Qed.
End FormExpenses.

(** ** The page behind the gate *)

Section Page.
Context `{TextConv}.
Variable build_pdf : list element → result string.
Variable inp : inputs.

(** The script after the gate: the form, the rows of the expenses, the
    banners, the three handlers, the last calculation, the listing and
    the edit of a record. *)
Definition page : script unit :=
  fv ← form inp;
  rows ← expense_rows inp;
  total_expenses ← eval (compute_total_expenses (map expense_dict rows));
  pie_chart total_expenses;;
  remaining_profit ← warning_banner total_expenses (fv_profit_amount fv);
  calc_handler inp fv total_expenses remaining_profit;;
  save_handler inp fv rows total_expenses remaining_profit;;
  pdf_handler build_pdf inp fv rows total_expenses remaining_profit;;
  show_last_summary;;
  listing build_pdf inp;;
  edit_section inp.

Lemma main_gate_page : main build_pdf inp = (gate inp;; page).
Proof. reflexivity. Qed.

Lemma keeps_page :
  clicked inp ≠ Some BSave → clicked inp ≠ Some BPdf →
  clicked inp ≠ Some BSaveChanges → keeps_files page.
Proof.
  intros Hsave Hpdf Hedit. unfold page.
  apply keeps_bind; [apply keeps_form|intros].
  apply keeps_bind; [apply keeps_expense_rows|intros].
  apply keeps_bind; [apply keeps_eval|intros].
  apply keeps_bind; [apply keeps_pie_chart|intros].
  apply keeps_bind; [apply keeps_warning_banner|intros].
  apply keeps_bind; [apply keeps_calc_handler|intros].
  apply keeps_bind; [by apply keeps_save_handler|intros].
  apply keeps_bind; [by apply keeps_pdf_handler|intros].
  apply keeps_bind; [apply keeps_show_last_summary|intros].
  apply keeps_bind; [apply keeps_listing_always|intros].
  by apply keeps_edit_section.
Qed.

(** Without a PIN file, a press of "Set PIN" with a text that is not
    four digits shows the error and does not stop: the run goes on with
    the whole page, the listing of the saved records included, with no
    PIN set and none entered; it writes no file. *)
Theorem invalid_set_pin_runs_the_page (w : world) :
  files w !! PIN_FILE = None → clicked inp = Some BSetPin →
  ¬ four_digits (in_set_pin inp) →
  main build_pdf inp w =
    page (with_shown w (shown w ++ [Warning_set_pin; Error_pin_format])) ∧
  files (snd (main build_pdf inp w)) = files w.
Proof.
  intros Hnone Hclick Hpin.
  assert (Hex : path_exists PIN_FILE (files w) = false).
  { unfold path_exists. rewrite Hnone. apply bool_decide_eq_false.
    by intros [? ?]. }
  apply (not_iff_compat (pin_test_four_digits _)) in Hpin.
  apply not_true_is_false in Hpin.
  assert (Hgate : gate inp w =
            (Done (), with_shown w (shown w ++ [Warning_set_pin; Error_pin_format]))).
  { unfold gate, pressed. run_script.
    rewrite Hex, Hclick, Hpin. cbn.
    rewrite bool_decide_eq_true_2 by done. cbn.
    unfold with_shown. by rewrite <- app_assoc. }
  assert (Hmain : main build_pdf inp w =
            page (with_shown w (shown w ++ [Warning_set_pin; Error_pin_format]))).
  { rewrite main_gate_page, bind_run, Hgate. reflexivity. }
  split; [exact Hmain|].
  rewrite Hmain. rewrite keeps_page by congruence. reflexivity.
Qed.
End Page.

Lemma invalid_set_pin_runs_the_page_witness :
  let inp := press BSetPin (type_pin "12" (idle t_march)) in
  @main small_text plain_pdf inp (fresh_world ∅) =
    @page small_text plain_pdf inp
      (with_shown (fresh_world ∅) [Warning_set_pin; Error_pin_format]) ∧
  files (snd (@main small_text plain_pdf inp (fresh_world ∅))) = ∅.
Proof.
  apply (@invalid_set_pin_runs_the_page small_text plain_pdf
           (press BSetPin (type_pin "12" (idle t_march))) (fresh_world ∅)).
  - reflexivity.
  - reflexivity.
  - intros [Hlen _]. discriminate Hlen.
Defined.

(** ** The report *)

Lemma mapM_py_int_ints `{TextConv} (l : list Z) :
  mapM py_int (map PInt l) = Ok l.
Proof.
  induction l as [|z l IH]; cbn [map mapM]; [done|].
  cbn [py_int mbind result_bind]. by rewrite IH.
Qed.

Section Report.
Context `{TextConv}.
Variable build_pdf : list element → result string.

Lemma mapM_expense_rows (rows : list expense) :
  mapM (λ e, n ← py_get e "name" (PStr "");
             a ← py_get e "amount" (PInt 0);
             x ← py_float a;
             r ← round_float x;
             Ok (n, r)) (map expense_dict rows) =
  mapM (λ e, x ← float_of_int (ex_amount e);
             r ← round_float x;
             Ok (PStr (ex_name e), r)) rows.
Proof.
  induction rows as [|e rows IH]; cbn [map mapM]; [done|].
  rewrite IH. reflexivity.
Qed.

(** The report of a record as the program saves it: the title, the
    logo when its file exists, the summary with the amounts rounded,
    one table row for each daily sale and one for each expense, and
    the tagline as a footer when it is not empty.  With finite amounts
    the function raises no exception of its own. *)
Theorem generate_pdf_bytes_of_a_saved_record (r : record)
    (rows : list expense) (erows : list (pyval * Z))
    (logo_path : option string) (fs : gmap string string) :
  expenses r = map expense_dict rows →
  finite (profit_amount r) = true → finite (total_expenses r) = true →
  finite (remaining_profit r) = true →
  mapM (λ e, x ← float_of_int (ex_amount e);
             z ← round_float x;
             Ok (PStr (ex_name e), z)) rows = Ok erows →
  ∃ pa te rp,
    round_float (profit_amount r) = Ok pa ∧
    round_float (total_expenses r) = Ok te ∧
    round_float (remaining_profit r) = Ok rp ∧
    generate_pdf_bytes build_pdf (record_dict r)
      (PList (map PInt (daily_sales r))) logo_path fs =
    build_pdf
      ([Title (PStr (shop_name r)) (PStr (month_name r)) (PInt (year r));
        Spacer] ++
       match logo_path with
       | Some p => if negb (String.eqb p "") && path_exists p fs
                   then [Logo p; Spacer] else []
       | None => []
       end ++
       [Summary (total_sales r) (PFloat (profit_pct r)) pa te rp; Spacer;
        Heading "Daily Sales"; DailyTable (daily_sales r); Spacer;
        Heading "Expenses"; ExpenseTable erows; Spacer] ++
       (if String.eqb (tagline r) "" then []
        else [Spacer; Tagline (PStr (tagline r))]))%list.
Proof.
  intros Hex Hpa Hte Hrp Hrows.
  destruct (round_float_finite _ Hpa) as [pa Epa].
  destruct (round_float_finite _ Hte) as [te Ete].
  destruct (round_float_finite _ Hrp) as [rp Erp].
  exists pa, te, rp. repeat (split; [done|]).
  unfold generate_pdf_bytes.
  change (py_get (record_dict r) "shop_name" (PStr "AR Shop"))
    with (Ok (PStr (shop_name r))).
  change (py_getitem (record_dict r) "month_name")
    with (Ok (PStr (month_name r))).
  change (py_getitem (record_dict r) "year") with (Ok (PInt (year r))).
  change (py_getitem (record_dict r) "total_sales")
    with (Ok (PInt (total_sales r))).
  change (py_getitem (record_dict r) "profit_pct")
    with (Ok (PFloat (profit_pct r))).
  change (py_getitem (record_dict r) "profit_amount")
    with (Ok (PFloat (profit_amount r))).
  change (py_getitem (record_dict r) "total_expenses")
    with (Ok (PFloat (total_expenses r))).
  change (py_getitem (record_dict r) "remaining_profit")
    with (Ok (PFloat (remaining_profit r))).
  change (py_getitem (record_dict r) "expenses")
    with (Ok (PList (expenses r))).
  change (py_get (record_dict r) "tagline" PNone)
    with (Ok (PStr (tagline r))).
  cbn [mbind result_bind fmt_pk py_round py_iter].
  rewrite Epa, Ete, Erp. cbn [mbind result_bind].
  rewrite mapM_py_int_ints. cbn [mbind result_bind].
  rewrite Hex, mapM_expense_rows, Hrows. cbn [mbind result_bind truthy].
  destruct (String.eqb (tagline r) ""); reflexivity.
Qed.
End Report.

Lemma generate_pdf_bytes_of_a_saved_record_witness :
  ∃ els, @generate_pdf_bytes small_text plain_pdf
           (record_dict (sample_record t_march 3 "March" "AR Book Mart"))
           (PList (map PInt [10; 20; 30]%Z)) None ∅ = plain_pdf els ∧
         DailyTable [10; 20; 30]%Z ∈ els.
Proof.
  destruct (@generate_pdf_bytes_of_a_saved_record small_text plain_pdf
              (sample_record t_march 3 "March" "AR Book Mart")
              [{| ex_name := "Rent"; ex_amount := 100 |}]
              [(PStr "Rent", 100%Z)] None ∅)
    as (pa & te & rp & _ & _ & _ & Hgen); try reflexivity.
  eexists. split; [exact Hgen|].
  cbn [app]. do 5 right. left.
Defined.

(** ** The total of the expenses is exact *)

(** Doubles of integral value: an [int] from 0 up to 2^53 is a double,
    and the sum of two such doubles is the double of the sum, with no
    rounding, as long as the sum stays below 2^53. *)
Module Exact.
Local Open Scope Z_scope.

Lemma digits2_size (p : positive) : digits2_pos p = Pos.size p.
Proof. induction p; simpl; congruence. Qed.

(** [p] shifted left by [n] binary places. *)
Definition shl (p : positive) (n : nat) : positive := Nat.iter n xO p.

Lemma shl_add (p : positive) (a b : nat) : shl (shl p a) b = shl p (a + b).
Proof.
  unfold shl. rewrite Nat.add_comm. induction b as [|b IH]; simpl; congruence.
Qed.

Lemma shl_S (p : positive) (n : nat) : shl p (S n) = xO (shl p n).
Proof. reflexivity. Qed.

Lemma shl_Z (p : positive) (n : nat) : Zpos (shl p n) = Zpos p * 2 ^ Z.of_nat n.
Proof.
  induction n as [|n IH].
  - cbn. lia.
  - rewrite shl_S, Pos2Z.inj_xO, IH, Nat2Z.inj_succ, Z.pow_succ_r by lia. lia.
Qed.

Lemma size_shl (p : positive) (n : nat) :
  Zpos (Pos.size (shl p n)) = Zpos (Pos.size p) + Z.of_nat n.
Proof.
  induction n as [|n IH].
  - cbn. lia.
  - rewrite shl_S. cbn [Pos.size]. rewrite Pos2Z.inj_succ, IH. lia.
Qed.

Lemma pos_iter_shl (p d : positive) : Pos.iter xO p d = shl p (Pos.to_nat d).
Proof. unfold shl. apply Pos2Nat.inj_iter. Qed.

Lemma iter_pos_nat {A} (f : A → A) (p : positive) (x : A) :
  SpecFloat.iter_pos f p x = Nat.iter (Pos.to_nat p) f x.
Proof.
  assert (Hadd : ∀ a b y, Nat.iter (a + b) f y = Nat.iter a f (Nat.iter b f y)).
  { intros a b y. induction a as [|a IH]; simpl; congruence. }
  revert x. induction p as [p IH|p IH|]; intros x; cbn [SpecFloat.iter_pos].
  - rewrite !IH, Pos2Nat.inj_xI.
    replace (S (2 * Pos.to_nat p))
      with (Pos.to_nat p + (Pos.to_nat p + 1))%nat by lia.
    rewrite !Hadd. reflexivity.
  - rewrite !IH, Pos2Nat.inj_xO.
    replace (2 * Pos.to_nat p)%nat with (Pos.to_nat p + Pos.to_nat p)%nat
      by lia.
    by rewrite Hadd.
  - reflexivity.
Qed.

(** Shifting right the places that were shifted in gives the mantissa
    back, exactly. *)
Lemma shr_shl (m : positive) (n : nat) :
  Nat.iter n shr_1 (Build_shr_record (Zpos (shl m n)) false false) =
  Build_shr_record (Zpos m) false false.
Proof.
  assert (Hsw : ∀ a y, Nat.iter a shr_1 (shr_1 y) = shr_1 (Nat.iter a shr_1 y)).
  { intros a y. induction a as [|a IH]; simpl; congruence. }
  induction n as [|n IH]; [reflexivity|].
  change (Nat.iter (S n) shr_1 ?x) with (shr_1 (Nat.iter n shr_1 x)).
  rewrite <- Hsw, shl_S. cbn [shr_1 orb]. exact IH.
Qed.

Lemma fexp_small (d : Z) : -1021 ≤ d → fexp prec emax d = d - 53.
Proof. intros Hd. unfold fexp, SpecFloat.emin, prec, emax. lia. Qed.

(** A mantissa of 53 bits with places shifted in rounds to itself. *)
Lemma binary_round_aux_shl (m : positive) (k : nat) (e : Z) :
  Zpos (Pos.size m) = 53 → -1074 ≤ e ≤ 971 →
  binary_round_aux prec emax false (Zpos (shl m k)) (e - Z.of_nat k) loc_Exact =
  S754_finite false m e.
Proof.
  intros Hm He. unfold binary_round_aux.
  assert (Hshr : shr_fexp prec emax (Zpos (shl m k)) (e - Z.of_nat k) loc_Exact =
                 (Build_shr_record (Zpos m) false false, e)).
  { unfold shr_fexp. cbn [Zdigits2 shr_record_of_loc].
    rewrite digits2_size, size_shl, Hm.
    replace (53 + Z.of_nat k + (e - Z.of_nat k)) with (53 + e) by lia.
    rewrite fexp_small by lia.
    replace (53 + e - 53 - (e - Z.of_nat k)) with (Z.of_nat k) by lia.
    destruct k as [|k].
    - cbn [Z.of_nat shr]. rewrite Z.sub_0_r. reflexivity.
    - change (Z.of_nat (S k)) with (Zpos (Pos.of_succ_nat k)) at 2.
      cbn [shr]. rewrite iter_pos_nat, SuccNat2Pos.id_succ, shr_shl.
      f_equal. lia. }
  rewrite Hshr. cbn [shr_m loc_of_shr_record round_nearest_even].
  assert (Hshr0 : shr_fexp prec emax (Zpos m) e loc_Exact =
                  (Build_shr_record (Zpos m) false false, e)).
  { unfold shr_fexp. cbn [Zdigits2 shr_record_of_loc].
    rewrite digits2_size, Hm, fexp_small by lia.
    replace (53 + e - 53 - e) with 0 by lia. reflexivity. }
  rewrite Hshr0. cbn [shr_m].
  assert ((e <=? emax - prec) = true) as -> by (unfold emax, prec; lia).
  reflexivity.
Qed.

(** The places a positive integer below 2^53 lacks to 53 bits. *)
Definition slack (p : positive) : nat := Z.to_nat (53 - Zpos (Pos.size p)).

(** The double of a positive integer below 2^53. *)
Definition canon (p : positive) : spec_float :=
  S754_finite false (shl p (slack p)) (Zpos (Pos.size p) - 53).

(** A positive integer below 2^53, scaled by a power of two, rounds to
    its double. *)
Lemma binary_round_scaled (p : positive) (j : nat) :
  Zpos (Pos.size p) ≤ 53 →
  binary_round prec emax false (shl p j) (- Z.of_nat j) = canon p.
Proof.
  intros Hp. unfold binary_round, canon.
  rewrite digits2_size, size_shl.
  replace (Zpos (Pos.size p) + Z.of_nat j + - Z.of_nat j)
    with (Zpos (Pos.size p)) by lia.
  rewrite fexp_small by lia.
  assert (Hsize : Zpos (Pos.size (shl p (slack p))) = 53)
    by (rewrite size_shl; unfold slack; lia).
  unfold shl_align.
  destruct (Zpos (Pos.size p) - 53 - - Z.of_nat j) as [|k|k] eqn:Ek.
  - replace (- Z.of_nat j) with (Zpos (Pos.size p) - 53 - Z.of_nat 0) by lia.
    replace j with (slack p) by (unfold slack; lia).
    change (shl p (slack p)) with (shl (shl p (slack p)) 0) at 1.
    apply binary_round_aux_shl; [done|lia].
  - replace (- Z.of_nat j)
      with (Zpos (Pos.size p) - 53 - Z.of_nat (Pos.to_nat k)) by lia.
    replace j with (slack p + Pos.to_nat k)%nat by (unfold slack; lia).
    rewrite <- shl_add.
    apply binary_round_aux_shl; [done|lia].
  - rewrite pos_iter_shl, shl_add.
    replace (j + Pos.to_nat k)%nat with (slack p) by (unfold slack; lia).
    replace (Zpos (Pos.size p) - 53)
      with (Zpos (Pos.size p) - 53 - Z.of_nat 0) at 1 by lia.
    change (shl p (slack p)) with (shl (shl p (slack p)) 0) at 1.
    apply binary_round_aux_shl; [done|lia].
Qed.

Lemma binary_normalize_pos (p : positive) :
  Zpos (Pos.size p) ≤ 53 →
  binary_normalize prec emax (Zpos p) 0 false = canon p.
Proof. intros Hp. exact (binary_round_scaled p 0 Hp). Qed.

Lemma size_below (p : positive) : Zpos p < 2 ^ 53 ↔ Zpos (Pos.size p) ≤ 53.
Proof.
  pose proof (Pos.size_gt p) as Hgt. pose proof (Pos.size_le p) as Hle.
  apply Pos2Z.pos_lt_pos in Hgt. apply Pos2Z.pos_le_pos in Hle.
  rewrite Pos2Z.inj_pow in Hgt, Hle. rewrite (Pos2Z.inj_xO p) in Hle.
  split.
  - intros Hp.
    assert (2 ^ Zpos (Pos.size p) < 2 ^ 54) as Hlt.
    { change (2 ^ 54) with (2 * 2 ^ 53). lia. }
    apply Z.pow_lt_mono_r_iff in Hlt; lia.
  - intros Hs.
    assert (2 ^ Zpos (Pos.size p) ≤ 2 ^ 53) by (apply Z.pow_le_mono_r; lia).
    lia.
Qed.

Lemma valid_canon (p : positive) :
  Zpos (Pos.size p) ≤ 53 → valid_binary (canon p) = true.
Proof.
  intros Hp.
  unfold canon, valid_binary, SpecFloat.valid_binary, bounded,
    canonical_mantissa.
  rewrite digits2_size, size_shl.
  replace (Zpos (Pos.size p) + Z.of_nat (slack p) + (Zpos (Pos.size p) - 53))
    with (Zpos (Pos.size p)) by (unfold slack; lia).
  rewrite fexp_small by lia. rewrite Z.eqb_refl.
  unfold emax, prec. cbn [andb]. lia.
Qed.

Lemma shl_plus (a b : positive) (j : nat) :
  (shl a j + shl b j)%positive = shl (a + b) j.
Proof.
  apply Pos2Z.inj. rewrite Pos2Z.inj_add, !shl_Z, Pos2Z.inj_add. lia.
Qed.

Lemma shl_align_fst (p : positive) (s : nat) (e ez : Z) :
  ez ≤ e →
  fst (shl_align (shl p s) e ez) = shl p (s + Z.to_nat (e - ez)).
Proof.
  intros He. unfold shl_align.
  destruct (ez - e) as [|k|k] eqn:Ek; cbn [fst].
  - replace (Z.to_nat (e - ez)) with 0%nat by lia. by rewrite Nat.add_0_r.
  - lia.
  - rewrite pos_iter_shl, shl_add. f_equal. lia.
Qed.

(** The sum of the doubles of two positive integers is the double of
    their sum, when this is below 2^53. *)
Lemma SFadd_canon (a b : positive) :
  Zpos (a + b) < 2 ^ 53 →
  SFadd prec emax (canon a) (canon b) = canon (a + b).
Proof.
  intros Hab.
  assert (Ha : Zpos (Pos.size a) ≤ 53) by (apply size_below; lia).
  assert (Hb : Zpos (Pos.size b) ≤ 53) by (apply size_below; lia).
  assert (Hs : Zpos (Pos.size (a + b)) ≤ 53) by by apply size_below.
  unfold canon at 1 2. cbn [SFadd cond_Zopp].
  set (ez := Z.min (Zpos (Pos.size a) - 53) (Zpos (Pos.size b) - 53)).
  rewrite !shl_align_fst by lia.
  replace (slack a + Z.to_nat (Zpos (Pos.size a) - 53 - ez))%nat
    with (Z.to_nat (- ez)) by (unfold slack; lia).
  replace (slack b + Z.to_nat (Zpos (Pos.size b) - 53 - ez))%nat
    with (Z.to_nat (- ez)) by (unfold slack; lia).
  rewrite <- Pos2Z.inj_add, shl_plus. cbn [binary_normalize].
  replace ez with (- Z.of_nat (Z.to_nat (- ez))) at 2 by lia.
  by apply binary_round_scaled.
Qed.

(** The double of an integer from 0 up to 2^53. *)
Definition double_of (z : Z) : spec_float :=
  match z with
  | Zpos p => canon p
  | _ => S754_zero false
  end.

Lemma valid_double_of (z : Z) :
  z < 2 ^ 53 → valid_binary (double_of z) = true.
Proof.
  destruct z as [|p|p]; intros Hz; cbn [double_of]; try reflexivity.
  apply valid_canon. by apply size_below.
Qed.

Lemma SFadd_double_of (a b : Z) :
  0 ≤ a → 0 ≤ b → a + b < 2 ^ 53 →
  SFadd prec emax (double_of a) (double_of b) = double_of (a + b).
Proof.
  intros Ha Hb Hab. destruct a as [|p|p], b as [|q|q]; try lia;
    try reflexivity.
  cbn [double_of Z.add]. by apply SFadd_canon.
Qed.

Lemma add_exact (a b : Z) :
  0 ≤ a → 0 ≤ b → a + b < 2 ^ 53 →
  (SF2Prim (double_of a) + SF2Prim (double_of b))%float =
  SF2Prim (double_of (a + b)).
Proof.
  intros Ha Hb Hab.
  rewrite <- (SF2Prim_Prim2SF (_ + _)%float). f_equal.
  rewrite add_spec, !Prim2SF_SF2Prim by (apply valid_double_of; lia).
  by apply SFadd_double_of.
Qed.

Lemma float_of_int_exact (z : Z) :
  0 ≤ z < 2 ^ 53 → float_of_int z = Ok (SF2Prim (double_of z)).
Proof.
  intros Hz. unfold float_of_int. destruct z as [|p|p]; try lia.
  - reflexivity.
  - rewrite binary_normalize_pos by (apply size_below; lia). reflexivity.
Qed.

Lemma sum_Z_nonneg (l : list Z) : Forall (λ z, 0 ≤ z) l → 0 ≤ sum_Z l.
Proof.
  induction 1 as [|z l Hz _ IH]; unfold sum_Z in *; cbn [foldr]; lia.
Qed.

Lemma fold_add_exact (l : list Z) (acc : Z) :
  Forall (λ z, 0 ≤ z) l → 0 ≤ acc → acc + sum_Z l < 2 ^ 53 →
  fold_left PrimFloat.add (map (λ z, SF2Prim (double_of z)) l)
    (SF2Prim (double_of acc)) =
  SF2Prim (double_of (acc + sum_Z l)).
Proof.
  intros Hl. revert acc.
  induction Hl as [|z l Hz Hl IH]; intros acc Hacc Hsum.
  - unfold sum_Z. cbn. by rewrite Z.add_0_r.
  - pose proof (sum_Z_nonneg l Hl) as Hnn.
    change (sum_Z (z :: l)) with (z + sum_Z l) in *.
    cbn [map fold_left]. rewrite add_exact by lia.
    rewrite IH by lia. f_equal. f_equal. lia.
Qed.

Lemma mapM_float_of_int_exact (l : list Z) :
  Forall (λ z, 0 ≤ z) l → sum_Z l < 2 ^ 53 →
  mapM float_of_int l = Ok (map (λ z, SF2Prim (double_of z)) l).
Proof.
  induction 1 as [|z l Hz Hl IH]; intros Hsum; [reflexivity|].
  pose proof (sum_Z_nonneg l Hl) as Hnn.
  change (sum_Z (z :: l)) with (z + sum_Z l) in *.
  cbn [mapM map]. rewrite float_of_int_exact by lia.
  cbn [mbind result_bind]. rewrite IH by lia. reflexivity.
Qed.

(** Rounding the double of an integer gives the integer. *)
Lemma round_float_double_of (z : Z) :
  0 ≤ z < 2 ^ 53 → round_float (SF2Prim (double_of z)) = Ok z.
Proof.
  intros Hz. unfold round_float.
  rewrite Prim2SF_SF2Prim by (apply valid_double_of; lia).
  destruct z as [|p|p]; try lia; [reflexivity|].
  assert (Hp : Zpos (Pos.size p) ≤ 53) by (apply size_below; lia).
  cbn [double_of canon]. rewrite shl_Z.
  destruct (0 <=? Zpos (Pos.size p) - 53) eqn:He.
  - apply Z.leb_le in He.
    replace (slack p) with 0%nat by (unfold slack; lia).
    replace (Zpos (Pos.size p) - 53) with 0 by lia.
    cbn [Z.of_nat]. f_equal. lia.
  - apply Z.leb_gt in He.
    replace (- (Zpos (Pos.size p) - 53)) with (Z.of_nat (slack p))
      by (unfold slack; lia).
    assert (Hpow : 0 < 2 ^ Z.of_nat (slack p)) by (apply Z.pow_pos_nonneg; lia).
    rewrite Z.div_mul, Z.mod_mul by lia.
    assert ((2 * 0 ?= 2 ^ Z.of_nat (slack p)) = Lt) as ->
      by (apply Z.compare_lt_iff; lia).
    reflexivity.
Qed.

(** The double 1.0 and the product by it. *)
Lemma mul_one_exact (z : Z) :
  0 ≤ z < 2 ^ 53 →
  (SF2Prim (double_of z) * 1)%float = SF2Prim (double_of z).
Proof.
  intros Hz.
  rewrite <- (SF2Prim_Prim2SF (_ * _)%float). f_equal.
  rewrite mul_spec, Prim2SF_SF2Prim by (apply valid_double_of; lia).
  change (Prim2SF 1) with (S754_finite false (shl 1 52) (-52)).
  destruct z as [|p|p]; try lia; [reflexivity|].
  assert (Hp : Zpos (Pos.size p) ≤ 53) by (apply size_below; lia).
  cbn [double_of]. unfold SF64mul, canon. cbn [SFmul xorb].
  assert (shl p (slack p) * shl 1 52 = shl (shl p (slack p)) 52)%positive
    as ->.
  { apply Pos2Z.inj. rewrite Pos2Z.inj_mul, !shl_Z. lia. }
  replace (Zpos (Pos.size p) - 53 + -52)
    with (Zpos (Pos.size p) - 53 - Z.of_nat 52) by lia.
  apply binary_round_aux_shl; [|lia].
  rewrite size_shl. unfold slack. lia.
Qed.

Lemma mul_zero_exact (z : Z) :
  0 ≤ z < 2 ^ 53 → (SF2Prim (double_of z) * 0)%float = 0%float.
Proof.
  intros Hz.
  rewrite <- (SF2Prim_Prim2SF (_ * _)%float).
  rewrite mul_spec, Prim2SF_SF2Prim by (apply valid_double_of; lia).
  change (Prim2SF 0) with (S754_zero false).
  destruct z as [|p|p]; try lia; reflexivity.
Qed.
End Exact.

Lemma mapM_map {A B C} (g : B → result C) (h : A → B) (l : list A) :
  mapM g (map h l) = mapM (λ x, g (h x)) l.
Proof. induction l as [|x l IH]; cbn [map mapM]; [done|]. by rewrite IH. Qed.

(** With amounts that are not negative and add up to less than 2^53,
    the total of the expenses of the form is exact: it is the double of
    the sum of the amounts as integers, whatever the order and the
    number of the rows. *)
Theorem compute_total_expenses_exact `{TextConv} (rows : list expense) :
  Forall (λ e, (0 ≤ ex_amount e)%Z) rows →
  (sum_Z (map ex_amount rows) < 2 ^ 53)%Z →
  compute_total_expenses (map expense_dict rows) =
  float_of_int (sum_Z (map ex_amount rows)).
Proof.
  intros Hrows Hsum.
  assert (Hl : Forall (λ z, (0 ≤ z)%Z) (map ex_amount rows)).
  { apply Forall_forall. intros z (e & -> & He)%list_elem_of_fmap.
    rewrite Forall_forall in Hrows. by apply Hrows. }
  pose proof (Exact.sum_Z_nonneg _ Hl) as Hnn.
  unfold compute_total_expenses. rewrite total_expenses_from_rows.
  rewrite <- (mapM_map float_of_int ex_amount).
  rewrite Exact.mapM_float_of_int_exact by done.
  cbn [mbind result_bind].
  rewrite Exact.float_of_int_exact by lia.
  change 0%float with (SF2Prim (Exact.double_of 0)).
  rewrite Exact.fold_add_exact by (done || lia).
  reflexivity.
Qed.

Lemma compute_total_expenses_exact_witness :
  @compute_total_expenses small_text
    (map expense_dict [{| ex_name := "Rent"; ex_amount := 100 |};
                       {| ex_name := "Tea"; ex_amount := 5 |}]) =
  float_of_int 105.
Proof.
  apply (@compute_total_expenses_exact small_text
           [{| ex_name := "Rent"; ex_amount := 100 |};
            {| ex_name := "Tea"; ex_amount := 5 |}]).
  - repeat constructor; cbn; lia.
  - reflexivity.
Defined.

(** What [fmt_pk] prints for the total of the expenses of the form is
    the sum of the amounts as integers, to the unit: with amounts that
    are not negative and add up to less than 2^53, neither the sum over
    doubles nor the rounding loses anything. *)
Theorem fmt_pk_of_total_expenses `{TextConv} (rows : list expense) :
  Forall (λ e, (0 ≤ ex_amount e)%Z) rows →
  (sum_Z (map ex_amount rows) < 2 ^ 53)%Z →
  ∃ te, compute_total_expenses (map expense_dict rows) = Ok te ∧
        fmt_pk (PFloat te) = Ok (sum_Z (map ex_amount rows)).
Proof.
  intros Hrows Hsum.
  assert (Hl : Forall (λ z, (0 ≤ z)%Z) (map ex_amount rows)).
  { apply Forall_forall. intros z (e & -> & He)%list_elem_of_fmap.
    rewrite Forall_forall in Hrows. by apply Hrows. }
  pose proof (Exact.sum_Z_nonneg _ Hl) as Hnn.
  exists (SF2Prim (Exact.double_of (sum_Z (map ex_amount rows)))). split.
  - unfold compute_total_expenses. rewrite total_expenses_from_rows.
    rewrite <- (mapM_map float_of_int ex_amount).
    rewrite Exact.mapM_float_of_int_exact by done.
    cbn [mbind result_bind].
    change 0%float with (SF2Prim (Exact.double_of 0)).
    rewrite Exact.fold_add_exact by (done || lia).
    reflexivity.
  - cbn [fmt_pk py_round]. apply Exact.round_float_double_of. lia.
Qed.

Lemma fmt_pk_of_total_expenses_witness :
  ∃ te, @compute_total_expenses small_text
          (map expense_dict [{| ex_name := "Rent"; ex_amount := 100 |};
                             {| ex_name := "Tea"; ex_amount := 5 |}]) = Ok te ∧
        fmt_pk (PFloat te) = Ok 105%Z.
Proof.
  apply (@fmt_pk_of_total_expenses small_text
           [{| ex_name := "Rent"; ex_amount := 100 |};
            {| ex_name := "Tea"; ex_amount := 5 |}]).
  - repeat constructor; cbn; lia.
  - reflexivity.
Defined.

(** At the ends of the slider the profit is exact: with total sales
    from 0 up to 2^53, a percentage of 0 gives the profit 0.0 and a
    percentage of 100 gives the total of the sales as a double. *)
Theorem compute_profit_at_the_ends (total_sales : Z) :
  (0 ≤ total_sales < 2 ^ 53)%Z →
  compute_profit total_sales 0 = Ok 0%float ∧
  compute_profit total_sales 100 = float_of_int total_sales.
Proof.
  intros Hts. unfold compute_profit.
  rewrite Exact.float_of_int_exact by done. cbn [mbind result_bind].
  change (0 / 100)%float with 0%float. change (100 / 100)%float with 1%float.
  rewrite Exact.mul_zero_exact, Exact.mul_one_exact by done. done.
Qed.

Lemma compute_profit_at_the_ends_witness :
  compute_profit 60 0 = Ok 0%float ∧
  compute_profit 60 100 = float_of_int 60.
Proof.
  apply (compute_profit_at_the_ends 60). lia.
Defined.

(** ** What "Save Record (JSON)" saves *)

Section SaveTheForm.
Context `{TextConv}.
Variable build_pdf : list element → result string.
Variable inp : inputs.

(** The rows of the expenses when no button of theirs is pressed. *)
Lemma expense_rows_idle (w : world) :
  (∀ i, clicked inp ≠ Some (BRemove i)) → clicked inp ≠ Some BAddExpense →
  let n := from_option length 1%nat (ss_expenses (state w)) in
  let rows := map (widget_row inp) (seq 0 n) in
  expense_rows inp w = (Done rows, with_state w (set_expenses rows (state w))).
Proof.
  intros Hrm Hadd n rows. unfold expense_rows. rewrite bind_get_state.
  assert (Hp : pressed inp BAddExpense = false)
    by (unfold pressed; by apply bool_decide_eq_false_2).
  destruct (ss_expenses (state w)) as [l|] eqn:El.
  - rewrite bind_ret. rewrite bind_run, (get_expenses_run w l El).
    cbv beta iota. rewrite bind_run, (expense_loop_idle inp _ _ w l El Hrm).
    cbv beta iota. rewrite Hp, bind_ret.
    rewrite overwrite_rows_all. by apply get_expenses_run.
  - rewrite bind_run.
    change (put_state ?s w) with (Done (), with_state w s). cbv beta iota.
    set (rent := {| ex_name := "Rent"; ex_amount := 0 |}).
    rewrite bind_run, (get_expenses_run _ [rent]) by reflexivity.
    cbv beta iota.
    rewrite bind_run, (expense_loop_idle inp _ _ _ [rent]) by done.
    cbv beta iota. rewrite Hp, bind_ret.
    rewrite (overwrite_rows_all inp [rent]). by apply get_expenses_run.
Qed.

(** The record the save handler writes, field by field. *)
Lemma save_handler_record fv rows te rp (w : world) :
  clicked inp = Some BSave →
  ∃ r path w1,
    save_handler inp fv rows te rp w = (Done (), w1) ∧
    files w1 = <[path := Json.dumps (record_dict r)]> (files w) ∧
    month r = fv_month_number fv ∧ month_name r = fv_month_name fv ∧
    year r = fv_year fv ∧ shop_name r = fv_shop_name fv ∧
    tagline r = fv_tagline fv ∧ profit_pct r = fv_profit_pct fv ∧
    daily_sales r = fv_daily_sales fv ∧ expenses r = map expense_dict rows.
Proof.
  intros Hclick.
  set (r := {| created_at := isoformat (clock inp (ticks w));
               month := fv_month_number fv;
               month_name := fv_month_name fv;
               year := fv_year fv;
               shop_name := fv_shop_name fv;
               tagline := fv_tagline fv;
               profit_pct := fv_profit_pct fv;
               total_sales := fv_total_sales fv;
               profit_amount := fv_profit_amount fv;
               total_expenses := te;
               remaining_profit := rp;
               daily_sales := fv_daily_sales fv;
               expenses := map expense_dict rows |}).
  assert (Hr : build_record inp fv rows te rp w =
               (Done r, {| files := files w; state := state w;
                           shown := shown w; ticks := S (ticks w) |}))
    by reflexivity.
  exists r. eexists _, _. split.
  - unfold save_handler, pressed. rewrite Hclick.
    rewrite bool_decide_eq_true_2 by done.
    rewrite bind_run, Hr. rewrite bind_run, save_record_run. reflexivity.
  - cbn [files]. unfold save_record_json. cbn [snd]. repeat split.
Qed.

(** The files are as before, or one record has been written that holds
    what the widgets of the form hold. *)
Definition wrote_the_form (w : world) (after : gmap string string) : Prop :=
  after = files w ∨
  ∃ (r : record) (path : string) (days : Z),
    after = <[path := Json.dumps (record_dict r)]> (files w) ∧
    shop_name r = in_shop_name inp ∧ tagline r = in_tagline inp ∧
    month_name r = in_month_name inp ∧ year r = in_year inp ∧
    profit_pct r = in_profit_pct inp ∧
    calendar_month_name !! Z.to_nat (month r) = Some (in_month_name inp) ∧
    days_in_month (in_year inp) (month r) = Ok days ∧
    daily_sales r = map (in_day inp) (seqZ 1 days) ∧
    expenses r =
      map expense_dict
        (map (widget_row inp)
           (seq 0 (from_option length 1%nat (ss_expenses (state w))))).

(** A run with "Save Record (JSON)" pressed either writes nothing (it
    stops at the gate or ends with an exception before the handler) or
    writes one record that holds what the widgets hold: the shop name
    and the tagline, the month selected with its number, the year, the
    percentage, the value of the widget of each day of that month, and
    for each row of expenses of the session the name and the amount of
    its widgets. *)
Theorem save_writes_what_the_form_holds (w : world) :
  clicked inp = Some BSave →
  wrote_the_form w (files (snd (main build_pdf inp w))).
Proof.
  intros Hclick.
  set (x0 := ss_expenses (state w)).
  assert (Hx0 : ss_expenses (state w) = x0) by done.
  unfold wrote_the_form. fold x0. clearbody x0.
  unfold main.
  set (Q := λ after : gmap string string,
         after = files w ∨
         ∃ (r : record) (path : string) (days : Z),
           after = <[path := Json.dumps (record_dict r)]> (files w) ∧
           shop_name r = in_shop_name inp ∧ tagline r = in_tagline inp ∧
           month_name r = in_month_name inp ∧ year r = in_year inp ∧
           profit_pct r = in_profit_pct inp ∧
           calendar_month_name !! Z.to_nat (month r) =
             Some (in_month_name inp) ∧
           days_in_month (in_year inp) (month r) = Ok days ∧
           daily_sales r = map (in_day inp) (seqZ 1 days) ∧
           expenses r =
             map expense_dict
               (map (widget_row inp) (seq 0 (from_option length 1%nat x0)))).
  change (Q (files (snd ((gate inp ≫= λ _, page build_pdf inp) w)))).
  apply (bind_frame_state (λ s, ss_expenses s = x0) _ _ w Q);
    [apply keeps_gate; congruence|by apply preserves_gate|done|by left|].
  intros [] w1 _ Hf1 Hs1. unfold page.
  apply (bind_frame_state (λ s, ss_expenses s = x0) _ _ w1 Q);
    [apply keeps_form|apply preserves_form|done|left; congruence|].
  intros fv w2 Hform Hf2 Hs2.
  destruct (form_inputs inp _ _ _ Hform)
    as (Hmn & Hyr & Hshop & Htag & Hpct & (days & Hdays & Hdaily) & Hidx & _).
  apply list_index_lookup in Hidx as [_ Hidx].
  rewrite bind_run, expense_rows_idle by congruence. cbv beta iota zeta.
  rewrite Hs2.
  match goal with |- Q (files (snd (_ ?w'))) =>
    assert (Hf3 : files w' = files w) by (cbn; congruence);
    revert Hf3; generalize w'
  end.
  intros w3 Hf3.
  apply (bind_frame _ _ w3 Q); [apply keeps_eval|left; congruence|].
  intros te w4 _ Hf4.
  apply (bind_frame _ _ w4 Q); [apply keeps_pie_chart|left; congruence|].
  intros [] w5 _ Hf5.
  apply (bind_frame _ _ w5 Q); [apply keeps_warning_banner|left; congruence|].
  intros rp w6 _ Hf6.
  apply (bind_frame _ _ w6 Q); [apply keeps_calc_handler|left; congruence|].
  intros [] w7 _ Hf7.
  rewrite bind_run.
  match goal with |- context [save_handler inp ?fv ?rows ?te ?rp ?w'] =>
    destruct (save_handler_record fv rows te rp w' Hclick)
      as (r & path & wS & Hrun & Hfiles & Hm & Hmname & Hy & Hsh & Htg & Hp
          & Hd & He)
  end.
  rewrite Hrun. cbv beta iota.
  rewrite (keeps_main_after_save build_pdf inp _ _ _ _ Hclick wS), Hfiles.
  right. exists r, path, days. split; [f_equal; congruence|].
  rewrite Hsh, Htg, Hmname, Hy, Hp, Hm, Hd, He.
  repeat split; try done.
Qed.
End SaveTheForm.

Lemma save_writes_what_the_form_holds_witness :
  let inp := press BSave (idle t_march_later) in
  clicked inp = Some BSave ∧
  ∃ (r : record) (path : string),
    files (snd (@main small_text plain_pdf inp one_record_world)) =
      <[path := @Json.dumps small_text (record_dict r)]>
        (files one_record_world) ∧
    shop_name r = in_shop_name inp ∧ month_name r = in_month_name inp ∧
    expenses r = [expense_dict (widget_row inp 0)].
Proof.
  cbv zeta. split; [reflexivity|].
  destruct (@save_writes_what_the_form_holds small_text plain_pdf
              (press BSave (idle t_march_later)) one_record_world eq_refl)
    as [Hsame|(r & path & days & Hfiles & Hshop & _ & Hmn & _ & _ & _ & _
               & _ & He)].
  - apply (f_equal (λ m : gmap string string,
             m !! path_join RECORDS_DIR
                    (record_filename "March" 2025 t_march_later))) in Hsame.
    vm_compute in Hsame. discriminate Hsame.
  - exists r, path. split; [exact Hfiles|]. split; [exact Hshop|].
    split; [exact Hmn|exact He].
Defined.
